(** * Nevada draw reports: block segmentation and row reconstruction

    A shallow embedding of the four NDOW report scanners

      - [scripts/parse_ndow_pdf_text.py]  (module [PdfText])
      - [scripts/parse_ndow_folder.py]    (module [Folder])
      - [scripts/import_ndow_urls.py]     (module [ImportUrls])
      - [scripts/parse_ndow_pdf.py]       (module [PdfTable])

    Python [str] values are modelled as [string] (ASCII text), Python
    integers as [Z], list indices and page numbers as [nat], [None]-able
    values as [option].  A [while i < len(xs)] loop that reads [xs[i]] and
    advances [i] by one is a structural recursion over the suffix
    [skipn i xs] that carries [i] along.  The input of a scanner is the
    list of the page texts of a document, which the extraction library
    provides; [int] is taken to accept every run of digits. *)

From Stdlib Require Import List String Ascii ZArith Arith Bool Lia.
From Stdlib Require Import Sorting.Sorted Sorting.Permutation.
Import ListNotations.
Open Scope string_scope.
Open Scope nat_scope.

(** ** Python string primitives used by the scripts *)

Module Py.

(** [str.isspace] on ASCII: TAB, LF, VT, FF, CR, FS, GS, RS, US and space.
    This is also the class [\s] of [re] on [str] patterns. *)
Definition is_space (c : ascii) : bool :=
  let n := nat_of_ascii c in
  ((9 <=? n) && (n <=? 13)) || ((28 <=? n) && (n <=? 32)).

(** The class [\d] on ASCII. *)
Definition is_digit (c : ascii) : bool :=
  let n := nat_of_ascii c in (48 <=? n) && (n <=? 57).

(** The class [\w] on ASCII: letters, digits and underscore. *)
Definition is_word (c : ascii) : bool :=
  let n := nat_of_ascii c in
  is_digit c || ((65 <=? n) && (n <=? 90)) || ((97 <=? n) && (n <=? 122))
  || (n =? 95).

Definition startswith (s p : string) : bool := String.prefix p s.

Fixpoint lstrip (s : string) : string :=
  match s with
  | String c s' => if is_space c then lstrip s' else s
  | EmptyString => EmptyString
  end.

Fixpoint rstrip (s : string) : string :=
  match s with
  | String c s' =>
      match rstrip s' with
      | EmptyString => if is_space c then EmptyString else String c EmptyString
      | r => String c r
      end
  | EmptyString => EmptyString
  end.

(** [s.strip()] *)
Definition strip (s : string) : string := rstrip (lstrip s).

Definition lower_ascii (c : ascii) : ascii :=
  let n := nat_of_ascii c in
  if (65 <=? n) && (n <=? 90) then ascii_of_nat (n + 32) else c.

(** [s.lower()] *)
Fixpoint lower (s : string) : string :=
  match s with
  | String c s' => String (lower_ascii c) (lower s')
  | EmptyString => EmptyString
  end.

(** Truthiness of a [str]: non-empty. *)
Definition nonempty (s : string) : bool :=
  match s with EmptyString => false | _ => true end.

(** [s.replace(pat, "")] for a non-empty [pat]: the occurrences of [pat] are
    found left to right without overlap and dropped.  [skip] counts the
    characters of the current occurrence that are still to be dropped. *)
Fixpoint remove_from (pat s : string) (skip : nat) : string :=
  match s with
  | EmptyString => EmptyString
  | String c s' =>
      match skip with
      | S k => remove_from pat s' k
      | O => if String.prefix pat s
             then remove_from pat s' (String.length pat - 1)
             else String c (remove_from pat s' 0)
      end
  end.

Definition remove_all (pat s : string) : string := remove_from pat s 0.

(** [pat in s] *)
Fixpoint contains (pat s : string) : bool :=
  String.prefix pat s ||
  match s with
  | String _ s' => contains pat s'
  | EmptyString => false
  end.

(** [s.split()]: the maximal runs of non-space characters.  [cur] is the
    run being read, if any. *)
Fixpoint split_from (s : string) (cur : option string) : list string :=
  match s with
  | EmptyString => match cur with Some w => [w] | None => [] end
  | String c s' =>
      if is_space c
      then match cur with
           | Some w => w :: split_from s' None
           | None => split_from s' None
           end
      else match cur with
           | Some w => split_from s' (Some (w ++ String c EmptyString))
           | None => split_from s' (Some (String c EmptyString))
           end
  end.

Definition split (s : string) : list string := split_from s None.

(** [s.split("\n")]: always at least one piece. *)
Fixpoint split_lines_from (s : string) (cur : string) : list string :=
  match s with
  | EmptyString => [cur]
  | String c s' =>
      if (nat_of_ascii c =? 10)
      then cur :: split_lines_from s' EmptyString
      else split_lines_from s' (cur ++ String c EmptyString)
  end.

Definition split_lines (s : string) : list string :=
  split_lines_from s EmptyString.

(** [sep.join(xs)] *)
Definition join (sep : string) (xs : list string) : string :=
  String.concat sep xs.

(** [int(s)] for a string of decimal digits. *)
Fixpoint int_of_digits_from (s : string) (acc : Z) : Z :=
  match s with
  | EmptyString => acc
  | String c s' =>
      int_of_digits_from s' (10 * acc + Z.of_nat (nat_of_ascii c - 48))%Z
  end.

Definition int_of_digits (s : string) : Z := int_of_digits_from s 0.

(** Drops the leading characters that satisfy [p]. *)
Fixpoint drop_while (p : ascii -> bool) (s : string) : string :=
  match s with
  | String c s' => if p c then drop_while p s' else s
  | EmptyString => EmptyString
  end.

Definition starts_with_class (p : ascii -> bool) (s : string) : bool :=
  match s with String c _ => p c | EmptyString => false end.

(** [sum(xs)] *)
Definition sum (xs : list Z) : Z := fold_left Z.add xs 0%Z.

End Py.

(** ** Rows and their reconstruction

    [ints_from_line] and [parse_block_rows] have the same text in
    [parse_ndow_pdf_text.py], [parse_ndow_folder.py] and
    [import_ndow_urls.py]; they are embedded once. *)

Record Row := mkRow {
  bp : Z;
  successfulByChoice : list Z;
  totalByChoice : list Z;
  totalApplicants : Z
}.

(** [re.findall(r"\d[\d,]*", line)]: a match starts at a digit and extends
    over the longest run of digits and commas.  [cur] is the match being
    read, if any. *)
Fixpoint findall_numbers (s : string) (cur : option string) : list string :=
  match s with
  | EmptyString => match cur with Some w => [w] | None => [] end
  | String c s' =>
      match cur with
      | Some w =>
          if Py.is_digit c || (nat_of_ascii c =? 44)
          then findall_numbers s' (Some (w ++ String c EmptyString))
          else w :: findall_numbers s' None
      | None =>
          if Py.is_digit c
          then findall_numbers s' (Some (String c EmptyString))
          else findall_numbers s' None
      end
  end.

Definition ints_from_line (line : string) : list Z :=
  map (fun x => Py.int_of_digits (Py.remove_all "," x))
      (findall_numbers line None).

(** The body of the [for line in row_lines] loop: [None] is [continue],
    [Some r] is [rows.append(r)]. *)
Definition row_of_line (line : string) : option Row :=
  let nums := ints_from_line line in
  match nums with
  | [] => None
  | bp :: remaining =>
      if (List.length remaining <? 5) then None
      else
        let success_count := (List.length remaining - 5) in
        let success_raw := firstn success_count remaining in
        let totals := firstn 5 (skipn success_count remaining) in
        let successful := firstn 5 (success_raw ++ [0; 0; 0; 0; 0]%Z)%list in
        Some (mkRow bp successful totals (Py.sum totals))
  end.

Fixpoint collect_rows (row_lines : list string) (rows : list Row) : list Row :=
  match row_lines with
  | [] => rows
  | line :: rest =>
      match row_of_line line with
      | Some r => collect_rows rest (rows ++ [r])%list
      | None => collect_rows rest rows
      end
  end.

(** [rows.sort(key=lambda r: r["bp"])]: Python's [list.sort] is stable.
    An insertion that passes over the elements with a key less than or
    equal to the new one, applied to the elements from the last to the
    first, is the stable sort. *)
Section StableSort.
Context {A : Type} (key : A -> Z).

Fixpoint insert_by (x : A) (l : list A) : list A :=
  match l with
  | [] => [x]
  | y :: l' =>
      if (key x <=? key y)%Z then x :: l else y :: insert_by x l'
  end.

Fixpoint sort_by (l : list A) : list A :=
  match l with
  | [] => []
  | x :: l' => insert_by x (sort_by l')
  end.
End StableSort.

Definition parse_block_rows (row_lines : list string) : list Row :=
  sort_by bp (collect_rows row_lines []).

(** ** Line stream: regular expressions of the scanners and page text *)

(** [Some rest] when [s] is [p] followed by [rest]. *)
Fixpoint skip_prefix (p s : string) : option string :=
  match p, s with
  | EmptyString, _ => Some s
  | String a p', String b s' =>
      if Ascii.eqb a b then skip_prefix p' s' else None
  | String _ _, EmptyString => None
  end.

(** One or more characters of the class [p], as many as there are: what a
    greedy [+] consumes when the next item of the pattern excludes [p]. *)
Definition many1 (p : ascii -> bool) (s : string) : option string :=
  if Py.starts_with_class p s then Some (Py.drop_while p s) else None.

Definition and_then {A B : Type} (x : option A) (f : A -> option B)
  : option B :=
  match x with Some a => f a | None => None end.

Definition is_some {A : Type} (x : option A) : bool :=
  match x with Some _ => true | None => false end.

(** The pattern [Page\s+\d+\s+of\s+\d+] matched at the start of [s]. *)
Definition footer_at (s : string) : bool :=
  is_some
    (and_then (skip_prefix "Page" s) (fun s =>
     and_then (many1 Py.is_space s) (fun s =>
     and_then (many1 Py.is_digit s) (fun s =>
     and_then (many1 Py.is_space s) (fun s =>
     and_then (skip_prefix "of" s) (fun s =>
     and_then (many1 Py.is_space s) (fun s =>
     many1 Py.is_digit s))))))).

(** [re.search(r"Page\s+\d+\s+of\s+\d+", l)] *)
Fixpoint is_footer (l : string) : bool :=
  footer_at l ||
  match l with
  | String _ l' => is_footer l'
  | EmptyString => false
  end.

(** [re.match(r"^\d+\b", l)]: a leading run of digits that does not run
    into a letter or an underscore. *)
Definition is_row_line (l : string) : bool :=
  Py.starts_with_class Py.is_digit l &&
  negb (Py.starts_with_class Py.is_word (Py.drop_while Py.is_digit l)).

(** [re.match(r"^(R|NR)\s+\S+", line)] *)
Definition is_title (line : string) : bool :=
  let tail_ok (r : option string) :=
    match and_then r (many1 Py.is_space) with
    | Some r' => Py.nonempty r'
    | None => false
    end in
  tail_ok (skip_prefix "R" line) || tail_ok (skip_prefix "NR" line).

(** The lines of one page: split at newlines, stripped, the empty ones and
    the page footers dropped. *)
Definition page_lines (text : string) : list string :=
  filter (fun l => negb (is_footer l))
    (map Py.strip
       (filter (fun l => Py.nonempty (Py.strip l)) (Py.split_lines text))).

Fixpoint extract_pages (texts : list string) (pnum : nat)
  : list (nat * string) :=
  match texts with
  | [] => []
  | text :: rest =>
      (map (fun l => (pnum, l)) (page_lines text)
        ++ extract_pages rest (S pnum))%list
  end.

(** The page texts are what [page.extract_text() or ""] gives for the pages
    of the document, in order; pages are numbered from 1. *)
Definition extract_all_lines (texts : list string) : list (nat * string) :=
  extract_pages texts 1.

(** The metadata values shared by the scanners. *)
Definition label_value (label l : string) : string :=
  Py.strip (Py.remove_all label l).

Definition quota_value (l : string) : option Z :=
  match ints_from_line l with
  | q :: _ => Some q
  | [] => None
  end.

(** Truthiness of a list. *)
Definition nonnil {A : Type} (l : list A) : bool :=
  match l with [] => false | _ => true end.

(** ** [parse_ndow_pdf_text.py] *)

Module PdfText.

Definition PDF_URL : string :=
  "https://www.ndow.org/wp-content/uploads/2026/01/Elk-Antlered-ALW-Bonus-Point-and-Application-Trend-NonResident-2025.pdf".

Definition ANCHOR : string := "NR Elk Antlered".

Record Hunt := mkHunt {
  state : string;
  year : Z;
  residency : string;
  species : string;
  category : string;
  title : string;
  units : option string;
  season : option string;
  quota : option Z;
  weapon : option string;
  rows : list Row;
  sourcePdf : string;
  startPage : nat;
  endPage : option nat   (* the key is absent until a loop sets it *)
}.

Definition new_block (line : string) (pnum : nat) : Hunt :=
  mkHunt "NV" 2025 "NR" "elk" "antlered" line None None None None []
         PDF_URL pnum None.

Definition set_units v b := mkHunt (state b) (year b) (residency b)
  (species b) (category b) (title b) v (season b) (quota b) (weapon b)
  (rows b) (sourcePdf b) (startPage b) (endPage b).
Definition set_season v b := mkHunt (state b) (year b) (residency b)
  (species b) (category b) (title b) (units b) v (quota b) (weapon b)
  (rows b) (sourcePdf b) (startPage b) (endPage b).
Definition set_quota v b := mkHunt (state b) (year b) (residency b)
  (species b) (category b) (title b) (units b) (season b) v (weapon b)
  (rows b) (sourcePdf b) (startPage b) (endPage b).
Definition set_weapon v b := mkHunt (state b) (year b) (residency b)
  (species b) (category b) (title b) (units b) (season b) (quota b) v
  (rows b) (sourcePdf b) (startPage b) (endPage b).
Definition set_rows v b := mkHunt (state b) (year b) (residency b)
  (species b) (category b) (title b) (units b) (season b) (quota b)
  (weapon b) v (sourcePdf b) (startPage b) (endPage b).
Definition set_endPage v b := mkHunt (state b) (year b) (residency b)
  (species b) (category b) (title b) (units b) (season b) (quota b)
  (weapon b) (rows b) (sourcePdf b) (startPage b) (Some v).

Definition read_label (l : string) (block : Hunt) : Hunt :=
  if Py.startswith l "Units:" then set_units (Some (label_value "Units:" l)) block
  else if Py.startswith l "Season:" then set_season (Some (label_value "Season:" l)) block
  else if Py.startswith l "Quota:" then set_quota (quota_value l) block
  else if Py.startswith l "Weapon" then set_weapon (Some (label_value "Weapon" l)) block
  else block.

(** The metadata loop, entered at index [i] with [rest = all_lines[i:]];
    returns [i] as the loop leaves it. *)
Fixpoint metadata_loop (rest : list (nat * string)) (i : nat) (block : Hunt)
  : nat * Hunt :=
  match rest with
  | [] => (i, block)
  | (p, l) :: rest' =>
      let block := read_label l block in
      if Py.startswith l "Bonus Points" then (i, block)
      else if String.eqb l ANCHOR then (i - 1, block)
      else metadata_loop rest' (i + 1) block
  end.

(** The row loop, entered at index [i] with [rest = all_lines[i:]]. *)
Fixpoint rows_loop (rest : list (nat * string)) (i : nat) (block : Hunt)
  (row_lines : list string) : nat * Hunt * list string :=
  match rest with
  | [] => (i, block, row_lines)
  | (p, l) :: rest' =>
      if Py.startswith l "Total" then (i, set_endPage p block, row_lines)
      else if String.eqb l ANCHOR then (i - 1, set_endPage p block, row_lines)
      else rows_loop rest' (i + 1) block
             (if is_row_line l then (row_lines ++ [l])%list else row_lines)
  end.

(** The body of [if line == "NR Elk Antlered":] at index [i]. *)
Definition block_body (all_lines : list (nat * string)) (i pnum : nat)
  (line : string) (hunts : list Hunt) : nat * list Hunt :=
  let block := new_block line pnum in
  let i := i + 1 in
  let '(i, block) := metadata_loop (skipn i all_lines) i block in
  let i := i + 1 in
  let '(i, block, row_lines) := rows_loop (skipn i all_lines) i block [] in
  let block := set_rows (parse_block_rows row_lines) block in
  (i, if nonnil (rows block) then (hunts ++ [block])%list else hunts).

(** The outer [while i < len(all_lines)] loop.  The inner loops move [i],
    so the recursion is on [fuel]; [None] is fuel exhausted. *)
Fixpoint parse_loop (fuel : nat) (all_lines : list (nat * string)) (i : nat)
  (hunts : list Hunt) : option (list Hunt) :=
  match nth_error all_lines i with
  | None => Some hunts
  | Some (pnum, line) =>
      match fuel with
      | O => None
      | S fuel' =>
          let '(i, hunts) :=
            if String.eqb line ANCHOR
            then block_body all_lines i pnum line hunts
            else (i, hunts) in
          parse_loop fuel' all_lines (i + 1) hunts
      end
  end.

(** [parse_pdf] after the page text is read: every pass of the outer loop
    advances [i], so [len(all_lines)] passes are enough. *)
Definition parse_lines (all_lines : list (nat * string))
  : option (list Hunt) :=
  parse_loop (List.length all_lines) all_lines 0 [].

Definition parse_pdf (texts : list string) : option (list Hunt) :=
  parse_lines (extract_all_lines texts).

End PdfText.

(** ** [parse_ndow_folder.py] *)

Module Folder.

Record Meta := mkMeta {
  m_units : option string;
  m_season : option string;
  m_quota : option Z;
  m_weapon : option string
}.

Record Hunt := mkHunt {
  state : string;
  year : Z;
  residency : string;
  species : option string;
  category : option string;
  title : string;
  units : option string;
  season : option string;
  quota : option Z;
  weapon : option string;
  rows : list Row;
  sourceFile : string;
  startPage : nat;
  endPage : nat
}.

(** [species_map.get(raw_species, raw_species)]: the table maps each of its
    five keys to itself. *)
Definition species_map_get (raw_species : string) : string :=
  if String.eqb raw_species "elk" then "elk"
  else if String.eqb raw_species "deer" then "deer"
  else if String.eqb raw_species "antelope" then "antelope"
  else if String.eqb raw_species "sheep" then "sheep"
  else if String.eqb raw_species "goat" then "goat"
  else raw_species.

(** [x or None] for a string [x]. *)
Definition or_none (s : string) : option string :=
  if Py.nonempty s then Some s else None.

(** [None] stands for the [IndexError] of [parts[0]] on a blank title,
    which the anchor test excludes. *)
Definition infer_species_and_category (title : string)
  : option (string * option string * option string) :=
  match Py.split title with
  | [] => None
  | residency :: rest =>
      match rest with
      | [] => Some (residency, None, None)
      | raw :: rest' =>
          let species := species_map_get (Py.lower raw) in
          let category := or_none (Py.strip (Py.join " " rest')) in
          Some (residency, Some species, category)
      end
  end.

Definition read_label (l : string) (meta : Meta) : Meta :=
  if Py.startswith l "Units:"
  then mkMeta (Some (label_value "Units:" l)) (m_season meta) (m_quota meta) (m_weapon meta)
  else if Py.startswith l "Season:"
  then mkMeta (m_units meta) (Some (label_value "Season:" l)) (m_quota meta) (m_weapon meta)
  else if Py.startswith l "Quota:"
  then mkMeta (m_units meta) (m_season meta) (quota_value l) (m_weapon meta)
  else if Py.startswith l "Weapon"
  then mkMeta (m_units meta) (m_season meta) (m_quota meta) (Some (label_value "Weapon" l))
  else meta.

(** The loop of [extract_metadata] at index [i], [rest = lines[i:]]. *)
Fixpoint extract_metadata_loop (rest : list string) (i : nat) (meta : Meta)
  : Meta * nat :=
  match rest with
  | [] => (meta, i)
  | l :: rest' =>
      let meta := read_label l meta in
      if Py.startswith l "Bonus Points" then (meta, i)
      else extract_metadata_loop rest' (i + 1) meta
  end.

Definition extract_metadata (lines : list string) (start_i : nat)
  : Meta * nat :=
  extract_metadata_loop (skipn start_i lines) start_i
    (mkMeta None None None None).

(** The row loop at index [k], [rest = lines[k:]]; returns [row_lines] and
    [end_page].  The loop is entered at [j + 1], so [k - 1] is an index and
    the test [k >= 0] holds. *)
Fixpoint rows_loop (pages : list nat) (rest : list string) (k : nat)
  (end_page : nat) (row_lines : list string) : list string * nat :=
  match rest with
  | [] => (row_lines, end_page)
  | l :: rest' =>
      if Py.startswith l "Total" then (row_lines, nth k pages 0)
      else if is_title l then
        let k := k - 1 in
        (row_lines, if 0 <=? k then nth k pages 0 else end_page)
      else rows_loop pages rest' (k + 1) end_page
             (if is_row_line l then (row_lines ++ [l])%list else row_lines)
  end.

(** The body of the title branch at index [i]; the [continue] of a block
    without table header leaves [hunts] as it is. *)
Definition block_body (source_file : string) (year : Z)
  (pages : list nat) (lines : list string) (i : nat) (line : string)
  (hunts : list Hunt) : list Hunt :=
  let title := line in
  let start_page := nth i pages 0 in
  match infer_species_and_category title with
  | None => hunts
  | Some (residency, species, category) =>
      let '(meta, j) := extract_metadata lines (i + 1) in
      match nth_error lines j with
      | None => hunts
      | Some lj =>
          if negb (Py.startswith lj "Bonus Points") then hunts
          else
            let k := j + 1 in
            let end_page := nth j pages 0 in
            let '(row_lines, end_page) :=
              rows_loop pages (skipn k lines) k end_page [] in
            let rows := parse_block_rows row_lines in
            if nonnil rows
            then (hunts ++
                  [mkHunt "NV" year residency species category title
                     (m_units meta) (m_season meta) (m_quota meta)
                     (m_weapon meta) rows source_file start_page end_page])%list
            else hunts
      end
  end.

(** The outer loop at index [i], [rest = lines[i:]]: every pass ends with
    [i += 1], whatever the inner indices [j] and [k] reached. *)
Fixpoint parse_loop (source_file : string) (year : Z) (pages : list nat)
  (lines rest : list string) (i : nat) (hunts : list Hunt) : list Hunt :=
  match rest with
  | [] => hunts
  | line :: rest' =>
      parse_loop source_file year pages lines rest' (i + 1)
        (if is_title line
         then block_body source_file year pages lines i line hunts
         else hunts)
  end.

Definition parse_lines (source_file : string) (year : Z)
  (all_lines : list (nat * string)) : list Hunt :=
  let pages := map fst all_lines in
  let lines := map snd all_lines in
  parse_loop source_file year pages lines lines 0 [].

(** [parse_single_pdf(pdf_path, year)], with [source_file = pdf_path.name]
    and the page texts of the document. *)
Definition parse_single_pdf (source_file : string) (year : Z)
  (texts : list string) : list Hunt :=
  parse_lines source_file year (extract_all_lines texts).

End Folder.

(** ** [import_ndow_urls.py] *)

Module ImportUrls.

Definition YEAR : Z := 2025.

Record Block := mkBlock {
  state : string;
  year : Z;
  residency : option string;
  species : string;
  title : string;
  units : string;
  season : option string;
  quota : option Z;
  weapon : option string;
  rows : list Row;
  sourceUrl : string;
  sourceFile : string;
  startPage : nat;
  endPage : nat
}.

Definition infer_residency_from_url (url : string) : option string :=
  let u := Py.lower url in
  if Py.contains "nonresident" u then Some "NR"
  else if Py.contains "resident" u then Some "R"
  else None.

(** [infer_species_from_url] after [u = Path(urlparse(url).path).name.lower()],
    which the libraries compute. *)
Definition infer_species_from_name (u : string) : string :=
  if Py.contains "elk" u then "elk"
  else if Py.contains "mule-deer" u || Py.contains "mule_deer" u then "deer"
  else if Py.contains "antelope" u then "antelope"
  else if Py.contains "bighorn" u then "sheep"
  else if Py.contains "goat" u then "goat"
  else if Py.contains "moose" u then "moose"
  else if Py.contains "bear" u then "bear"
  else "unknown".

(** [prev_nonempty(idx)]: [n] is [j + 1] for the index [j] the loop is at. *)
Fixpoint prev_nonempty_from (lines : list string) (n : nat) : option string :=
  match n with
  | O => None
  | S j =>
      let s := Py.strip (nth j lines "") in
      if Py.nonempty s then Some s else prev_nonempty_from lines j
  end.

Definition prev_nonempty (lines : list string) (idx : nat) : option string :=
  prev_nonempty_from lines idx.

Record MetaState := mkMetaState {
  ms_season : option string;
  ms_quota : option Z;
  ms_weapon : option string
}.

Definition read_label (l : string) (m : MetaState) : MetaState :=
  if Py.startswith l "Season:"
  then mkMetaState (Some (label_value "Season:" l)) (ms_quota m) (ms_weapon m)
  else if Py.startswith l "Quota:"
  then mkMetaState (ms_season m) (quota_value l) (ms_weapon m)
  else if Py.startswith l "Weapon"
  then mkMetaState (ms_season m) (ms_quota m) (Some (label_value "Weapon" l))
  else m.

(** The metadata loop at index [j], [rest = lines[j:]]. *)
Fixpoint metadata_loop (rest : list string) (j : nat) (m : MetaState)
  : MetaState * nat :=
  match rest with
  | [] => (m, j)
  | l :: rest' =>
      let m := read_label l m in
      if Py.startswith l "Bonus Points" then (m, j)
      else if Py.startswith l "Units:" then (m, j)
      else metadata_loop rest' (j + 1) m
  end.

(** The row loop at index [k], [rest = lines[k:]]. *)
Fixpoint rows_loop (pages : list nat) (rest : list string) (k : nat)
  (end_page : nat) (row_lines : list string) : list string * nat :=
  match rest with
  | [] => (row_lines, end_page)
  | l :: rest' =>
      if Py.startswith l "Total" then (row_lines, nth k pages 0)
      else if Py.startswith l "Units:" then
        let k := k - 1 in
        (row_lines, if 0 <=? k then nth k pages 0 else end_page)
      else rows_loop pages rest' (k + 1) end_page
             (if is_row_line l then (row_lines ++ [l])%list else row_lines)
  end.

(** [title_res or inferred_res] *)
Definition title_res (title : string) : option string :=
  if Py.startswith title "NR " then Some "NR"
  else if Py.startswith title "R " then Some "R"
  else None.

Definition or_else {A : Type} (x y : option A) : option A :=
  match x with Some _ => x | None => y end.

Section Scan.
(** What [parse_pdf_blocks] computes before its loop. *)
Variables (source_url source_file : string).
Variables (inferred_res : option string) (inferred_species : string).
Variables (pages : list nat) (lines : list string).

(** The body of the [Units:] branch at index [i]. *)
Definition block_body (i : nat) (line : string) (blocks : list Block)
  : list Block :=
  let title :=
    match prev_nonempty lines i with
    | Some t => t
    | None => "Unknown Title"
    end in
  let start_page := nth i pages 0 in
  let units := label_value "Units:" line in
  let '(m, j) :=
    metadata_loop (skipn (i + 1) lines) (i + 1)
      (mkMetaState None None None) in
  match nth_error lines j with
  | None => blocks
  | Some lj =>
      if negb (Py.startswith lj "Bonus Points") then blocks
      else
        let k := j + 1 in
        let end_page := nth j pages 0 in
        let '(row_lines, end_page) :=
          rows_loop pages (skipn k lines) k end_page [] in
        let rows := parse_block_rows row_lines in
        if nonnil rows
        then (blocks ++
              [mkBlock "NV" YEAR (or_else (title_res title) inferred_res)
                 inferred_species title units (ms_season m) (ms_quota m)
                 (ms_weapon m) rows source_url source_file start_page
                 end_page])%list
        else blocks
  end.

Fixpoint parse_loop (rest : list string) (i : nat) (blocks : list Block)
  : list Block :=
  match rest with
  | [] => blocks
  | line :: rest' =>
      parse_loop rest' (i + 1)
        (if Py.startswith line "Units:"
         then block_body i line blocks
         else blocks)
  end.
End Scan.

(** [parse_pdf_blocks(pdf_path, source_url)] on the lines of the document,
    with [source_file = pdf_path.name] and [url_name] the file name of the
    URL path as [Path(urlparse(source_url).path).name] gives it. *)
Definition parse_lines (source_file source_url url_name : string)
  (all_lines : list (nat * string)) : list Block :=
  let pages := map fst all_lines in
  let lines := map snd all_lines in
  let inferred_res := infer_residency_from_url source_url in
  let inferred_species := infer_species_from_name (Py.lower url_name) in
  parse_loop source_url source_file inferred_res inferred_species
    pages lines lines 0 [].

Definition parse_pdf_blocks (source_file source_url url_name : string)
  (texts : list string) : list Block :=
  parse_lines source_file source_url url_name (extract_all_lines texts).

(** The URL list of [main]: [file_lines] are the lines of the list file as
    [read_text().splitlines()] gives them; [seen] stands for the set of
    the URLs met, of which only membership is used. *)
Fixpoint read_urls_loop (file_lines seen urls : list string) : list string :=
  match file_lines with
  | [] => urls
  | line :: rest =>
      let line := Py.strip line in
      if negb (Py.nonempty line) || Py.startswith line "#"
      then read_urls_loop rest seen urls
      else if existsb (String.eqb line) seen
      then read_urls_loop rest seen urls
      else read_urls_loop rest (line :: seen) (urls ++ [line])%list
  end.

Definition read_urls (file_lines : list string) : list string :=
  read_urls_loop file_lines [] [].

End ImportUrls.

(** ** [parse_ndow_pdf.py]: the table-extraction variant *)

(** A function that may raise: [Raised] is an uncaught exception. *)
Inductive outcome (A : Type) : Type :=
| Raised : outcome A
| Returned : A -> outcome A.
Arguments Raised {A}.
Arguments Returned {A} _.

Module PdfTable.

(** A table of the extraction library: rows of cells, a cell a string or
    [None]. *)
Definition cell := option string.
Definition table := list (list cell).

(** [c or ""] *)
Definition cell_text (c : cell) : string :=
  match c with Some s => s | None => "" end.

Definition all_digits (s : string) : bool :=
  Py.nonempty s &&
  match Py.drop_while Py.is_digit s with EmptyString => true | _ => false end.

Section CleanInt.
(** Python's [int(float(s))]: [None] when it raises ([ValueError] for a
    text that is no float literal or is a NaN, [OverflowError] for an
    infinity). *)
Variable int_of_float : string -> option Z.

Definition clean_int (x : cell) : Z :=
  match x with
  | None => 0%Z
  | Some x =>
      let s := Py.remove_all "," (Py.strip x) in
      if negb (Py.nonempty s) then 0%Z
      else match int_of_float s with
           | Some n => n
           | None => 0%Z
           end
  end.

(** The search for the header row, at index [i] with [rest = table[i:]]. *)
Fixpoint find_header (rest : table) (i : nat) : option nat :=
  match rest with
  | [] => None
  | row :: rest' =>
      let row_join :=
        Py.join " " (map (fun c => Py.strip (cell_text c)) row) in
      if Py.contains "Bonus Points" row_join then Some i
      else find_header rest' (i + 1)
  end.

(** [while len(cells) < 11: cells.append(0)]; at most 11 passes. *)
Fixpoint pad_loop (fuel : nat) (cells : list Z) : list Z :=
  match fuel with
  | O => cells
  | S fuel' =>
      if List.length cells <? 11
      then pad_loop fuel' (cells ++ [0%Z])%list
      else cells
  end.

Definition pad_cells (cells : list Z) : list Z := pad_loop 11 cells.

(** The row built from a data row whose first cell is [first]. *)
Definition data_row (first : string) (row : list cell) : Row :=
  let bp := clean_int (Some first) in
  let cells := pad_cells (map clean_int (tl row)) in
  let successful := firstn 5 cells in
  let total_by_choice := firstn 5 (skipn 5 cells) in
  let total_applicants := nth 10 cells 0%Z in
  mkRow bp successful total_by_choice total_applicants.

(** The loop over [table[header_idx + 1:]]; [row[0]] raises on a row
    without cells. *)
Fixpoint data_loop (rest : table) (data_rows : list Row)
  : outcome (list Row) :=
  match rest with
  | [] => Returned data_rows
  | row :: rest' =>
      match row with
      | [] => Raised
      | c0 :: _ =>
          let first := Py.strip (cell_text c0) in
          if String.eqb (Py.lower first) "total" then Returned data_rows
          else if negb (Py.nonempty first)
                  || negb (all_digits (Py.strip first))
          then data_loop rest' data_rows
          else data_loop rest' (data_rows ++ [data_row first row])%list
      end
  end.

Definition normalize_table (t : table) : outcome (option (list Row)) :=
  match find_header t 0 with
  | None => Returned None
  | Some header_idx =>
      match data_loop (skipn (header_idx + 1) t) [] with
      | Raised => Raised
      | Returned data_rows => Returned (Some (sort_by bp data_rows))
      end
  end.
End CleanInt.

(** [float] rounds to 53 significant bits, ties to even, and overflows to an
    infinity from [2^1024] on. *)
Definition round_to_double (n : Z) : option Z :=
  if (n <? 2 ^ 53)%Z then Some n
  else
    let e := (Z.log2 n - 52)%Z in
    let q := Z.shiftr n e in
    let r := (n - Z.shiftl q e)%Z in
    let half := Z.shiftl 1 (e - 1) in
    let q' := if (half <? r)%Z || ((r =? half)%Z && Z.odd q)
              then (q + 1)%Z else q in
    let v := Z.shiftl q' e in
    if (v <? 2 ^ 1024)%Z then Some v else None.

(** [int(float(s))] on the texts made of ASCII digits only; the other
    float literals (signs, fractions, exponents, [inf], [nan]) are outside
    this instance, which answers [None] for them. *)
Definition int_of_float_digits (s : string) : option Z :=
  if all_digits s then round_to_double (Py.int_of_digits s) else None.

(** *** Block text and pages of the table-extraction variant *)

Definition is_newline (c : ascii) : bool := nat_of_ascii c =? 10.

Fixpoint take_while (p : ascii -> bool) (s : string) : string :=
  match s with
  | String c s' => if p c then String c (take_while p s') else EmptyString
  | EmptyString => EmptyString
  end.

(** The last character of [s] that is no newline. *)
Fixpoint last_non_newline (s : string) : option ascii :=
  match s with
  | EmptyString => None
  | String c s' =>
      match last_non_newline s' with
      | Some d => Some d
      | None => if is_newline c then None else Some c
      end
  end.

(** The group of [\s*(.+)] matched at the start of [s]: [\s*] takes all
    the white space and [(.+)] the rest of the line; when only white space
    is left up to the end of the text, [\s*] gives back white space until
    [(.+)] finds a character that is no newline. *)
Definition rest_of_line (s : string) : option string :=
  match Py.drop_while Py.is_space s with
  | String c r => Some (take_while (fun c => negb (is_newline c)) (String c r))
  | EmptyString =>
      match last_non_newline s with
      | Some c => Some (String c EmptyString)
      | None => None
      end
  end.

(** The group of [re.search(label + r"\s*(.+)", text)]. *)
Fixpoint search_rest (label text : string) : option string :=
  match and_then (skip_prefix label text) rest_of_line with
  | Some g => Some g
  | None =>
      match text with
      | String _ t => search_rest label t
      | EmptyString => None
      end
  end.

(** The group of [\s*(\d+)] matched at the start of [s]. *)
Definition digits_after (s : string) : option string :=
  let r := Py.drop_while Py.is_space s in
  if Py.starts_with_class Py.is_digit r
  then Some (take_while Py.is_digit r) else None.

(** [re.search(r"Quota:\s*(\d+)", text)], the group as [int]. *)
Fixpoint search_quota (text : string) : option Z :=
  match and_then (skip_prefix "Quota:" text) digits_after with
  | Some g => Some (Py.int_of_digits g)
  | None =>
      match text with
      | String _ t => search_quota t
      | EmptyString => None
      end
  end.

Record Meta := mkMeta {
  m_title : option string;
  m_units : option string;
  m_season : option string;
  m_quota : option Z;
  m_weapon : option string
}.

Definition extract_metadata (block_text : string) : Meta :=
  let lines :=
    map Py.strip
      (filter (fun l => Py.nonempty (Py.strip l))
              (Py.split_lines block_text)) in
  mkMeta (hd_error lines)
         (option_map Py.strip (search_rest "Units:" block_text))
         (option_map Py.strip (search_rest "Season:" block_text))
         (search_quota block_text)
         (option_map Py.strip (search_rest "Weapon" block_text)).

Record Hunt := mkHunt {
  state : string;
  year : Z;
  residency : string;
  species : string;
  category : string;
  title : option string;
  units : option string;
  season : option string;
  quota : option Z;
  weapon : option string;
  rows : list Row;
  sourcePdf : string;
  sourcePage : nat
}.

Definition PDF_URL : string :=
  "https://www.ndow.org/wp-content/uploads/2026/01/Elk-Antlered-ALW-Bonus-Point-and-Application-Trend-NonResident-2025.pdf".

(** The lookahead [(?=NR Elk Antlered\b)]. *)
Definition block_starts (s : string) : bool :=
  match skip_prefix "NR Elk Antlered" s with
  | Some r => negb (Py.starts_with_class Py.is_word r)
  | None => false
  end.

(** [re.split(r"\n(?=NR Elk Antlered\b)", text)]; [cur] is the piece being
    read. *)
Fixpoint split_blocks (s cur : string) : list string :=
  match s with
  | EmptyString => [cur]
  | String c s' =>
      if is_newline c && block_starts s'
      then cur :: split_blocks s' EmptyString
      else split_blocks s' (cur ++ String c EmptyString)
  end.

Definition table_text (t : table) : string :=
  Py.join " "
    (map (fun r => Py.join " " (map (fun c => Py.strip (cell_text c)) r)) t).

(** The first table of the page that looks like the bonus point table. *)
Fixpoint choose_table (tables : list table) : option table :=
  match tables with
  | [] => None
  | t :: rest =>
      if Py.contains "Bonus Points" (table_text t)
         && Py.contains "Total Applicants" (table_text t)
      then Some t else choose_table rest
  end.

Section ParsePdf.
Variable int_of_float : string -> option Z.

(** The loop over the parts of one page; [tables] is what
    [page.extract_tables(...) or []] gives for the page. *)
Fixpoint parts_loop (parts : list string) (tables : list table)
  (page_num : nat) (hunts : list Hunt) : outcome (list Hunt) :=
  match parts with
  | [] => Returned hunts
  | part :: rest =>
      if negb (Py.startswith (Py.strip part) "NR Elk Antlered")
      then parts_loop rest tables page_num hunts
      else
        let meta := extract_metadata part in
        match choose_table tables with
        | None => parts_loop rest tables page_num hunts
        | Some chosen =>
            if negb (nonnil chosen)
            then parts_loop rest tables page_num hunts
            else
              match normalize_table int_of_float chosen with
              | Raised => Raised
              | Returned None => parts_loop rest tables page_num hunts
              | Returned (Some rows) =>
                  if negb (nonnil rows)
                  then parts_loop rest tables page_num hunts
                  else parts_loop rest tables page_num
                         (hunts ++
                          [mkHunt "NV" 2025 "NR" "elk" "antlered"
                             (m_title meta) (m_units meta) (m_season meta)
                             (m_quota meta) (m_weapon meta) rows PDF_URL
                             (page_num + 1)])%list
              end
        end
  end.

(** The loop over the pages, each given by its text
    ([page.extract_text() or ""]) and its tables; [page_num] counts from
    0. *)
Fixpoint pages_loop (pages : list (string * list table)) (page_num : nat)
  (hunts : list Hunt) : outcome (list Hunt) :=
  match pages with
  | [] => Returned hunts
  | (text, tables) :: rest =>
      match parts_loop (split_blocks text EmptyString) tables page_num
              hunts with
      | Raised => Raised
      | Returned hunts => pages_loop rest (page_num + 1) hunts
      end
  end.

Definition parse_pdf (pages : list (string * list table))
  : outcome (list Hunt) :=
  pages_loop pages 0 [].
End ParsePdf.

End PdfTable.

(** ** The reconstruction rule in the words of the specification *)

(** The integers between the first and the last five. *)
Definition spec_middle (nums : list Z) : list Z :=
  firstn (List.length nums - 6) (tl nums).

(** The last five integers. *)
Definition spec_last5 (nums : list Z) : list Z :=
  skipn (List.length nums - 5) nums.

(** Right-padded with zeros to length 5 when fewer than 5 are present,
    truncated to the first 5 when more are. *)
Definition spec_successful (middle : list Z) : list Z :=
  if List.length middle <? 5
  then (middle ++ repeat 0%Z (5 - List.length middle))%list
  else firstn 5 middle.

Definition spec_row (nums : list Z) : Row :=
  mkRow (hd 0%Z nums) (spec_successful (spec_middle nums))
        (spec_last5 nums) (Py.sum (spec_last5 nums)).

(** Non-decreasing bonus points along a list of rows. *)
Definition sorted_by_bp (rows : list Row) : Prop :=
  StronglySorted (fun a b => (bp a <= bp b)%Z) rows.

(** The rows with bonus points [b], in the order of the list. *)
Definition rows_with_bp (b : Z) (rows : list Row) : list Row :=
  filter (fun r => (bp r =? b)%Z) rows.

(** [rows'] is [rows] rearranged by a stable sort on the bonus points. *)
Definition stable_sort_of (rows rows' : list Row) : Prop :=
  sorted_by_bp rows' /\ Permutation rows rows' /\
  forall b, rows_with_bp b rows' = rows_with_bp b rows.

(** The rows one line contributes. *)
Definition rows_of_line (line : string) : list Row :=
  match row_of_line line with Some r => [r] | None => [] end.

(** A row list as a scanner stores it in a record: the non-empty result of
    [parse_block_rows] on the row-lines of a block. *)
Definition reconstructed_rows (rows : list Row) : Prop :=
  rows <> [] /\ exists row_lines, rows = parse_block_rows row_lines.

(** The applicant total of a row is the sum of its five totals by choice. *)
Definition total_from_sum (r : Row) : Prop :=
  totalApplicants r = Py.sum (totalByChoice r)
  /\ List.length (totalByChoice r) = 5.

(** Two adjacent blocks, the first without table header: the second anchor
    comes before any "Bonus Points" line.  [anchor1] and [anchor2] are the
    anchor lines of the scanner at hand. *)
Definition stream_header_missing (anchor1 anchor2 : list string)
  : list (nat * string) :=
  map (fun l => (1, l))
    (anchor1 ++ ["Season: Oct 05"] ++ anchor2
     ++ ["Season: Nov 10"; "Bonus Points";
         "5 1 412 300 250 200 150"; "Total 1,312"])%list.

(** Two adjacent blocks, the second starting on a new page before any
    totals line of the first. *)
Definition stream_anchor_in_rows (anchor1 anchor2 : list string)
  : list (nat * string) :=
  (map (fun l => (1, l))
     (anchor1 ++ ["Bonus Points"; "5 1 412 300 250 200 150"])
   ++ map (fun l => (2, l))
     (anchor2 ++ ["Bonus Points"; "6 2 40 30 20 10 5"; "Total 105"]))%list.

(** One block whose title carries residency and species, for the scanner
    that takes a classification hint from the URL. *)
Definition stream_titled_block : list (nat * string) :=
  map (fun l => (1, l))
    ["NR Elk Antlered"; "Units: 061, 071"; "Season: Oct 05, 2025";
     "Bonus Points"; "5 1 412 300 250 200 150"; "Total 1,312"].

(** What a record of [import_ndow_urls.py] says about its class. *)
Definition block_class (b : ImportUrls.Block)
  : string * option string * string :=
  (ImportUrls.title b, ImportUrls.residency b, ImportUrls.species b).

(** ** Blocks of the line stream

    What a scanner takes for the block of the anchor at index [i], told
    from the lines alone.  [is_anchor] is the anchor test of the scanner
    and [abandon] the test on which it gives a block up while it reads the
    metadata. *)

(** The lines before the first one that satisfies [stop]. *)
Fixpoint lines_before (stop : string -> bool) (rest : list string)
  : list string :=
  match rest with
  | [] => []
  | l :: rest' => if stop l then [] else l :: lines_before stop rest'
  end.

(** The table header. *)
Definition is_header (l : string) : bool := Py.startswith l "Bonus Points".

(** The last line of [region] that starts with [label]. *)
Definition last_labelled (label : string) (region : list string)
  : option string :=
  hd_error (rev (filter (fun l => Py.startswith l label) region)).

(** The value of a metadata field in a record: read from the last line of
    the metadata lines that carries the label, absent without one. *)
Definition text_field (label : string) (region : list string)
  : option string :=
  option_map (label_value label) (last_labelled label region).

Definition quota_field (region : list string) : option Z :=
  and_then (last_labelled "Quota:" region) quota_value.

Section Block.
Variables (is_anchor abandon : string -> bool) (lines : list string).

Definition anchor_at (i : nat) : Prop :=
  exists l, nth_error lines i = Some l /\ is_anchor l = true.

(** The metadata lines of the block: the lines after the anchor, up to
    the first table header or abandoning line. *)
Definition block_region (i : nat) : list string :=
  lines_before (fun l => is_header l || abandon l) (skipn (i + 1) lines).

(** The index of the line that ends the metadata lines. *)
Definition header_index (i : nat) : nat :=
  i + 1 + List.length (block_region i).

(** The metadata lines end at a table header. *)
Definition has_header (i : nat) : bool :=
  match nth_error lines (header_index i) with
  | Some lj => is_header lj
  | None => false
  end.

(** A line that ends the table: a totals line or the next anchor. *)
Definition ends_table (l : string) : bool :=
  Py.startswith l "Total" || is_anchor l.

(** The row-lines of the block: the lines that begin with a number, from
    the line after the table header up to the line that ends the table. *)
Definition block_row_lines (i : nat) : list string :=
  filter is_row_line
    (lines_before ends_table (skipn (header_index i + 1) lines)).

(** The block of the anchor at [i] has a table header and at least one
    reconstructed row. *)
Definition block_has_rows (i : nat) : Prop :=
  anchor_at i /\ has_header i = true
  /\ parse_block_rows (block_row_lines i) <> [].
End Block.

(** The anchor tests of [parse_ndow_pdf_text.py] and [import_ndow_urls.py];
    that of [parse_ndow_folder.py] is [is_title]. *)
Definition PdfText_is_anchor (l : string) : bool :=
  String.eqb l PdfText.ANCHOR.

Definition ImportUrls_is_anchor (l : string) : bool :=
  Py.startswith l "Units:".

(** The end page [parse_ndow_pdf_text.py] stores for the table whose
    header is at index [j]: the page of the line that ends the table,
    absent when no line ends it. *)
Definition table_end_page (all_lines : list (nat * string)) (j : nat)
  : option nat :=
  option_map fst
    (find (fun pl => ends_table PdfText_is_anchor (snd pl))
       (skipn (j + 1) all_lines)).

(** The record of the block of the anchor at [i], scanner by scanner:
    anchor line and start page, rows, metadata fields, and the end page
    where the record may lack it. *)
Definition PdfText_block_record (all_lines : list (nat * string)) (i : nat)
  (h : PdfText.Hunt) : Prop :=
  let lines := map snd all_lines in
  let region := block_region PdfText_is_anchor lines i in
  nth_error all_lines i = Some (PdfText.startPage h, PdfText.title h)
  /\ PdfText.rows h
     = parse_block_rows
         (block_row_lines PdfText_is_anchor PdfText_is_anchor lines i)
  /\ PdfText.rows h <> []
  /\ PdfText.units h = text_field "Units:" region
  /\ PdfText.season h = text_field "Season:" region
  /\ PdfText.quota h = quota_field region
  /\ PdfText.weapon h = text_field "Weapon" region
  /\ PdfText.endPage h
     = table_end_page all_lines (header_index PdfText_is_anchor lines i).

Definition Folder_block_record (pages : list nat) (lines : list string)
  (i : nat) (h : Folder.Hunt) : Prop :=
  let region := block_region (fun _ => false) lines i in
  nth_error lines i = Some (Folder.title h)
  /\ Folder.startPage h = nth i pages 0
  /\ Folder.rows h
     = parse_block_rows (block_row_lines is_title (fun _ => false) lines i)
  /\ Folder.rows h <> []
  /\ Folder.units h = text_field "Units:" region
  /\ Folder.season h = text_field "Season:" region
  /\ Folder.quota h = quota_field region
  /\ Folder.weapon h = text_field "Weapon" region.

Definition ImportUrls_block_record (pages : list nat) (lines : list string)
  (i : nat) (b : ImportUrls.Block) : Prop :=
  let region := block_region ImportUrls_is_anchor lines i in
  (exists line, nth_error lines i = Some line
                /\ ImportUrls.units b = label_value "Units:" line)
  /\ ImportUrls.startPage b = nth i pages 0
  /\ ImportUrls.rows b
     = parse_block_rows
         (block_row_lines ImportUrls_is_anchor ImportUrls_is_anchor lines i)
  /\ ImportUrls.rows b <> []
  /\ ImportUrls.season b = text_field "Season:" region
  /\ ImportUrls.quota b = quota_field region
  /\ ImportUrls.weapon b = text_field "Weapon" region.

(** ** The scanners as a state machine

    The loops of [parse_single_pdf] and [parse_pdf_blocks] as transitions
    between the states of the scan: seeking an anchor at index [i], reading
    metadata at index [j], reading rows at index [k], closing the block.
    The two scripts differ in the anchor test, the labels read, the test
    that abandons a block during metadata and the record built. *)

Module Machine.
Section Machine.
Context {M Rec : Type}.
Variable is_anchor : string -> bool.
Variable init_meta : M.
Variable read_label : string -> M -> M.
Variable abandon : string -> bool.
(** The record of the block with anchor at [i], metadata, rows and end
    page; [None] when no record can be built. *)
Variable emit : nat -> M -> list Row -> nat -> option Rec.
Variables (pages : list nat) (lines : list string).

Inductive state : Type :=
| SeekingAnchor (i : nat) (out : list Rec)
| ReadingMetadata (i j : nat) (m : M) (out : list Rec)
| ReadingRows (i k : nat) (m : M) (end_page : nat)
    (row_lines : list string) (out : list Rec)
| Closing (i : nat) (m : M) (end_page : nat) (row_lines : list string)
    (out : list Rec)
| Done (out : list Rec).

Inductive step : state -> state -> Prop :=
| seek_end i out :
    nth_error lines i = None ->
    step (SeekingAnchor i out) (Done out)
| seek_skip i out l :
    nth_error lines i = Some l -> is_anchor l = false ->
    step (SeekingAnchor i out) (SeekingAnchor (i + 1) out)
| seek_anchor i out l :
    nth_error lines i = Some l -> is_anchor l = true ->
    step (SeekingAnchor i out) (ReadingMetadata i (i + 1) init_meta out)
| meta_end i j m out :
    nth_error lines j = None ->
    step (ReadingMetadata i j m out) (SeekingAnchor (i + 1) out)
| meta_header i j m out l :
    nth_error lines j = Some l ->
    Py.startswith l "Bonus Points" = true ->
    step (ReadingMetadata i j m out)
         (ReadingRows i (j + 1) (read_label l m) (nth j pages 0) [] out)
| meta_abandon i j m out l :
    nth_error lines j = Some l ->
    Py.startswith l "Bonus Points" = false -> abandon l = true ->
    step (ReadingMetadata i j m out) (SeekingAnchor (i + 1) out)
| meta_next i j m out l :
    nth_error lines j = Some l ->
    Py.startswith l "Bonus Points" = false -> abandon l = false ->
    step (ReadingMetadata i j m out)
         (ReadingMetadata i (j + 1) (read_label l m) out)
| rows_end i k m end_page row_lines out :
    nth_error lines k = None ->
    step (ReadingRows i k m end_page row_lines out)
         (Closing i m end_page row_lines out)
| rows_total i k m end_page row_lines out l :
    nth_error lines k = Some l -> Py.startswith l "Total" = true ->
    step (ReadingRows i k m end_page row_lines out)
         (Closing i m (nth k pages 0) row_lines out)
| rows_anchor i k m end_page row_lines out l :
    nth_error lines k = Some l -> Py.startswith l "Total" = false ->
    is_anchor l = true ->
    step (ReadingRows i k m end_page row_lines out)
         (Closing i m
            (if 0 <=? k - 1 then nth (k - 1) pages 0 else end_page)
            row_lines out)
| rows_next i k m end_page row_lines out l :
    nth_error lines k = Some l -> Py.startswith l "Total" = false ->
    is_anchor l = false ->
    step (ReadingRows i k m end_page row_lines out)
         (ReadingRows i (k + 1) m end_page
            (if is_row_line l then (row_lines ++ [l])%list else row_lines)
            out)
| close_emit i m end_page row_lines out r :
    nonnil (parse_block_rows row_lines) = true ->
    emit i m (parse_block_rows row_lines) end_page = Some r ->
    step (Closing i m end_page row_lines out)
         (SeekingAnchor (i + 1) (out ++ [r])%list)
| close_reject i m end_page row_lines out :
    nonnil (parse_block_rows row_lines) = true ->
    emit i m (parse_block_rows row_lines) end_page = None ->
    step (Closing i m end_page row_lines out) (SeekingAnchor (i + 1) out)
| close_drop i m end_page row_lines out :
    nonnil (parse_block_rows row_lines) = false ->
    step (Closing i m end_page row_lines out) (SeekingAnchor (i + 1) out).

Inductive steps : state -> state -> Prop :=
| steps_refl s : steps s s
| steps_step s s' s'' : step s s' -> steps s' s'' -> steps s s''.

(** A complete run of the scan, from index 0 with no record to the end. *)
Definition run (out : list Rec) : Prop :=
  steps (SeekingAnchor 0 []) (Done out).
End Machine.
End Machine.

(** The machine of [parse_single_pdf]. *)
Definition Folder_emit (source_file : string) (year : Z) (pages : list nat)
  (lines : list string) (i : nat) (meta : Folder.Meta) (rows : list Row)
  (end_page : nat) : option Folder.Hunt :=
  let title := nth i lines "" in
  match Folder.infer_species_and_category title with
  | None => None
  | Some (residency, species, category) =>
      Some (Folder.mkHunt "NV" year residency species category title
              (Folder.m_units meta) (Folder.m_season meta)
              (Folder.m_quota meta) (Folder.m_weapon meta) rows source_file
              (nth i pages 0) end_page)
  end.

Definition Folder_run (source_file : string) (year : Z)
  (all_lines : list (nat * string)) (out : list Folder.Hunt) : Prop :=
  let pages := map fst all_lines in
  let lines := map snd all_lines in
  Machine.run is_title (Folder.mkMeta None None None None) Folder.read_label
    (fun _ => false) (Folder_emit source_file year pages lines)
    pages lines out.

(** The machine of [parse_pdf_blocks]. *)
Definition ImportUrls_emit (source_file source_url : string)
  (inferred_res : option string) (inferred_species : string)
  (pages : list nat) (lines : list string) (i : nat)
  (m : ImportUrls.MetaState) (rows : list Row) (end_page : nat)
  : option ImportUrls.Block :=
  let title :=
    match ImportUrls.prev_nonempty lines i with
    | Some t => t
    | None => "Unknown Title"
    end in
  Some (ImportUrls.mkBlock "NV" ImportUrls.YEAR
          (ImportUrls.or_else (ImportUrls.title_res title) inferred_res)
          inferred_species title (label_value "Units:" (nth i lines ""))
          (ImportUrls.ms_season m) (ImportUrls.ms_quota m)
          (ImportUrls.ms_weapon m) rows source_url source_file
          (nth i pages 0) end_page).

Definition ImportUrls_run (source_file source_url url_name : string)
  (all_lines : list (nat * string)) (out : list ImportUrls.Block) : Prop :=
  let pages := map fst all_lines in
  let lines := map snd all_lines in
  Machine.run (fun l => Py.startswith l "Units:")
    (ImportUrls.mkMetaState None None None) ImportUrls.read_label
    (fun l => Py.startswith l "Units:")
    (ImportUrls_emit source_file source_url
       (ImportUrls.infer_residency_from_url source_url)
       (ImportUrls.infer_species_from_name (Py.lower url_name)) pages lines)
    pages lines out.

(** Two pages of a report, as the text extraction gives them. *)
Definition newline : string := String (ascii_of_nat 10) EmptyString.

Definition sample_pages : list string :=
  [Py.join newline
     ["R Elk Antlered"; "Units: 061, 071"; "Season: Oct 05 - Oct 21";
      "Quota: 1"; "Weapon Any Legal Weapon"; "Bonus Points";
      "5 1 412 300 250 200 150"; "3 1,176"; "1/5/2026 Page 1 of 2"];
   Py.join newline
     ["2 9 8 7 6 5"; "Total 2 421 308 257 206 155";
      "1/5/2026 Page 2 of 2"]].

(** ** Further notions used to state properties of the scanners *)

(** Some character of [s] satisfies [p]. *)
Fixpoint any_char (p : ascii -> bool) (s : string) : bool :=
  match s with
  | String c s' => p c || any_char p s'
  | EmptyString => false
  end.

(** A character that ends a number of [ints_from_line]: neither a digit
    nor a comma. *)
Definition ends_number (c : ascii) : bool :=
  negb (Py.is_digit c || (nat_of_ascii c =? 44)).

(** All the numbers of a row are natural numbers and no total by choice
    exceeds the applicant total. *)
Definition row_counts_ok (r : Row) : Prop :=
  (0 <= bp r)%Z
  /\ Forall (fun n => (0 <= n)%Z) (successfulByChoice r)
  /\ Forall (fun n => (0 <= n <= totalApplicants r)%Z) (totalByChoice r).

(** What the scanners store for the block whose anchor is at index [i]:
    the header line is at [j], the end page is the page of the line at
    [e], and the rows are reconstructed from row-lines [rl] that follow
    the header. *)
Definition Folder_emitted_at (source_file : string) (year : Z)
  (pages : list nat) (lines : list string) (i : nat) (h : Folder.Hunt)
  : Prop :=
  exists line lj j e rl,
    nth_error lines i = Some line /\ is_title line = true
    /\ Folder.title h = line
    /\ Folder.startPage h = nth i pages 0
    /\ Folder.infer_species_and_category line
       = Some (Folder.residency h, Folder.species h, Folder.category h)
    /\ Folder.sourceFile h = source_file /\ Folder.year h = year
    /\ i < j /\ j <= e /\ e < List.length lines
    /\ nth_error lines j = Some lj
    /\ Py.startswith lj "Bonus Points" = true
    /\ Folder.endPage h = nth e pages 0
    /\ Folder.rows h = parse_block_rows rl
    /\ Folder.rows h <> []
    /\ incl rl (filter is_row_line (skipn (j + 1) lines)).

Definition ImportUrls_emitted_at (pages : list nat) (lines : list string)
  (i : nat) (b : ImportUrls.Block) : Prop :=
  exists line lj j e rl,
    nth_error lines i = Some line /\ Py.startswith line "Units:" = true
    /\ ImportUrls.title b
       = match ImportUrls.prev_nonempty lines i with
         | Some t => t
         | None => "Unknown Title"
         end
    /\ ImportUrls.units b = label_value "Units:" line
    /\ ImportUrls.startPage b = nth i pages 0
    /\ i < j /\ j <= e /\ e < List.length lines
    /\ nth_error lines j = Some lj
    /\ Py.startswith lj "Bonus Points" = true
    /\ ImportUrls.endPage b = nth e pages 0
    /\ ImportUrls.rows b = parse_block_rows rl
    /\ ImportUrls.rows b <> []
    /\ incl rl (filter is_row_line (skipn (j + 1) lines)).

Definition PdfText_emitted_at (all_lines : list (nat * string)) (i : nat)
  (h : PdfText.Hunt) : Prop :=
  exists pnum rl,
    nth_error all_lines i = Some (pnum, PdfText.ANCHOR)
    /\ PdfText.title h = PdfText.ANCHOR
    /\ PdfText.startPage h = pnum
    /\ (forall p, PdfText.endPage h = Some p ->
         exists e l, i < e /\ nth_error all_lines e = Some (p, l))
    /\ PdfText.rows h = parse_block_rows rl
    /\ PdfText.rows h <> []
    /\ incl rl (filter is_row_line (map snd (skipn (i + 1) all_lines))).

(** A row read from one of the row-lines among [lines]. *)
Definition row_from_lines (lines : list string) (r : Row) : Prop :=
  exists line,
    In line lines /\ is_row_line line = true /\ row_of_line line = Some r.

(** A line of the URL list that names a URL: not blank and no comment. *)
Definition names_url (u : string) : Prop :=
  u <> EmptyString /\ Py.startswith u "#" = false.

(** A row of a table in which [normalize_table] finds the header. *)
Definition is_header_row (row : list PdfTable.cell) : bool :=
  Py.contains "Bonus Points"
    (Py.join " " (map (fun c => Py.strip (PdfTable.cell_text c)) row)).

(** A row whose first cell reads "total" in any letter case. *)
Definition is_total_row (row : list PdfTable.cell) : bool :=
  String.eqb (Py.lower (Py.strip (PdfTable.cell_text (hd None row))))
             "total".

(** Every character of [s] satisfies [p]. *)
Fixpoint all_chars (p : ascii -> bool) (s : string) : bool :=
  match s with
  | String c s' => p c && all_chars p s'
  | EmptyString => true
  end.

(** What [parse_pdf] of the table-extraction variant stores in a record of
    page [sourcePage]: the rows of the first table of that page that looks
    like the bonus point table. *)
Definition table_record_ok (int_of_float : string -> option Z)
  (pages : list (string * list PdfTable.table)) (h : PdfTable.Hunt) : Prop :=
  PdfTable.rows h <> []
  /\ 1 <= PdfTable.sourcePage h <= List.length pages
  /\ exists text tables chosen,
       nth_error pages (PdfTable.sourcePage h - 1) = Some (text, tables)
       /\ PdfTable.choose_table tables = Some chosen
       /\ PdfTable.normalize_table int_of_float chosen
          = Returned (Some (PdfTable.rows h)).

(** The end of a line: nothing, or a newline and more text. *)
Definition at_line_end (rest : string) : Prop :=
  rest = EmptyString
  \/ exists c r, rest = String c r /\ PdfTable.is_newline c = true.

(** * Theorems *)

(** ** The stable sort *)

Section StableSortFacts.
Context {A : Type} (key : A -> Z).

Lemma insert_by_perm (x : A) (l : list A) :
  Permutation (x :: l) (insert_by key x l).
Proof.
  induction l as [|y l IH]; simpl; [reflexivity|].
  destruct (key x <=? key y)%Z; [reflexivity|].
  rewrite perm_swap. now apply perm_skip.
Qed.

Lemma sort_by_perm (l : list A) : Permutation l (sort_by key l).
Proof.
  induction l as [|x l IH]; simpl; [constructor|].
  rewrite <- insert_by_perm. now apply perm_skip.
Qed.

Lemma insert_by_sorted (x : A) (l : list A) :
  StronglySorted (fun a b => (key a <= key b)%Z) l ->
  StronglySorted (fun a b => (key a <= key b)%Z) (insert_by key x l).
Proof.
  induction 1 as [|y l Hs IH Hall]; simpl.
  - repeat constructor.
  - destruct (key x <=? key y)%Z eqn:E.
    + apply Z.leb_le in E. constructor.
      * now constructor.
      * constructor; [exact E|].
        eapply Forall_impl; [|exact Hall]. simpl. intros; lia.
    + apply Z.leb_gt in E. constructor; [exact IH|].
      eapply Permutation_Forall; [apply insert_by_perm|].
      constructor; [lia|exact Hall].
Qed.

Lemma sort_by_sorted (l : list A) :
  StronglySorted (fun a b => (key a <= key b)%Z) (sort_by key l).
Proof.
  induction l as [|x l IH]; simpl; [constructor|].
  now apply insert_by_sorted.
Qed.

Lemma insert_by_filter (k : Z) (x : A) (l : list A) :
  filter (fun a => (key a =? k)%Z) (insert_by key x l)
  = filter (fun a => (key a =? k)%Z) (x :: l).
Proof.
  induction l as [|y l IH]; [reflexivity|].
  cbn [insert_by]. destruct (key x <=? key y)%Z eqn:E; [reflexivity|].
  apply Z.leb_gt in E.
  cbn [filter] in *. rewrite IH.
  destruct (key y =? k)%Z eqn:Ey; [|reflexivity].
  apply Z.eqb_eq in Ey.
  assert (Hx : (key x =? k)%Z = false) by (apply Z.eqb_neq; lia).
  now rewrite Hx.
Qed.

Lemma sort_by_filter (k : Z) (l : list A) :
  filter (fun a => (key a =? k)%Z) (sort_by key l)
  = filter (fun a => (key a =? k)%Z) l.
Proof.
  induction l as [|x l IH]; [reflexivity|].
  cbn [sort_by]. rewrite insert_by_filter. cbn [filter]. now rewrite IH.
Qed.

Lemma sort_by_nil_iff (l : list A) : sort_by key l = [] <-> l = [].
Proof.
  split; [|intros ->; reflexivity].
  intros H. pose proof (sort_by_perm l) as P. rewrite H in P.
  apply Permutation_sym in P. now apply Permutation_nil in P.
Qed.
End StableSortFacts.

Lemma sort_by_bp_stable (rows : list Row) :
  stable_sort_of rows (sort_by bp rows).
Proof.
  repeat split.
  - apply sort_by_sorted.
  - apply sort_by_perm.
  - intros b. apply sort_by_filter.
Qed.

(** ** Row reconstruction *)

Lemma collect_rows_acc (row_lines : list string) (rows : list Row) :
  collect_rows row_lines rows = (rows ++ flat_map rows_of_line row_lines)%list.
Proof.
  revert rows. induction row_lines as [|l ls IH]; intros rows; simpl.
  - now rewrite app_nil_r.
  - unfold rows_of_line. destruct (row_of_line l); rewrite IH; simpl.
    + now rewrite <- app_assoc.
    + reflexivity.
Qed.

Lemma collect_rows_flat (row_lines : list string) :
  collect_rows row_lines [] = flat_map rows_of_line row_lines.
Proof. now rewrite collect_rows_acc. Qed.

Lemma collect_rows_app (pre post : list string) :
  collect_rows (pre ++ post) []
  = (collect_rows pre [] ++ collect_rows post [])%list.
Proof. rewrite !collect_rows_flat. apply flat_map_app. Qed.

Lemma pad_truncate_spec (middle : list Z) :
  firstn 5 (middle ++ [0; 0; 0; 0; 0]%Z) = spec_successful middle.
Proof.
  unfold spec_successful. rewrite firstn_app.
  destruct (List.length middle <? 5) eqn:E.
  - apply Nat.ltb_lt in E.
    rewrite firstn_all2 by lia. f_equal.
    destruct (List.length middle) as [|[|[|[|[|n]]]]]; try reflexivity; lia.
  - apply Nat.ltb_ge in E.
    replace (5 - List.length middle) with 0 by lia.
    simpl. now rewrite app_nil_r.
Qed.

Lemma spec_successful_length (middle : list Z) :
  List.length (spec_successful middle) = 5.
Proof.
  unfold spec_successful. destruct (List.length middle <? 5) eqn:E.
  - apply Nat.ltb_lt in E. rewrite length_app, repeat_length. lia.
  - apply Nat.ltb_ge in E. rewrite length_firstn. lia.
Qed.

Lemma spec_last5_length (nums : list Z) :
  5 <= List.length nums -> List.length (spec_last5 nums) = 5.
Proof. intros H. unfold spec_last5. rewrite length_skipn. lia. Qed.

Lemma row_of_line_spec (line : string) :
  6 <= List.length (ints_from_line line) ->
  row_of_line line = Some (spec_row (ints_from_line line)).
Proof.
  unfold row_of_line, spec_row, spec_middle, spec_last5.
  destruct (ints_from_line line) as [|b remaining]; cbn [List.length hd tl].
  - lia.
  - intros H.
    assert (E : (List.length remaining <? 5) = false)
      by (apply Nat.ltb_ge; lia).
    rewrite E.
    replace (S (List.length remaining) - 5)
      with (S (List.length remaining - 5)) by lia.
    replace (S (List.length remaining) - 6)
      with (List.length remaining - 5) by lia.
    cbn [skipn].
    rewrite pad_truncate_spec.
    rewrite (firstn_all2 (n := 5) (skipn _ remaining))
      by (rewrite length_skipn; lia).
    reflexivity.
Qed.

Lemma row_of_line_short (line : string) :
  List.length (ints_from_line line) < 6 -> row_of_line line = None.
Proof.
  unfold row_of_line.
  destruct (ints_from_line line) as [|b remaining]; cbn [List.length].
  - reflexivity.
  - intros H.
    assert (E : (List.length remaining <? 5) = true)
      by (apply Nat.ltb_lt; lia).
    now rewrite E.
Qed.

(** C2: a row-line with at least 6 integers gives exactly one row: its
    bonus points are the first integer, its totals by choice the last five
    integers, its successful counts the integers in between, padded with
    zeros or truncated to length 5; both lists have length 5.  The line
    "5 1 412 300 250 200 150" gives bp 5, [1,0,0,0,0],
    [412,300,250,200,150] and 1312 applicants. *)
Theorem C2_row_reconstruction (line : string) :
  6 <= List.length (ints_from_line line) ->
  let row := spec_row (ints_from_line line) in
  parse_block_rows [line] = [row]
  /\ (forall pre post,
        collect_rows (pre ++ line :: post) []
        = (collect_rows pre [] ++ row :: collect_rows post [])%list
        /\ Permutation (row :: parse_block_rows (pre ++ post))
                       (parse_block_rows (pre ++ line :: post)))
  /\ List.length (successfulByChoice row) = 5
  /\ List.length (totalByChoice row) = 5
  /\ parse_block_rows ["5 1 412 300 250 200 150"]
     = [mkRow 5 [1; 0; 0; 0; 0]%Z [412; 300; 250; 200; 150]%Z 1312].
Proof.
  intros H row.
  pose proof (row_of_line_spec line H) as Hrow. fold row in Hrow.
  assert (Hone : collect_rows [line] [] = [row])
    by (simpl; now rewrite Hrow).
  assert (Hmid : forall pre post,
             collect_rows (pre ++ line :: post) []
             = (collect_rows pre [] ++ row :: collect_rows post [])%list).
  { intros pre post. rewrite collect_rows_app.
    change (line :: post) with ([line] ++ post)%list.
    now rewrite collect_rows_app, Hone. }
  split; [unfold parse_block_rows; now rewrite Hone|].
  split.
  - intros pre post. split; [apply Hmid|].
    unfold parse_block_rows.
    rewrite <- 2!sort_by_perm, Hmid, collect_rows_app.
    apply Permutation_middle.
  - split; [apply spec_successful_length|].
    split; [apply spec_last5_length; lia|].
    reflexivity.
Qed.

Lemma C2_row_reconstruction_witness :
  6 <= List.length (ints_from_line "7 2 1 1,176 300 250 200 150")
  /\ parse_block_rows ["7 2 1 1,176 300 250 200 150"]
     = [mkRow 7 [2; 1; 0; 0; 0]%Z [1176; 300; 250; 200; 150]%Z 2076].
Proof.
  split; [vm_compute; lia|].
  exact (proj1 (C2_row_reconstruction "7 2 1 1,176 300 250 200 150"
                  ltac:(vm_compute; lia))).
Defined.

(** C7: a row-line with fewer than 6 integers, none included, is dropped
    by [parse_block_rows] and leaves no row; so does "3 1,176". *)
Theorem C7_short_line_discarded (line : string) :
  List.length (ints_from_line line) < 6 ->
  row_of_line line = None
  /\ (forall pre post,
        parse_block_rows (pre ++ line :: post)
        = parse_block_rows (pre ++ post))
  /\ ints_from_line "3 1,176" = [3; 1176]%Z
  /\ parse_block_rows ["3 1,176"] = [].
Proof.
  intros H. pose proof (row_of_line_short line H) as Hnone.
  split; [exact Hnone|].
  split; [|split; reflexivity].
  intros pre post. unfold parse_block_rows. f_equal.
  rewrite 2!collect_rows_app. f_equal.
  simpl. now rewrite Hnone.
Qed.

Lemma C7_short_line_discarded_witness :
  List.length (ints_from_line "Page 2") < 6
  /\ parse_block_rows ["5 1 412 300 250 200 150"; "Page 2"; "9"]
     = parse_block_rows ["5 1 412 300 250 200 150"; "9"].
Proof.
  split; [vm_compute; lia|].
  exact (proj1 (proj2 (C7_short_line_discarded "Page 2"
                         ltac:(vm_compute; lia)))
           ["5 1 412 300 250 200 150"] ["9"]).
Defined.

(** ** What every reconstructed row satisfies *)

Lemma row_of_line_shape (line : string) (r : Row) :
  row_of_line line = Some r ->
  totalApplicants r = Py.sum (totalByChoice r)
  /\ List.length (totalByChoice r) = 5
  /\ List.length (successfulByChoice r) = 5.
Proof.
  unfold row_of_line.
  destruct (ints_from_line line) as [|b remaining]; [discriminate|].
  destruct (List.length remaining <? 5) eqn:E; [discriminate|].
  apply Nat.ltb_ge in E.
  intros H.
  match type of H with Some ?x = _ => assert (Hr : r = x) by congruence end.
  subst r. clear H.
  unfold totalApplicants, totalByChoice, successfulByChoice.
  split; [reflexivity|]. split.
  - rewrite length_firstn, length_skipn. lia.
  - rewrite pad_truncate_spec. apply spec_successful_length.
Qed.

Lemma in_parse_block_rows (row_lines : list string) (r : Row) :
  In r (parse_block_rows row_lines) <->
  exists line, In line row_lines /\ row_of_line line = Some r.
Proof.
  unfold parse_block_rows.
  rewrite collect_rows_flat.
  split.
  - intros H.
    apply (Permutation_in _ (Permutation_sym (sort_by_perm bp _))) in H.
    apply in_flat_map in H. destruct H as (line & Hin & Hr).
    exists line. split; [exact Hin|].
    unfold rows_of_line in Hr. destruct (row_of_line line); simpl in Hr.
    + destruct Hr as [->|[]]. reflexivity.
    + contradiction.
  - intros (line & Hin & Hr).
    apply (Permutation_in _ (sort_by_perm bp _)).
    apply in_flat_map. exists line. split; [exact Hin|].
    unfold rows_of_line. rewrite Hr. now left.
Qed.

Lemma parse_block_rows_shape (row_lines : list string) (r : Row) :
  In r (parse_block_rows row_lines) ->
  totalApplicants r = Py.sum (totalByChoice r)
  /\ List.length (totalByChoice r) = 5
  /\ List.length (successfulByChoice r) = 5.
Proof.
  intros H. apply in_parse_block_rows in H.
  destruct H as (line & _ & Hr). eapply row_of_line_shape; eassumption.
Qed.

Lemma nonnil_true {A : Type} (l : list A) : nonnil l = true <-> l <> [].
Proof. destruct l; simpl; split; congruence. Qed.

(** ** The scanners store reconstructed rows only *)

Lemma Forall_snoc {A : Type} (P : A -> Prop) (l : list A) (x : A) :
  Forall P l -> P x -> Forall P (l ++ [x]).
Proof. intros Hl Hx. apply Forall_app. split; [exact Hl|]. now constructor. Qed.

Lemma PdfText_metadata_loop_index rest i block :
  i - 1 <= fst (PdfText.metadata_loop rest i block).
Proof.
  revert i block. induction rest as [|[p l] rest IH]; intros i block; simpl.
  - lia.
  - destruct (Py.startswith l "Bonus Points"); simpl; [lia|].
    destruct (String.eqb l PdfText.ANCHOR); simpl; [lia|].
    specialize (IH (i + 1) (PdfText.read_label l block)). lia.
Qed.

Lemma PdfText_rows_loop_index rest i block row_lines :
  i - 1 <= fst (fst (PdfText.rows_loop rest i block row_lines)).
Proof.
  revert i block row_lines.
  induction rest as [|[p l] rest IH]; intros i block row_lines; simpl.
  - lia.
  - destruct (Py.startswith l "Total"); simpl; [lia|].
    destruct (String.eqb l PdfText.ANCHOR); simpl; [lia|].
    match goal with |- _ <= fst (fst (PdfText.rows_loop _ _ _ ?rl)) =>
      specialize (IH (i + 1) block rl) end. lia.
Qed.

Lemma PdfText_block_body_index all_lines i pnum line hunts :
  i <= fst (PdfText.block_body all_lines i pnum line hunts).
Proof.
  unfold PdfText.block_body.
  pose proof (PdfText_metadata_loop_index (skipn (i + 1) all_lines) (i + 1)
                (PdfText.new_block line pnum)) as H1.
  destruct (PdfText.metadata_loop _ _ _) as [i2 b2]. simpl in H1.
  pose proof (PdfText_rows_loop_index (skipn (i2 + 1) all_lines) (i2 + 1)
                b2 []) as H2.
  destruct (PdfText.rows_loop _ _ _ _) as [[i3 b3] rl]. simpl in *. lia.
Qed.

Lemma PdfText_block_body_rows all_lines i pnum line hunts :
  Forall (fun h => reconstructed_rows (PdfText.rows h)) hunts ->
  Forall (fun h => reconstructed_rows (PdfText.rows h))
         (snd (PdfText.block_body all_lines i pnum line hunts)).
Proof.
  intros H. unfold PdfText.block_body.
  destruct (PdfText.metadata_loop _ _ _) as [i2 b2].
  destruct (PdfText.rows_loop _ _ _ _) as [[i3 b3] rl].
  cbn [snd].
  destruct (nonnil _) eqn:E; [|exact H].
  apply Forall_snoc; [exact H|].
  apply nonnil_true in E. split; [exact E|].
  exists rl. reflexivity.
Qed.

Lemma PdfText_parse_loop_total fuel all_lines i hunts :
  List.length all_lines - i <= fuel ->
  exists r, PdfText.parse_loop fuel all_lines i hunts = Some r.
Proof.
  revert i hunts. induction fuel as [|fuel IH]; intros i hunts Hf.
  - exists hunts. simpl.
    destruct (nth_error all_lines i) as [[p l]|] eqn:E; [|reflexivity].
    assert (i < List.length all_lines)
      by (apply nth_error_Some; congruence). lia.
  - simpl. destruct (nth_error all_lines i) as [[p l]|] eqn:E;
      [|now exists hunts].
    destruct (String.eqb l PdfText.ANCHOR).
    + pose proof (PdfText_block_body_index all_lines i p l hunts) as Hi.
      destruct (PdfText.block_body all_lines i p l hunts) as [i' hunts'].
      simpl in Hi. apply IH. lia.
    + apply IH. lia.
Qed.

Lemma PdfText_parse_loop_rows fuel all_lines i hunts r :
  Forall (fun h => reconstructed_rows (PdfText.rows h)) hunts ->
  PdfText.parse_loop fuel all_lines i hunts = Some r ->
  Forall (fun h => reconstructed_rows (PdfText.rows h)) r.
Proof.
  revert i hunts. induction fuel as [|fuel IH]; intros i hunts Hh; simpl.
  - destruct (nth_error all_lines i) as [[p l]|]; [discriminate|].
    now intros [= <-].
  - destruct (nth_error all_lines i) as [[p l]|]; [|now intros [= <-]].
    destruct (String.eqb l PdfText.ANCHOR).
    + pose proof (PdfText_block_body_rows all_lines i p l hunts Hh) as Hb.
      destruct (PdfText.block_body all_lines i p l hunts) as [i' hunts'].
      apply IH. exact Hb.
    + apply IH. exact Hh.
Qed.

Lemma PdfText_parse_lines_total all_lines :
  exists r, PdfText.parse_lines all_lines = Some r.
Proof. apply PdfText_parse_loop_total. lia. Qed.

Lemma Folder_block_body_rows source_file year pages lines i line hunts :
  Forall (fun h => reconstructed_rows (Folder.rows h)) hunts ->
  Forall (fun h => reconstructed_rows (Folder.rows h))
         (Folder.block_body source_file year pages lines i line hunts).
Proof.
  intros H. unfold Folder.block_body.
  destruct (Folder.infer_species_and_category line) as [[[res sp] cat]|];
    [|exact H].
  destruct (Folder.extract_metadata lines (i + 1)) as [meta j].
  destruct (nth_error lines j) as [lj|]; [|exact H].
  destruct (negb _); [exact H|].
  destruct (Folder.rows_loop _ _ _ _ _) as [rl ep].
  destruct (nonnil _) eqn:E; [|exact H].
  apply Forall_snoc; [exact H|].
  apply nonnil_true in E. split; [exact E|].
  exists rl. reflexivity.
Qed.

Lemma Folder_parse_loop_rows source_file year pages lines rest i hunts :
  Forall (fun h => reconstructed_rows (Folder.rows h)) hunts ->
  Forall (fun h => reconstructed_rows (Folder.rows h))
         (Folder.parse_loop source_file year pages lines rest i hunts).
Proof.
  revert i hunts. induction rest as [|l rest IH]; intros i hunts H; simpl.
  - exact H.
  - apply IH. destruct (is_title l); [|exact H].
    now apply Folder_block_body_rows.
Qed.

Lemma ImportUrls_block_body_rows url file res sp pages lines i line blocks :
  Forall (fun h => reconstructed_rows (ImportUrls.rows h)) blocks ->
  Forall (fun h => reconstructed_rows (ImportUrls.rows h))
         (ImportUrls.block_body url file res sp pages lines i line blocks).
Proof.
  intros H. unfold ImportUrls.block_body.
  destruct (ImportUrls.metadata_loop _ _ _) as [m j].
  destruct (nth_error lines j) as [lj|]; [|exact H].
  destruct (negb _); [exact H|].
  destruct (ImportUrls.rows_loop _ _ _ _ _) as [rl ep].
  destruct (nonnil _) eqn:E; [|exact H].
  apply Forall_snoc; [exact H|].
  apply nonnil_true in E. split; [exact E|].
  exists rl. reflexivity.
Qed.

Lemma ImportUrls_parse_loop_rows url file res sp pages lines rest i blocks :
  Forall (fun h => reconstructed_rows (ImportUrls.rows h)) blocks ->
  Forall (fun h => reconstructed_rows (ImportUrls.rows h))
         (ImportUrls.parse_loop url file res sp pages lines rest i blocks).
Proof.
  revert i blocks. induction rest as [|l rest IH]; intros i blocks H; simpl.
  - exact H.
  - apply IH. destruct (Py.startswith l "Units:"); [|exact H].
    now apply ImportUrls_block_body_rows.
Qed.

(** ** The table-extraction variant *)

Lemma pad_loop_spec fuel cells :
  11 - List.length cells <= fuel ->
  PdfTable.pad_loop fuel cells
  = (cells ++ repeat 0%Z (11 - List.length cells))%list.
Proof.
  revert cells. induction fuel as [|fuel IH]; intros cells H.
  - replace (11 - List.length cells) with 0 by lia.
    cbn [PdfTable.pad_loop repeat]. now rewrite app_nil_r.
  - cbn [PdfTable.pad_loop].
    destruct (List.length cells <? 11) eqn:E.
    + apply Nat.ltb_lt in E.
      rewrite IH by (rewrite length_app; cbn [List.length]; lia).
      rewrite length_app, <- app_assoc. cbn [List.length]. f_equal.
      replace (11 - List.length cells)
        with (S (11 - (List.length cells + 1))) by lia.
      reflexivity.
    + apply Nat.ltb_ge in E.
      replace (11 - List.length cells) with 0 by lia.
      cbn [repeat]. now rewrite app_nil_r.
Qed.

Lemma pad_cells_spec cells :
  PdfTable.pad_cells cells
  = (cells ++ repeat 0%Z (11 - List.length cells))%list.
Proof. apply pad_loop_spec. lia. Qed.

Lemma pad_cells_length cells : 11 <= List.length (PdfTable.pad_cells cells).
Proof. rewrite pad_cells_spec, length_app, repeat_length. lia. Qed.

Lemma data_row_lengths f first row :
  List.length (successfulByChoice (PdfTable.data_row f first row)) = 5
  /\ List.length (totalByChoice (PdfTable.data_row f first row)) = 5.
Proof.
  unfold PdfTable.data_row, successfulByChoice, totalByChoice.
  pose proof (pad_cells_length (map (PdfTable.clean_int f) (tl row))).
  rewrite !length_firstn, length_skipn. lia.
Qed.

Lemma data_row_total_applicants f first row :
  totalApplicants (PdfTable.data_row f first row)
  = match nth_error (tl row) 10 with
    | Some c => PdfTable.clean_int f c
    | None => 0%Z
    end.
Proof.
  unfold PdfTable.data_row, totalApplicants.
  rewrite pad_cells_spec.
  destruct (nth_error (tl row) 10) as [c|] eqn:E.
  - assert (Hlt : 10 < List.length (tl row))
      by (apply nth_error_Some; congruence).
    rewrite app_nth1 by (rewrite length_map; lia).
    erewrite nth_indep by (rewrite length_map; lia).
    rewrite map_nth with (d := c).
    f_equal. now apply nth_error_nth.
  - apply nth_error_None in E.
    rewrite app_nth2 by (rewrite length_map; lia).
    apply nth_repeat.
Qed.

Lemma data_loop_acc f rest acc :
  PdfTable.data_loop f rest acc
  = match PdfTable.data_loop f rest [] with
    | Raised => Raised
    | Returned d => Returned (acc ++ d)%list
    end.
Proof.
  revert acc. induction rest as [|row rest IH]; intros acc; simpl.
  - now rewrite app_nil_r.
  - destruct row as [|c0 cs]; [reflexivity|].
    destruct (String.eqb _ "total"); [now rewrite app_nil_r|].
    destruct (_ || _); [apply IH|].
    rewrite IH. rewrite (IH [_]).
    destruct (PdfTable.data_loop f rest []); [reflexivity|].
    now rewrite <- app_assoc.
Qed.

Lemma data_loop_in f rest d r :
  PdfTable.data_loop f rest [] = Returned d -> In r d ->
  exists c0 cs, In (c0 :: cs) rest
    /\ r = PdfTable.data_row f (Py.strip (PdfTable.cell_text c0)) (c0 :: cs).
Proof.
  revert d. induction rest as [|row rest IH]; intros d; simpl.
  - intros [= <-] [].
  - destruct row as [|c0 cs]; [discriminate|].
    destruct (String.eqb _ "total"); [intros [= <-] []|].
    destruct (_ || _).
    + intros E Hin. destruct (IH d E Hin) as (c & cs' & Hc & Hr).
      exists c, cs'. split; [now right|exact Hr].
    + rewrite data_loop_acc.
      destruct (PdfTable.data_loop f rest []) as [|d'] eqn:E; [discriminate|].
      intros [= <-] [<-|Hin].
      * exists c0, cs. split; [now left|reflexivity].
      * destruct (IH d' eq_refl Hin) as (c & cs' & Hc & Hr).
        exists c, cs'. split; [now right|exact Hr].
Qed.

Lemma data_loop_returns f rest :
  Forall (fun row => row <> []) rest ->
  exists d, PdfTable.data_loop f rest [] = Returned d.
Proof.
  induction 1 as [|row rest Hrow _ [d IH]]; simpl.
  - now exists [].
  - destruct row as [|c0 cs]; [congruence|].
    destruct (String.eqb _ "total"); [now exists []|].
    destruct (_ || _); [now exists d|].
    rewrite data_loop_acc, IH. eauto.
Qed.

Lemma digit_not_space c : Py.is_digit c = true -> Py.is_space c = false.
Proof.
  unfold Py.is_digit, Py.is_space. intros H.
  apply andb_true_iff in H. destruct H as [H1 H2].
  apply Nat.leb_le in H1. apply Nat.leb_le in H2.
  apply orb_false_iff. split; apply andb_false_iff.
  - right. apply Nat.leb_gt. lia.
  - right. apply Nat.leb_gt. lia.
Qed.

Lemma digit_lower c : Py.is_digit c = true -> Py.lower_ascii c = c.
Proof.
  unfold Py.is_digit, Py.lower_ascii. intros H.
  apply andb_true_iff in H. destruct H as [H1 H2].
  apply Nat.leb_le in H1. apply Nat.leb_le in H2.
  assert (E : (65 <=? nat_of_ascii c) = false) by (apply Nat.leb_gt; lia).
  now rewrite E.
Qed.

Lemma digits_rstrip s :
  Py.drop_while Py.is_digit s = "" -> Py.rstrip s = s.
Proof.
  induction s as [|c s IH]; simpl; [reflexivity|].
  destruct (Py.is_digit c) eqn:E; [|discriminate].
  intros H. rewrite (IH H).
  destruct s; [|reflexivity].
  now rewrite (digit_not_space c E).
Qed.

Lemma all_digits_strip s : PdfTable.all_digits s = true -> Py.strip s = s.
Proof.
  unfold PdfTable.all_digits, Py.strip. intros H.
  apply andb_true_iff in H. destruct H as [Hne Hd].
  destruct (Py.drop_while Py.is_digit s) eqn:E; [|discriminate].
  destruct s as [|c s]; [discriminate|].
  assert (Hc : Py.is_digit c = true).
  { simpl in E. destruct (Py.is_digit c); [reflexivity|discriminate]. }
  cbn [Py.lstrip]. rewrite (digit_not_space c Hc).
  now apply digits_rstrip.
Qed.

Lemma all_digits_not_total s :
  PdfTable.all_digits s = true -> String.eqb (Py.lower s) "total" = false.
Proof.
  unfold PdfTable.all_digits. intros H.
  apply andb_true_iff in H. destruct H as [Hne Hd].
  destruct s as [|c s]; [discriminate|].
  assert (Hc : Py.is_digit c = true).
  { simpl in Hd. destruct (Py.is_digit c); [reflexivity|discriminate]. }
  cbn [Py.lower]. rewrite (digit_lower c Hc).
  apply String.eqb_neq. intros [= -> _]. discriminate.
Qed.

Lemma data_loop_keeps_row f pre c0 cs post :
  Forall (fun row => row <> []) (pre ++ (c0 :: cs) :: post)%list ->
  Forall (fun row =>
            String.eqb (Py.lower (Py.strip (PdfTable.cell_text
                                              (hd None row)))) "total"
            = false) pre ->
  PdfTable.all_digits (Py.strip (PdfTable.cell_text c0)) = true ->
  exists d,
    PdfTable.data_loop f (pre ++ (c0 :: cs) :: post)%list [] = Returned d
    /\ In (PdfTable.data_row f (Py.strip (PdfTable.cell_text c0)) (c0 :: cs))
          d.
Proof.
  intros Hne Hpre Hdig.
  induction pre as [|row pre IH].
  - cbn [app]. cbn [app] in Hne. inversion Hne as [|? ? _ Hpost]; subst.
    cbn [PdfTable.data_loop].
    rewrite (all_digits_not_total _ Hdig).
    rewrite (all_digits_strip _ Hdig), Hdig.
    assert (Hn : Py.nonempty (Py.strip (PdfTable.cell_text c0)) = true).
    { unfold PdfTable.all_digits in Hdig.
      now apply andb_true_iff in Hdig. }
    rewrite Hn. cbn [negb orb].
    rewrite data_loop_acc.
    destruct (data_loop_returns f post Hpost) as [d ->].
    eexists. split; [reflexivity|]. cbn [app]. now left.
  - cbn [app] in *. inversion Hne as [|? ? Hrow Hrest]; subst.
    inversion Hpre as [|? ? Hnt Hpre']; subst.
    destruct (IH Hrest Hpre') as (d & Ed & Hin).
    destruct row as [|r0 rs]; [congruence|].
    cbn [PdfTable.data_loop]. cbn [hd] in Hnt. rewrite Hnt.
    destruct (_ || _).
    + exists d. now split.
    + rewrite data_loop_acc, Ed. eexists. split; [reflexivity|].
      apply in_or_app. now right.
Qed.

(** C10: in the table-extraction variant a cell that is [None], blank, or
    rejected by the number conversion becomes 0; the cells after the first
    are padded with zeros to 11 before slicing; so a data row (after the
    header row, before the totals row) whose first cell is a run of digits
    always gives a row of the result, with both lists of length 5,
    however few cells it has.  The rows of the table are taken to have at
    least one cell, as the extraction library gives them. *)
Theorem C10_table_rows_padded (int_of_float : string -> option Z) :
  PdfTable.clean_int int_of_float None = 0%Z
  /\ (forall s, Py.strip s = "" ->
        PdfTable.clean_int int_of_float (Some s) = 0%Z)
  /\ (forall s, int_of_float (Py.remove_all "," (Py.strip s)) = None ->
        PdfTable.clean_int int_of_float (Some s) = 0%Z)
  /\ (forall cells,
        PdfTable.pad_cells cells
        = (cells ++ repeat 0%Z (11 - List.length cells))%list)
  /\ (forall first row,
        let r := PdfTable.data_row int_of_float first row in
        List.length (successfulByChoice r) = 5
        /\ List.length (totalByChoice r) = 5
        /\ (tl row = [] ->
            successfulByChoice r = [0; 0; 0; 0; 0]%Z
            /\ totalByChoice r = [0; 0; 0; 0; 0]%Z
            /\ totalApplicants r = 0%Z))
  /\ (forall t header_idx pre c0 cs post,
        PdfTable.find_header t 0 = Some header_idx ->
        skipn (header_idx + 1) t = (pre ++ (c0 :: cs) :: post)%list ->
        Forall (fun row => row <> []) t ->
        Forall (fun row =>
                  String.eqb (Py.lower (Py.strip (PdfTable.cell_text
                                                    (hd None row)))) "total"
                  = false) pre ->
        PdfTable.all_digits (Py.strip (PdfTable.cell_text c0)) = true ->
        exists rows,
          PdfTable.normalize_table int_of_float t = Returned (Some rows)
          /\ In (PdfTable.data_row int_of_float
                   (Py.strip (PdfTable.cell_text c0)) (c0 :: cs)) rows).
Proof.
  split; [reflexivity|].
  split; [intros s Hs; unfold PdfTable.clean_int; now rewrite Hs|].
  split.
  { intros s Hs. unfold PdfTable.clean_int. rewrite Hs.
    now destruct (negb _). }
  split; [apply pad_cells_spec|].
  split.
  { intros first row r.
    destruct (data_row_lengths int_of_float first row) as [H1 H2].
    split; [exact H1|]. split; [exact H2|].
    intros Hrow. subst r. unfold PdfTable.data_row. rewrite Hrow.
    repeat split. }
  intros t h pre c0 cs post Hh Hskip Hne Hpre Hdig.
  unfold PdfTable.normalize_table. rewrite Hh, Hskip.
  assert (Hne' : Forall (fun row => row <> [])
                        (pre ++ (c0 :: cs) :: post)%list).
  { rewrite <- Hskip. apply Forall_forall. intros row Hin.
    rewrite Forall_forall in Hne. apply Hne.
    rewrite <- (firstn_skipn (h + 1) t). apply in_or_app. now right. }
  destruct (data_loop_keeps_row int_of_float pre c0 cs post Hne' Hpre Hdig)
    as (d & Ed & Hin).
  unfold PdfTable.cell in *. rewrite Ed.
  eexists. split; [reflexivity|].
  eapply Permutation_in; [apply sort_by_perm|exact Hin].
Qed.

Lemma C10_table_rows_padded_witness :
  exists rows,
    PdfTable.normalize_table PdfTable.int_of_float_digits
      [[Some "Bonus Points"; Some "Total Applicants"];
       [Some "7"; Some "3"];
       [Some "Total"; Some "3"]]
    = Returned (Some rows)
    /\ In (mkRow 7 [3; 0; 0; 0; 0]%Z [0; 0; 0; 0; 0]%Z 0) rows.
Proof.
  apply (proj2 (proj2 (proj2 (proj2 (proj2
           (C10_table_rows_padded PdfTable.int_of_float_digits)))))
         [[Some "Bonus Points"; Some "Total Applicants"];
          [Some "7"; Some "3"];
          [Some "Total"; Some "3"]]
         0 [] (Some "7") [Some "3"] [[Some "Total"; Some "3"]]).
  - reflexivity.
  - reflexivity.
  - repeat constructor; discriminate.
  - constructor.
  - reflexivity.
Defined.

(** ** Where the applicant total of a row comes from *)

(** C1, as stated, fails in the table-extraction variant: the row of a
    table line whose trailing cell is blank has total applicants 0 while
    its totals by choice add up to 1312, and a trailing cell that
    disagrees with the totals is stored as it is. *)
Lemma C1_table_total_is_read :
  PdfTable.normalize_table PdfTable.int_of_float_digits
    [[Some "Bonus Points"; Some "Total Applicants"];
     [Some "5"; Some "1"; None; None; None; None;
      Some "412"; Some "300"; Some "250"; Some "200"; Some "150"; None];
     [Some "6"; Some "1"; None; None; None; None;
      Some "412"; Some "300"; Some "250"; Some "200"; Some "150";
      Some "9,999"]]
  = Returned (Some
      [mkRow 5 [1; 0; 0; 0; 0]%Z [412; 300; 250; 200; 150]%Z 0;
       mkRow 6 [1; 0; 0; 0; 0]%Z [412; 300; 250; 200; 150]%Z 9999])
  /\ Py.sum [412; 300; 250; 200; 150]%Z = 1312%Z
  /\ ~ (forall int_of_float t rows r,
          PdfTable.normalize_table int_of_float t = Returned (Some rows) ->
          In r rows ->
          totalApplicants r = Py.sum (totalByChoice r)).
Proof.
  split; [reflexivity|]. split; [reflexivity|].
  intros H.
  specialize (H PdfTable.int_of_float_digits
    [[Some "Bonus Points"; Some "Total Applicants"];
     [Some "5"; Some "1"; None; None; None; None;
      Some "412"; Some "300"; Some "250"; Some "200"; Some "150"; None]]
    _ _ eq_refl (or_introl eq_refl)).
  discriminate H.
Qed.

Lemma reconstructed_rows_total {H : Type} (rows : H -> list Row)
  (hs : list H) :
  Forall (fun h => reconstructed_rows (rows h)) hs ->
  Forall (fun h => Forall total_from_sum (rows h)) hs.
Proof.
  apply Forall_impl. intros h [_ [rl ->]].
  apply Forall_forall. intros r Hin.
  destruct (parse_block_rows_shape rl r Hin) as (H1 & H2 & _).
  now split.
Qed.

(** C1 amended: in the three line scanners every row of every record has
    its total applicants equal to the sum of its 5 totals by choice,
    computed from the reconstructed totals; in the table-extraction
    variant the total applicants of a row are the cleaned 11th cell after
    the bonus-points cell of its table row (0 when there is no such
    cell). *)
Theorem C1_total_applicants :
  (forall row_lines r,
     In r (parse_block_rows row_lines) -> total_from_sum r)
  /\ (forall all_lines,
        exists hunts, PdfText.parse_lines all_lines = Some hunts
          /\ Forall (fun h => Forall total_from_sum (PdfText.rows h)) hunts)
  /\ (forall source_file year all_lines,
        Forall (fun h => Forall total_from_sum (Folder.rows h))
               (Folder.parse_lines source_file year all_lines))
  /\ (forall source_file source_url url_name all_lines,
        Forall (fun b => Forall total_from_sum (ImportUrls.rows b))
               (ImportUrls.parse_lines source_file source_url url_name
                  all_lines))
  /\ (forall int_of_float t rows r,
        PdfTable.normalize_table int_of_float t = Returned (Some rows) ->
        In r rows ->
        exists c0 cs,
          In (c0 :: cs) t
          /\ r = PdfTable.data_row int_of_float
                   (Py.strip (PdfTable.cell_text c0)) (c0 :: cs)
          /\ totalApplicants r
             = match nth_error cs 10 with
               | Some c => PdfTable.clean_int int_of_float c
               | None => 0%Z
               end).
Proof.
  split; [|split; [|split; [|split]]].
  - intros rl r Hin.
    destruct (parse_block_rows_shape rl r Hin) as (H1 & H2 & _).
    now split.
  - intros all_lines.
    destruct (PdfText_parse_lines_total all_lines) as [hunts E].
    exists hunts. split; [exact E|].
    apply reconstructed_rows_total.
    eapply PdfText_parse_loop_rows; [|exact E]. constructor.
  - intros. apply reconstructed_rows_total.
    apply Folder_parse_loop_rows. constructor.
  - intros. apply reconstructed_rows_total.
    apply ImportUrls_parse_loop_rows. constructor.
  - intros f t rows r. unfold PdfTable.normalize_table.
    destruct (PdfTable.find_header t 0) as [h|]; [|discriminate].
    destruct (PdfTable.data_loop f _ _) as [|d] eqn:E; [discriminate|].
    intros [= <-] Hin.
    apply (Permutation_in _ (Permutation_sym (sort_by_perm bp d))) in Hin.
    destruct (data_loop_in f _ d r E Hin) as (c0 & cs & Hc & ->).
    exists c0, cs. split.
    + rewrite <- (firstn_skipn (h + 1) t). apply in_or_app. now right.
    + split; [reflexivity|]. apply data_row_total_applicants.
Qed.

Lemma C1_total_applicants_witness :
  total_from_sum (mkRow 5 [1; 0; 0; 0; 0]%Z [412; 300; 250; 200; 150]%Z 1312).
Proof.
  apply (proj1 C1_total_applicants ["5 1 412 300 250 200 150"]).
  left. reflexivity.
Defined.

(** ** Suffixes and indices *)

Lemma skipn_nil_nth_error {A : Type} (l : list A) (n : nat) :
  skipn n l = [] -> nth_error l n = None.
Proof. intros H. rewrite <- hd_error_skipn, H. reflexivity. Qed.

Lemma skipn_cons_nth_error {A : Type} (l : list A) (n : nat) (x : A)
  (rest : list A) :
  skipn n l = x :: rest ->
  nth_error l n = Some x /\ skipn (n + 1) l = rest.
Proof.
  intros H. split.
  - rewrite <- hd_error_skipn, H. reflexivity.
  - rewrite Nat.add_comm, <- skipn_skipn, H. reflexivity.
Qed.

Lemma skipn_nth_error_cons {A : Type} (l : list A) i x :
  nth_error l i = Some x -> skipn i l = x :: skipn (i + 1) l.
Proof.
  revert i. induction l as [|y l IH]; intros [|i] H; try discriminate.
  - injection H as ->. reflexivity.
  - cbn [skipn Nat.add]. now apply IH.
Qed.

(** ** Block boundaries in general *)

(** A new anchor met by the row loop: [parse_ndow_pdf_text.py] stores the
    page of the anchor line, the two other scanners the page of the line
    before it; all three keep the row-lines read so far. *)
Lemma PdfText_rows_loop_at_anchor pre p rest i block row_lines :
  Forall (fun pl => Py.startswith (snd pl) "Total" = false
                    /\ String.eqb (snd pl) PdfText.ANCHOR = false) pre ->
  PdfText.rows_loop (pre ++ (p, PdfText.ANCHOR) :: rest)%list i block
    row_lines
  = (i + List.length pre - 1, PdfText.set_endPage p block,
     (row_lines ++ filter is_row_line (map snd pre))%list).
Proof.
  revert i row_lines. induction pre as [|[q l] pre IH]; intros i rl H.
  - simpl. rewrite Nat.add_0_r, app_nil_r. reflexivity.
  - inversion H as [|? ? [Ht Ha] Hpre]; subst. simpl in Ht, Ha.
    cbn [app PdfText.rows_loop]. rewrite Ht, Ha.
    rewrite (IH _ _ Hpre). cbn [List.length map filter snd].
    replace (i + 1 + List.length pre - 1)
      with (i + S (List.length pre) - 1) by lia.
    destruct (is_row_line l); [|reflexivity].
    now rewrite <- app_assoc.
Qed.

Lemma Folder_rows_loop_at_anchor pages pre l rest k end_page row_lines :
  Forall (fun x => Py.startswith x "Total" = false /\ is_title x = false)
         pre ->
  Py.startswith l "Total" = false -> is_title l = true ->
  Folder.rows_loop pages (pre ++ l :: rest)%list k end_page row_lines
  = ((row_lines ++ filter is_row_line pre)%list,
     nth (k + List.length pre - 1) pages 0).
Proof.
  intros H Ht Ha. revert k row_lines.
  induction H as [|x pre [Hx1 Hx2] _ IH]; intros k rl.
  - cbn [app Folder.rows_loop]. rewrite Ht, Ha.
    cbn [List.length filter]. rewrite Nat.add_0_r, app_nil_r. reflexivity.
  - cbn [app Folder.rows_loop]. rewrite Hx1, Hx2, IH.
    cbn [List.length filter]. f_equal.
    + destruct (is_row_line x); [|reflexivity]. now rewrite <- app_assoc.
    + f_equal. lia.
Qed.

Lemma ImportUrls_rows_loop_at_anchor pages pre l rest k end_page row_lines :
  Forall (fun x => Py.startswith x "Total" = false
                   /\ Py.startswith x "Units:" = false) pre ->
  Py.startswith l "Units:" = true ->
  ImportUrls.rows_loop pages (pre ++ l :: rest)%list k end_page row_lines
  = ((row_lines ++ filter is_row_line pre)%list,
     nth (k + List.length pre - 1) pages 0).
Proof.
  intros H Ha.
  assert (Ht : Py.startswith l "Total" = false).
  { destruct l as [|c l]; [discriminate|].
    unfold Py.startswith in *. cbn [String.prefix] in Ha |- *.
    destruct (ascii_dec "U" c) as [<-|]; [|discriminate].
    destruct (ascii_dec "T" "U") as [e|]; [discriminate e|reflexivity]. }
  revert k row_lines.
  induction H as [|x pre [Hx1 Hx2] _ IH]; intros k rl.
  - cbn [app ImportUrls.rows_loop]. rewrite Ht, Ha.
    cbn [List.length filter]. rewrite Nat.add_0_r, app_nil_r. reflexivity.
  - cbn [app ImportUrls.rows_loop]. rewrite Hx1, Hx2, IH.
    cbn [List.length filter]. f_equal.
    + destruct (is_row_line x); [|reflexivity]. now rewrite <- app_assoc.
    + f_equal. lia.
Qed.

Lemma units_not_header l :
  Py.startswith l "Units:" = true -> Py.startswith l "Bonus Points" = false.
Proof.
  destruct l as [|c l]; [discriminate|].
  unfold Py.startswith. cbn [String.prefix].
  destruct (ascii_dec "U" c) as [<-|]; [|discriminate]. intros _.
  destruct (ascii_dec "B" "U") as [e|]; [discriminate e|reflexivity].
Qed.

Lemma skipn_app_suffix {A : Type} (l pre tail : list A) (n : nat) :
  skipn n l = (pre ++ tail)%list ->
  skipn (n + List.length pre) l = tail.
Proof.
  intros H. rewrite Nat.add_comm, <- skipn_skipn, H.
  rewrite skipn_app, skipn_all, Nat.sub_diag. reflexivity.
Qed.

(** In [parse_ndow_folder.py] the metadata loop runs to the first table
    header whatever title lines lie before it. *)
Lemma Folder_metadata_loop_to_header pre l rest j m :
  Forall (fun x => Py.startswith x "Bonus Points" = false) pre ->
  Py.startswith l "Bonus Points" = true ->
  snd (Folder.extract_metadata_loop (pre ++ l :: rest)%list j m)
  = j + List.length pre.
Proof.
  intros H Hl. revert j m.
  induction H as [|x pre Hx _ IH]; intros j m.
  - cbn [app Folder.extract_metadata_loop]. rewrite Hl. simpl. lia.
  - cbn [app Folder.extract_metadata_loop]. rewrite Hx, IH.
    cbn [List.length]. lia.
Qed.

(** In [import_ndow_urls.py] the metadata loop stops at the end of the
    lines or at a new anchor, and the block is dropped. *)
Lemma ImportUrls_metadata_loop_span pre tail j m :
  Forall (fun x => Py.startswith x "Bonus Points" = false
                   /\ Py.startswith x "Units:" = false) pre ->
  (tail = [] \/ exists l rest, tail = l :: rest
                               /\ Py.startswith l "Units:" = true) ->
  snd (ImportUrls.metadata_loop (pre ++ tail)%list j m)
  = j + List.length pre.
Proof.
  intros H Ht. revert j m.
  induction H as [|x pre [Hx1 Hx2] _ IH]; intros j m.
  - cbn [app List.length]. rewrite Nat.add_0_r.
    destruct Ht as [->|(l & rest & -> & Hl)]; [reflexivity|].
    cbn [ImportUrls.metadata_loop].
    rewrite (units_not_header l Hl), Hl. reflexivity.
  - cbn [app ImportUrls.metadata_loop]. rewrite Hx1, Hx2, IH.
    cbn [List.length]. lia.
Qed.

Lemma ImportUrls_block_without_header url file res sp pages lines i line
  blocks pre tail :
  skipn (i + 1) lines = (pre ++ tail)%list ->
  Forall (fun x => Py.startswith x "Bonus Points" = false
                   /\ Py.startswith x "Units:" = false) pre ->
  (tail = [] \/ exists l rest, tail = l :: rest
                               /\ Py.startswith l "Units:" = true) ->
  ImportUrls.block_body url file res sp pages lines i line blocks = blocks.
Proof.
  intros Hs Hpre Ht. unfold ImportUrls.block_body.
  pose proof (ImportUrls_metadata_loop_span pre tail (i + 1)
                (ImportUrls.mkMetaState None None None) Hpre Ht) as Hj.
  rewrite <- Hs in Hj.
  destruct (ImportUrls.metadata_loop _ _ _) as [m j]. cbn [snd] in Hj.
  subst j. apply skipn_app_suffix in Hs.
  destruct Ht as [->|(l & rest & -> & Hl)].
  - now rewrite (skipn_nil_nth_error _ _ Hs).
  - destruct (skipn_cons_nth_error _ _ _ _ Hs) as [-> _].
    now rewrite (units_not_header l Hl).
Qed.

Lemma ImportUrls_parse_loop_skip url file res sp pages lines pre tail i
  blocks :
  Forall (fun x => Py.startswith x "Units:" = false) pre ->
  ImportUrls.parse_loop url file res sp pages lines (pre ++ tail)%list i
    blocks
  = ImportUrls.parse_loop url file res sp pages lines tail
      (i + List.length pre) blocks.
Proof.
  intros H. revert i. induction H as [|x pre Hx _ IH]; intros i.
  - cbn [app List.length]. now rewrite Nat.add_0_r.
  - cbn [app ImportUrls.parse_loop]. rewrite Hx, IH.
    cbn [List.length]. f_equal. lia.
Qed.

(** In [parse_ndow_pdf_text.py] a block whose metadata loop meets a new
    anchor adds no record and leaves the index on the line before that
    anchor, so the outer loop takes the anchor up next. *)
Lemma PdfText_metadata_loop_at_anchor pre p rest i block :
  Forall (fun pl => Py.startswith (snd pl) "Bonus Points" = false
                    /\ String.eqb (snd pl) PdfText.ANCHOR = false) pre ->
  fst (PdfText.metadata_loop (pre ++ (p, PdfText.ANCHOR) :: rest)%list i
         block)
  = i + List.length pre - 1.
Proof.
  intros H. revert i block.
  induction H as [|[q l] pre [Hx1 Hx2] _ IH]; intros i block.
  - simpl. lia.
  - cbn [snd] in Hx1, Hx2. cbn [app PdfText.metadata_loop].
    rewrite Hx1, Hx2, IH. cbn [List.length]. lia.
Qed.

Lemma PdfText_block_without_header all_lines i pnum line hunts pre p rest :
  skipn (i + 1) all_lines = (pre ++ (p, PdfText.ANCHOR) :: rest)%list ->
  Forall (fun pl => Py.startswith (snd pl) "Bonus Points" = false
                    /\ String.eqb (snd pl) PdfText.ANCHOR = false) pre ->
  PdfText.block_body all_lines i pnum line hunts
  = (i + List.length pre, hunts).
Proof.
  intros Hs Hpre. unfold PdfText.block_body.
  pose proof (PdfText_metadata_loop_at_anchor pre p rest (i + 1)
                (PdfText.new_block line pnum) Hpre) as Hi.
  rewrite <- Hs in Hi.
  destruct (PdfText.metadata_loop _ _ _) as [i2 b2]. cbn [fst] in Hi.
  subst i2. apply skipn_app_suffix in Hs.
  replace (i + 1 + List.length pre - 1 + 1)
    with (i + 1 + List.length pre) by lia.
  rewrite Hs. cbn [PdfText.rows_loop].
  replace (Py.startswith PdfText.ANCHOR "Total") with false by reflexivity.
  replace (String.eqb PdfText.ANCHOR PdfText.ANCHOR) with true
    by reflexivity.
  cbn [PdfText.set_rows PdfText.rows nonnil]. f_equal. lia.
Qed.

(** ** A title line always has a residency and a species word *)

Lemma split_from_some_nonnil s w : Py.split_from s (Some w) <> [].
Proof.
  revert w. induction s as [|c s IH]; intros w; simpl; [discriminate|].
  destruct (Py.is_space c); [discriminate|apply IH].
Qed.

Lemma split_from_after_spaces s :
  Py.nonempty (Py.drop_while Py.is_space s) = true ->
  Py.split_from s None <> [].
Proof.
  induction s as [|c s IH]; simpl; [discriminate|].
  destruct (Py.is_space c); [exact IH|].
  intros _. apply split_from_some_nonnil.
Qed.

Lemma title_tail_split w s :
  match and_then (Some s) (many1 Py.is_space) with
  | Some r => Py.nonempty r
  | None => false
  end = true ->
  exists raw rest, Py.split_from s (Some w) = w :: raw :: rest.
Proof.
  unfold and_then, many1.
  destruct s as [|c s]; [discriminate|].
  cbn [Py.starts_with_class Py.drop_while Py.split_from].
  destruct (Py.is_space c); [|discriminate].
  intros H. apply split_from_after_spaces in H.
  destruct (Py.split_from s None) as [|raw rest]; [congruence|].
  now exists raw, rest.
Qed.

Lemma is_title_infer line :
  is_title line = true ->
  exists res sp cat,
    Folder.infer_species_and_category line = Some (res, Some sp, cat)
    /\ (res = "R" \/ res = "NR").
Proof.
  unfold is_title, Folder.infer_species_and_category, Py.split.
  destruct line as [|c1 l1]; [discriminate|].
  cbn [skip_prefix].
  destruct (Ascii.eqb_spec "R" c1) as [<-|HR].
  - replace (Ascii.eqb "N" "R") with false by reflexivity.
    rewrite orb_false_r. intros H.
    destruct (title_tail_split "R" l1 H) as (raw & rest & E).
    cbn [Py.split_from]. replace (Py.is_space "R") with false by reflexivity.
    change (EmptyString ++ String "R" EmptyString)%string with "R".
    rewrite E. eauto 6.
  - cbn [orb and_then]. destruct (Ascii.eqb_spec "N" c1) as [<-|HN];
      [|discriminate].
    destruct l1 as [|c2 l2]; [discriminate|].
    destruct (Ascii.eqb_spec "R" c2) as [<-|HR2]; [|discriminate].
    intros H.
    destruct (title_tail_split "NR" l2 H) as (raw & rest & E).
    cbn [Py.split_from]. replace (Py.is_space "N") with false by reflexivity.
    replace (Py.is_space "R") with false by reflexivity.
    change (String "N" EmptyString ++ String "R" EmptyString)%string
      with "NR".
    rewrite E. eauto 6.
Qed.

(** ** A new anchor before the table header *)

(** C3 fails in [parse_ndow_folder.py]: [extract_metadata] has no test for
    a new title line, so a block without table header runs on into the
    table of the next block and is emitted under its own title with the
    units, season and rows of the next one.  The two other line scanners
    drop the block, as the claim says. *)
Theorem C3_folder_runs_into_next_block :
  map (fun h => (Folder.title h, Folder.units h, Folder.season h,
                 map bp (Folder.rows h)))
      (Folder.parse_lines "elk.pdf" 2025
         (stream_header_missing ["R Elk Antlered"; "Units: 061"]
                                ["NR Elk Antlered"; "Units: 062"]))
  = [("R Elk Antlered", Some "062", Some "Nov 10", [5%Z]);
     ("NR Elk Antlered", Some "062", Some "Nov 10", [5%Z])]
  /\ option_map
       (map (fun h => (PdfText.title h, PdfText.units h, PdfText.season h,
                       map bp (PdfText.rows h))))
       (PdfText.parse_lines
          (stream_header_missing ["NR Elk Antlered"; "Units: 061"]
                                 ["NR Elk Antlered"; "Units: 062"]))
     = Some [("NR Elk Antlered", Some "062", Some "Nov 10", [5%Z])]
  /\ map (fun b => (ImportUrls.title b, ImportUrls.units b,
                    ImportUrls.season b, map bp (ImportUrls.rows b)))
       (ImportUrls.parse_lines "elk.pdf" "" ""
          (stream_header_missing ["R Elk Antlered"; "Units: 061"]
                                 ["NR Elk Antlered"; "Units: 062"]))
     = [("NR Elk Antlered", "062", Some "Nov 10", [5%Z])].
Proof. repeat split; vm_compute; reflexivity. Qed.

(** ** A new anchor during row collection *)

(** C4 fails in [parse_ndow_pdf_text.py]: at a new anchor the row loop
    stores the page of the anchor line itself, read before the index was
    moved back.  With the second block starting page 2 the first block,
    whose last line is on page 1, gets end page 2.  The two other line
    scanners store the page of the preceding line.  In all three the next
    block is scanned from its anchor. *)
Theorem C4_pdf_text_end_page_of_anchor :
  option_map (map (fun h => (PdfText.startPage h, PdfText.endPage h)))
    (PdfText.parse_lines
       (stream_anchor_in_rows ["NR Elk Antlered"] ["NR Elk Antlered"]))
  = Some [(1, Some 2); (2, Some 2)]
  /\ nth_error (stream_anchor_in_rows ["NR Elk Antlered"]
                                      ["NR Elk Antlered"]) 2
     = Some (1, "5 1 412 300 250 200 150")
  /\ nth_error (stream_anchor_in_rows ["NR Elk Antlered"]
                                      ["NR Elk Antlered"]) 3
     = Some (2, "NR Elk Antlered")
  /\ map (fun h => (Folder.startPage h, Folder.endPage h))
       (Folder.parse_lines "elk.pdf" 2025
          (stream_anchor_in_rows ["NR Elk Antlered"] ["NR Elk Antlered"]))
     = [(1, 1); (2, 2)]
  /\ map (fun b => (ImportUrls.startPage b, ImportUrls.endPage b))
       (ImportUrls.parse_lines "elk.pdf" "" ""
          (stream_anchor_in_rows ["Units: 061"] ["Units: 062"]))
     = [(1, 1); (2, 2)].
Proof. repeat split; vm_compute; reflexivity. Qed.

(** ** Title and URL hint *)

(** C8, as stated, fails for the species: the record of a block titled
    "NR Elk Antlered" gets the species of the URL hint, "unknown" for a
    file name without species word and "deer" for a mule deer file name,
    while the title-derived residency "NR" does override the hint "R". *)
Lemma C8_species_is_the_hint :
  map block_class
    (ImportUrls.parse_lines "report.pdf"
       "https://www.ndow.org/wp-content/uploads/2026/01/Bonus-Point-Report-Resident-2025.pdf"
       "Bonus-Point-Report-Resident-2025.pdf" stream_titled_block)
  = [("NR Elk Antlered", Some "NR", "unknown")]
  /\ map block_class
       (ImportUrls.parse_lines "deer.pdf"
          "https://www.ndow.org/wp-content/uploads/2026/01/Mule-Deer-Resident-2025.pdf"
          "Mule-Deer-Resident-2025.pdf" stream_titled_block)
     = [("NR Elk Antlered", Some "NR", "deer")]
  /\ Folder.infer_species_and_category "NR Elk Antlered"
     = Some ("NR", Some "elk", Some "Antlered").
Proof. repeat split; vm_compute; reflexivity. Qed.

Lemma ImportUrls_parse_loop_class url file res sp pages lines
  (P : ImportUrls.Block -> Prop) :
  (forall t u se q w rows sp0 ep,
     P (ImportUrls.mkBlock "NV" ImportUrls.YEAR
          (ImportUrls.or_else (ImportUrls.title_res t) res) sp t u se q w
          rows url file sp0 ep)) ->
  forall rest i blocks,
    Forall P blocks ->
    Forall P (ImportUrls.parse_loop url file res sp pages lines rest i blocks).
Proof.
  intros HP rest. induction rest as [|l rest IH]; intros i blocks H; simpl.
  - exact H.
  - apply IH. destruct (Py.startswith l "Units:"); [|exact H].
    unfold ImportUrls.block_body.
    destruct (ImportUrls.metadata_loop _ _ _) as [m j].
    destruct (nth_error lines j) as [lj|]; [|exact H].
    destruct (negb _); [exact H|].
    destruct (ImportUrls.rows_loop _ _ _ _ _) as [rl ep].
    destruct (nonnil _); [|exact H].
    apply Forall_snoc; [exact H|]. apply HP.
Qed.

(** C8 amended: in the scanner with the URL hint the residency of a record
    is the one its title starts with, "NR " or "R ", and the URL-derived
    residency only when the title starts with neither; the species of a
    record is always the URL-derived one. *)
Theorem C8_title_residency_hint_species
  (source_file source_url url_name : string)
  (all_lines : list (nat * string)) :
  Forall (fun b =>
            ImportUrls.species b
            = ImportUrls.infer_species_from_name (Py.lower url_name)
            /\ (Py.startswith (ImportUrls.title b) "NR " = true ->
                ImportUrls.residency b = Some "NR")
            /\ (Py.startswith (ImportUrls.title b) "NR " = false ->
                Py.startswith (ImportUrls.title b) "R " = true ->
                ImportUrls.residency b = Some "R")
            /\ (Py.startswith (ImportUrls.title b) "NR " = false ->
                Py.startswith (ImportUrls.title b) "R " = false ->
                ImportUrls.residency b
                = ImportUrls.infer_residency_from_url source_url))
         (ImportUrls.parse_lines source_file source_url url_name all_lines).
Proof.
  unfold ImportUrls.parse_lines.
  apply ImportUrls_parse_loop_class; [|constructor].
  intros t u se q w rows sp0 ep.
  cbn [ImportUrls.species ImportUrls.title ImportUrls.residency].
  unfold ImportUrls.title_res, ImportUrls.or_else.
  split; [reflexivity|].
  destruct (Py.startswith t "NR "); [repeat split; congruence|].
  destruct (Py.startswith t "R "); repeat split; congruence.
Qed.

(** ** The state machine is deterministic *)

Section MachineFacts.
Context {M Rec : Type}.
Variable is_anchor : string -> bool.
Variable init_meta : M.
Variable read_label : string -> M -> M.
Variable abandon : string -> bool.
Variable emit : nat -> M -> list Row -> nat -> option Rec.
Variables (pages : list nat) (lines : list string).

Local Abbreviation step :=
  (Machine.step is_anchor init_meta read_label abandon emit pages lines).
Local Abbreviation steps :=
  (Machine.steps is_anchor init_meta read_label abandon emit pages lines).

Lemma step_deterministic s s1 s2 : step s s1 -> step s s2 -> s1 = s2.
Proof.
  intros H1 H2.
  inversion H1; subst; inversion H2; subst; try congruence.
  match goal with
  | Ha : nth_error _ _ = Some ?a, Hb : nth_error _ _ = Some ?b |- _ =>
      assert (a = b) by congruence; subst; reflexivity
  end.
Qed.

Lemma done_is_final out s : ~ step (Machine.Done out) s.
Proof. intros H. inversion H. Qed.

Lemma steps_trans s1 s2 s3 : steps s1 s2 -> steps s2 s3 -> steps s1 s3.
Proof.
  induction 1 as [|s s' s'' Hs _ IH]; [trivial|].
  intros H. eapply Machine.steps_step; [exact Hs|]. now apply IH.
Qed.

Lemma steps_one s s' : step s s' -> steps s s'.
Proof. intros H. eapply Machine.steps_step; [exact H|constructor]. Qed.

Lemma steps_to_done_unique s out1 out2 :
  steps s (Machine.Done out1) -> steps s (Machine.Done out2) ->
  out1 = out2.
Proof.
  intros H1. remember (Machine.Done out1) as d eqn:Ed.
  induction H1 as [s|s s' s'' Hs Hrest IH]; intros H2; subst.
  - inversion H2 as [|? ? ? Hstep]; subst; [congruence|].
    now apply done_is_final in Hstep.
  - inversion H2 as [|? t ? Hstep Hrest2]; subst.
    + now apply done_is_final in Hs.
    + rewrite (step_deterministic _ _ _ Hstep Hs) in Hrest2.
      now apply IH.
Qed.
End MachineFacts.

(** ** The scanners are the runs of their machines *)

Section FolderMachine.
Variables (source_file : string) (year : Z).
Variables (pages : list nat) (lines : list string).

Local Abbreviation fsteps :=
  (Machine.steps is_title (Folder.mkMeta None None None None)
     Folder.read_label (fun _ => false)
     (Folder_emit source_file year pages lines) pages lines).

Lemma Folder_metadata_steps i out rest j m :
  skipn j lines = rest ->
  fsteps (Machine.ReadingMetadata i j m out)
    (let '(m', j') := Folder.extract_metadata_loop rest j m in
     match nth_error lines j' with
     | Some lj =>
         if Py.startswith lj "Bonus Points"
         then Machine.ReadingRows i (j' + 1) m' (nth j' pages 0) [] out
         else Machine.SeekingAnchor (i + 1) out
     | None => Machine.SeekingAnchor (i + 1) out
     end).
Proof.
  revert j m. induction rest as [|l rest IH]; intros j m H.
  - apply skipn_nil_nth_error in H. simpl. rewrite H.
    apply steps_one. now apply Machine.meta_end.
  - destruct (skipn_cons_nth_error _ _ _ _ H) as [Hn Hs]. simpl.
    destruct (Py.startswith l "Bonus Points") eqn:E.
    + rewrite Hn, E. apply steps_one. now eapply Machine.meta_header.
    + eapply Machine.steps_step;
        [eapply Machine.meta_next; [exact Hn|exact E|reflexivity]|].
      now apply IH.
Qed.

Lemma Folder_rows_steps i m out rest k end_page row_lines :
  skipn k lines = rest ->
  fsteps (Machine.ReadingRows i k m end_page row_lines out)
    (let '(row_lines', end_page') :=
       Folder.rows_loop pages rest k end_page row_lines in
     Machine.Closing i m end_page' row_lines' out).
Proof.
  revert k row_lines. induction rest as [|l rest IH]; intros k rl H.
  - simpl. apply steps_one. apply Machine.rows_end.
    now apply skipn_nil_nth_error.
  - destruct (skipn_cons_nth_error _ _ _ _ H) as [Hn Hs]. simpl.
    destruct (Py.startswith l "Total") eqn:E.
    + apply steps_one. eapply Machine.rows_total; eassumption.
    + destruct (is_title l) eqn:Ea.
      * apply steps_one.
        exact (Machine.rows_anchor _ _ _ _ _ _ _ i k m end_page rl out l
                 Hn E Ea).
      * eapply Machine.steps_step;
          [eapply Machine.rows_next; [exact Hn|exact E|exact Ea]|].
        now apply IH.
Qed.

Lemma Folder_block_steps i line out :
  nth_error lines i = Some line -> is_title line = true ->
  fsteps (Machine.SeekingAnchor i out)
    (Machine.SeekingAnchor (i + 1)
       (Folder.block_body source_file year pages lines i line out)).
Proof.
  intros Hn Ha.
  eapply Machine.steps_step; [eapply Machine.seek_anchor; eassumption|].
  eapply steps_trans;
    [apply (Folder_metadata_steps i out (skipn (i + 1) lines) (i + 1));
     reflexivity|].
  unfold Folder.block_body, Folder.extract_metadata.
  destruct (Folder.extract_metadata_loop _ _ _) as [meta j].
  destruct (nth_error lines j) as [lj|].
  2:{ destruct (Folder.infer_species_and_category line) as [[[? ?] ?]|];
        apply Machine.steps_refl. }
  destruct (Py.startswith lj "Bonus Points"); cbn [negb].
  2:{ destruct (Folder.infer_species_and_category line) as [[[? ?] ?]|];
        apply Machine.steps_refl. }
  eapply steps_trans;
    [apply (Folder_rows_steps i meta out (skipn (j + 1) lines) (j + 1));
     reflexivity|].
  destruct (Folder.rows_loop _ _ _ _ _) as [rl ep].
  apply steps_one.
  destruct (nonnil (parse_block_rows rl)) eqn:Er.
  - destruct (Folder.infer_species_and_category line)
      as [[[res sp] cat]|] eqn:Ei.
    + eapply Machine.close_emit; [exact Er|].
      unfold Folder_emit. rewrite (nth_error_nth _ _ _ Hn), Ei.
      reflexivity.
    + eapply Machine.close_reject; [exact Er|].
      unfold Folder_emit. rewrite (nth_error_nth _ _ _ Hn), Ei.
      reflexivity.
  - destruct (Folder.infer_species_and_category line) as [[[? ?] ?]|];
      now apply Machine.close_drop.
Qed.

Lemma Folder_scan_steps rest i out :
  skipn i lines = rest ->
  fsteps (Machine.SeekingAnchor i out)
    (Machine.Done
       (Folder.parse_loop source_file year pages lines rest i out)).
Proof.
  revert i out. induction rest as [|l rest IH]; intros i out H.
  - simpl. apply steps_one. apply Machine.seek_end.
    now apply skipn_nil_nth_error.
  - destruct (skipn_cons_nth_error _ _ _ _ H) as [Hn Hs]. simpl.
    destruct (is_title l) eqn:Ea.
    + eapply steps_trans; [apply Folder_block_steps; eassumption|].
      now apply IH.
    + eapply Machine.steps_step;
        [eapply Machine.seek_skip; eassumption|]. now apply IH.
Qed.
End FolderMachine.

Lemma Folder_run_parse_lines source_file year all_lines out :
  Folder_run source_file year all_lines out <->
  out = Folder.parse_lines source_file year all_lines.
Proof.
  assert (Hrun : Folder_run source_file year all_lines
                   (Folder.parse_lines source_file year all_lines))
    by (apply Folder_scan_steps; reflexivity).
  split.
  - intros H. eapply steps_to_done_unique; [exact H|exact Hrun].
  - now intros ->.
Qed.

Section ImportUrlsMachine.
Variables (source_file source_url : string).
Variables (inferred_res : option string) (inferred_species : string).
Variables (pages : list nat) (lines : list string).

Local Abbreviation usteps :=
  (Machine.steps (fun l => Py.startswith l "Units:")
     (ImportUrls.mkMetaState None None None) ImportUrls.read_label
     (fun l => Py.startswith l "Units:")
     (ImportUrls_emit source_file source_url inferred_res
        inferred_species pages lines) pages lines).

Lemma ImportUrls_metadata_steps i out rest j m :
  skipn j lines = rest ->
  usteps (Machine.ReadingMetadata i j m out)
    (let '(m', j') := ImportUrls.metadata_loop rest j m in
     match nth_error lines j' with
     | Some lj =>
         if Py.startswith lj "Bonus Points"
         then Machine.ReadingRows i (j' + 1) m' (nth j' pages 0) [] out
         else Machine.SeekingAnchor (i + 1) out
     | None => Machine.SeekingAnchor (i + 1) out
     end).
Proof.
  revert j m. induction rest as [|l rest IH]; intros j m H.
  - apply skipn_nil_nth_error in H. simpl. rewrite H.
    apply steps_one. now apply Machine.meta_end.
  - destruct (skipn_cons_nth_error _ _ _ _ H) as [Hn Hs]. simpl.
    destruct (Py.startswith l "Bonus Points") eqn:E.
    + rewrite Hn, E. apply steps_one.
      eapply Machine.meta_header; eassumption.
    + destruct (Py.startswith l "Units:") eqn:Eu.
      * rewrite Hn, E. apply steps_one.
        eapply Machine.meta_abandon; eassumption.
      * eapply Machine.steps_step;
          [eapply Machine.meta_next; [exact Hn|exact E|exact Eu]|].
        now apply IH.
Qed.

Lemma ImportUrls_rows_steps i m out rest k end_page row_lines :
  skipn k lines = rest ->
  usteps (Machine.ReadingRows i k m end_page row_lines out)
    (let '(row_lines', end_page') :=
       ImportUrls.rows_loop pages rest k end_page row_lines in
     Machine.Closing i m end_page' row_lines' out).
Proof.
  revert k row_lines. induction rest as [|l rest IH]; intros k rl H.
  - simpl. apply steps_one. apply Machine.rows_end.
    now apply skipn_nil_nth_error.
  - destruct (skipn_cons_nth_error _ _ _ _ H) as [Hn Hs]. simpl.
    destruct (Py.startswith l "Total") eqn:E.
    + apply steps_one. eapply Machine.rows_total; eassumption.
    + destruct (Py.startswith l "Units:") eqn:Ea.
      * apply steps_one.
        exact (Machine.rows_anchor _ _ _ _ _ _ _ i k m end_page rl out l
                 Hn E Ea).
      * eapply Machine.steps_step;
          [eapply Machine.rows_next; [exact Hn|exact E|exact Ea]|].
        now apply IH.
Qed.

Lemma ImportUrls_block_steps i line out :
  nth_error lines i = Some line ->
  Py.startswith line "Units:" = true ->
  usteps (Machine.SeekingAnchor i out)
    (Machine.SeekingAnchor (i + 1)
       (ImportUrls.block_body source_url source_file inferred_res
          inferred_species pages lines i line out)).
Proof.
  intros Hn Ha.
  eapply Machine.steps_step; [eapply Machine.seek_anchor; eassumption|].
  eapply steps_trans;
    [apply (ImportUrls_metadata_steps i out (skipn (i + 1) lines) (i + 1));
     reflexivity|].
  unfold ImportUrls.block_body.
  destruct (ImportUrls.metadata_loop _ _ _) as [m j].
  destruct (nth_error lines j) as [lj|]; [|apply Machine.steps_refl].
  destruct (Py.startswith lj "Bonus Points"); cbn [negb];
    [|apply Machine.steps_refl].
  eapply steps_trans;
    [apply (ImportUrls_rows_steps i m out (skipn (j + 1) lines) (j + 1));
     reflexivity|].
  destruct (ImportUrls.rows_loop _ _ _ _ _) as [rl ep].
  apply steps_one.
  destruct (nonnil (parse_block_rows rl)) eqn:Er.
  - eapply Machine.close_emit; [exact Er|].
    unfold ImportUrls_emit. rewrite (nth_error_nth _ _ _ Hn).
    reflexivity.
  - now apply Machine.close_drop.
Qed.

Lemma ImportUrls_scan_steps rest i out :
  skipn i lines = rest ->
  usteps (Machine.SeekingAnchor i out)
    (Machine.Done
       (ImportUrls.parse_loop source_url source_file inferred_res
          inferred_species pages lines rest i out)).
Proof.
  revert i out. induction rest as [|l rest IH]; intros i out H.
  - simpl. apply steps_one. apply Machine.seek_end.
    now apply skipn_nil_nth_error.
  - destruct (skipn_cons_nth_error _ _ _ _ H) as [Hn Hs]. simpl.
    destruct (Py.startswith l "Units:") eqn:Ea.
    + eapply steps_trans; [apply ImportUrls_block_steps; eassumption|].
      now apply IH.
    + eapply Machine.steps_step;
        [eapply Machine.seek_skip; eassumption|]. now apply IH.
Qed.
End ImportUrlsMachine.

Lemma ImportUrls_run_parse_lines source_file source_url url_name all_lines
  out :
  ImportUrls_run source_file source_url url_name all_lines out <->
  out = ImportUrls.parse_lines source_file source_url url_name all_lines.
Proof.
  assert (Hrun : ImportUrls_run source_file source_url url_name all_lines
                   (ImportUrls.parse_lines source_file source_url url_name
                      all_lines))
    by (apply ImportUrls_scan_steps; reflexivity).
  split.
  - intros H. eapply steps_to_done_unique; [exact H|exact Hrun].
  - now intros ->.
Qed.

(** C9: the block parsers are deterministic.  On the lines of a fixed list
    of page texts every complete run of the machine of [parse_single_pdf],
    and of the machine of [parse_pdf_blocks], ends with the same list of
    records, the one the scanner returns: two runs give equal lists,
    element for element and in the same order. *)
Theorem C9_block_parser_deterministic (texts : list string) :
  (forall source_file year,
     Folder_run source_file year (extract_all_lines texts)
       (Folder.parse_single_pdf source_file year texts)
     /\ forall out1 out2,
          Folder_run source_file year (extract_all_lines texts) out1 ->
          Folder_run source_file year (extract_all_lines texts) out2 ->
          out1 = out2)
  /\ (forall source_file source_url url_name,
        ImportUrls_run source_file source_url url_name
          (extract_all_lines texts)
          (ImportUrls.parse_pdf_blocks source_file source_url url_name texts)
        /\ forall out1 out2,
             ImportUrls_run source_file source_url url_name
               (extract_all_lines texts) out1 ->
             ImportUrls_run source_file source_url url_name
               (extract_all_lines texts) out2 ->
             out1 = out2).
Proof.
  split.
  - intros source_file year. split.
    + now apply Folder_run_parse_lines.
    + intros out1 out2 H1 H2.
      apply Folder_run_parse_lines in H1, H2. congruence.
  - intros source_file source_url url_name. split.
    + now apply ImportUrls_run_parse_lines.
    + intros out1 out2 H1 H2.
      apply ImportUrls_run_parse_lines in H1, H2. congruence.
Qed.

Lemma C9_block_parser_deterministic_witness :
  Folder_run "elk.pdf" 2025 (extract_all_lines sample_pages)
    [Folder.mkHunt "NV" 2025 "R" (Some "elk") (Some "Antlered")
       "R Elk Antlered" (Some "061, 071") (Some "Oct 05 - Oct 21")
       (Some 1%Z) (Some "Any Legal")
       [mkRow 2 [0; 0; 0; 0; 0]%Z [9; 8; 7; 6; 5]%Z 35;
        mkRow 5 [1; 0; 0; 0; 0]%Z [412; 300; 250; 200; 150]%Z 1312]
       "elk.pdf" 1 2]
  /\ Folder.parse_single_pdf "elk.pdf" 2025 sample_pages
     = Folder.parse_lines "elk.pdf" 2025 (extract_all_lines sample_pages).
Proof.
  pose proof (proj1 (C9_block_parser_deterministic sample_pages)
                "elk.pdf" 2025%Z) as [Hrun Huniq].
  split; [exact Hrun|].
  apply Huniq; [exact Hrun|].
  apply Folder_scan_steps. reflexivity.
Defined.

(** ** The block of an anchor *)

Lemma lines_before_spec (stop : string -> bool) (rest : list string) :
  Forall (fun l => stop l = false) (lines_before stop rest)
  /\ (forall a, a < List.length (lines_before stop rest) ->
        nth_error rest a = nth_error (lines_before stop rest) a)
  /\ match nth_error rest (List.length (lines_before stop rest)) with
     | Some l => stop l = true
     | None => List.length (lines_before stop rest) = List.length rest
     end.
Proof.
  induction rest as [|l rest (IH1 & IH2 & IH3)]; cbn [lines_before].
  - split; [constructor|]. split; [intros a Ha; inversion Ha|reflexivity].
  - destruct (stop l) eqn:E; cbn [List.length nth_error].
    + split; [constructor|]. split; [intros a Ha; inversion Ha|exact E].
    + split; [now constructor|]. split.
      * intros [|a] Ha; [reflexivity|]. cbn [nth_error]. apply IH2. lia.
      * destruct (nth_error rest _); [exact IH3|]. now rewrite IH3.
Qed.

Lemma lines_before_ext (f g : string -> bool) (rest : list string) :
  (forall l, f l = g l) -> lines_before f rest = lines_before g rest.
Proof.
  intros H. induction rest as [|l rest IH]; cbn [lines_before];
    [reflexivity|].
  rewrite H, IH. reflexivity.
Qed.

Lemma last_labelled_cons label l region :
  last_labelled label (l :: region)
  = match last_labelled label region with
    | Some x => Some x
    | None => if Py.startswith l label then Some l else None
    end.
Proof.
  unfold last_labelled. cbn [filter].
  destruct (Py.startswith l label); [|now destruct (hd_error _)].
  cbn [rev]. now destruct (rev _).
Qed.


(** The value a field has after the labels of [region] are read one by
    one, for a field that every line with its label sets. *)
Lemma fold_read_label {M V : Type} (get : M -> option V)
  (read : string -> M -> M) (label : string) (value : string -> option V) :
  (forall l m,
     get (read l m) = if Py.startswith l label then value l else get m) ->
  forall region m,
    get (fold_left (fun m l => read l m) region m)
    = match last_labelled label region with
      | Some l => value l
      | None => get m
      end.
Proof.
  intros Hread region. induction region as [|l region IH]; intros m.
  - reflexivity.
  - cbn [fold_left]. rewrite IH, last_labelled_cons, Hread.
    destruct (last_labelled label region); [reflexivity|].
    now destruct (Py.startswith l label).
Qed.

Lemma startswith_first_char l c p :
  Py.startswith l (String c p) = true -> exists l', l = String c l'.
Proof.
  unfold Py.startswith. destruct l as [|c' l']; cbn [String.prefix];
    [discriminate|].
  destruct (ascii_dec c c') as [->|]; [eauto|discriminate].
Qed.

Lemma startswith_other_char l c p c' p' :
  c <> c' -> Py.startswith l (String c p) = true ->
  Py.startswith l (String c' p') = false.
Proof.
  intros Hc H. destruct (startswith_first_char _ _ _ H) as [l' ->].
  unfold Py.startswith. cbn [String.prefix].
  destruct (ascii_dec c' c) as [->|]; [congruence|reflexivity].
Qed.

(** A line starts with at most one of the labels. *)
Ltac exclude_labels E :=
  match type of E with
  | Py.startswith ?l (String ?c ?p) = true =>
      repeat match goal with
      | |- context [Py.startswith l (String ?c' ?p')] =>
          rewrite (startswith_other_char l c p c' p' ltac:(discriminate) E)
      end
  end.

Lemma filter_lines_before_app (stop : string -> bool) (rest rl : list string)
  : (rl ++ filter is_row_line (lines_before stop rest))%list
    = match rest with
      | [] => rl
      | l :: rest' =>
          if stop l then rl
          else ((if is_row_line l then rl ++ [l] else rl)
                ++ filter is_row_line (lines_before stop rest'))%list
      end.
Proof.
  destruct rest as [|l rest]; cbn [lines_before filter];
    [apply app_nil_r|].
  destruct (stop l); cbn [filter]; [apply app_nil_r|].
  destruct (is_row_line l); [|reflexivity].
  now rewrite <- app_assoc.
Qed.

(** *** [parse_ndow_folder.py] *)

Lemma Folder_read_label_fields l m :
  Folder.m_units (Folder.read_label l m)
  = (if Py.startswith l "Units:" then Some (label_value "Units:" l)
     else Folder.m_units m)
  /\ Folder.m_season (Folder.read_label l m)
     = (if Py.startswith l "Season:" then Some (label_value "Season:" l)
        else Folder.m_season m)
  /\ Folder.m_quota (Folder.read_label l m)
     = (if Py.startswith l "Quota:" then quota_value l
        else Folder.m_quota m)
  /\ Folder.m_weapon (Folder.read_label l m)
     = (if Py.startswith l "Weapon" then Some (label_value "Weapon" l)
        else Folder.m_weapon m).
Proof.
  unfold Folder.read_label.
  destruct (Py.startswith l "Units:") eqn:EU;
    [exclude_labels EU; now repeat split|].
  destruct (Py.startswith l "Season:") eqn:ES;
    [exclude_labels ES; now repeat split|].
  destruct (Py.startswith l "Quota:") eqn:EQ;
    [exclude_labels EQ; now repeat split|].
  destruct (Py.startswith l "Weapon"); now repeat split.
Qed.

Lemma Folder_read_label_header l m :
  is_header l = true -> Folder.read_label l m = m.
Proof.
  unfold is_header, Folder.read_label. intros E. exclude_labels E.
  reflexivity.
Qed.

Lemma Folder_extract_metadata_loop_spec rest j m :
  Folder.extract_metadata_loop rest j m
  = (fold_left (fun m l => Folder.read_label l m)
       (lines_before is_header rest) m,
     j + List.length (lines_before is_header rest)).
Proof.
  revert j m. induction rest as [|l rest IH]; intros j m;
    cbn [Folder.extract_metadata_loop lines_before].
  - cbn [fold_left List.length]. now rewrite Nat.add_0_r.
  - fold (is_header l). destruct (is_header l) eqn:E.
    + cbn [fold_left List.length].
      now rewrite Folder_read_label_header, Nat.add_0_r.
    + rewrite IH. cbn [fold_left List.length]. f_equal. lia.
Qed.

Lemma Folder_rows_loop_fst pages rest k end_page rl :
  fst (Folder.rows_loop pages rest k end_page rl)
  = (rl ++ filter is_row_line (lines_before (ends_table is_title) rest))%list.
Proof.
  revert k rl. induction rest as [|l rest IH]; intros k rl;
    rewrite filter_lines_before_app; cbn [Folder.rows_loop];
    [reflexivity|].
  unfold ends_table.
  destruct (Py.startswith l "Total"); [reflexivity|].
  destruct (is_title l); cbn [orb fst]; [reflexivity|].
  apply IH.
Qed.

Lemma Folder_block_region lines i :
  block_region (fun _ => false) lines i
  = lines_before is_header (skipn (i + 1) lines).
Proof.
  apply lines_before_ext. intros l. apply orb_false_r.
Qed.

Lemma Folder_block_body_spec source_file year pages lines i line hunts :
  nth_error lines i = Some line -> is_title line = true ->
  (block_has_rows is_title (fun _ => false) lines i
   /\ exists h,
        Folder.block_body source_file year pages lines i line hunts
        = (hunts ++ [h])%list
        /\ Folder_block_record pages lines i h)
  \/ (~ block_has_rows is_title (fun _ => false) lines i
      /\ Folder.block_body source_file year pages lines i line hunts
         = hunts).
Proof.
  intros Hn Ha.
  unfold block_has_rows, Folder_block_record, has_header, block_row_lines,
    header_index.
  rewrite Folder_block_region.
  unfold Folder.block_body, Folder.extract_metadata.
  destruct (is_title_infer line Ha) as (res & sp & cat & -> & _).
  rewrite Folder_extract_metadata_loop_spec.
  set (region := lines_before is_header (skipn (i + 1) lines)).
  set (j := i + 1 + List.length region).
  destruct (nth_error lines j) as [lj|];
    [|right; split; [intros (_ & H & _); discriminate|reflexivity]].
  fold (is_header lj).
  destruct (is_header lj); cbn [negb];
    [|right; split; [intros (_ & H & _); discriminate|reflexivity]].
  pose proof (Folder_rows_loop_fst pages (skipn (j + 1) lines) (j + 1)
                (nth j pages 0) []) as Hrl.
  destruct (Folder.rows_loop _ _ _ _ _) as [rl ep]. cbn [fst app] in Hrl.
  subst rl.
  destruct (nonnil _) eqn:Er.
  - apply nonnil_true in Er. left. split.
    + split; [now exists line|]. now split.
    + eexists. split; [reflexivity|].
      cbn [Folder.title Folder.startPage Folder.rows Folder.units
           Folder.season Folder.quota Folder.weapon].
      split; [exact Hn|]. split; [reflexivity|]. split; [reflexivity|].
      split; [exact Er|].
      unfold text_field, quota_field, and_then.
      split; [|split; [|split]].
      * rewrite (fold_read_label Folder.m_units Folder.read_label "Units:"
                   (fun l => Some (label_value "Units:" l)))
          by (intros; apply Folder_read_label_fields).
        now destruct (last_labelled _ _).
      * rewrite (fold_read_label Folder.m_season Folder.read_label
                   "Season:" (fun l => Some (label_value "Season:" l)))
          by (intros; apply Folder_read_label_fields).
        now destruct (last_labelled _ _).
      * rewrite (fold_read_label Folder.m_quota Folder.read_label "Quota:"
                   quota_value)
          by (intros; apply Folder_read_label_fields).
        now destruct (last_labelled _ _).
      * rewrite (fold_read_label Folder.m_weapon Folder.read_label "Weapon"
                   (fun l => Some (label_value "Weapon" l)))
          by (intros; apply Folder_read_label_fields).
        now destruct (last_labelled _ _).
  - right. split; [|reflexivity].
    intros (_ & _ & H). apply nonnil_true in H. congruence.
Qed.

Lemma not_anchor_no_rows is_anchor abandon lines i l :
  nth_error lines i = Some l -> is_anchor l = false ->
  ~ block_has_rows is_anchor abandon lines i.
Proof. intros Hn Ha ((l' & Hl & Hl') & _). congruence. Qed.

Lemma past_end_no_rows is_anchor abandon lines i :
  nth_error lines i = None -> ~ block_has_rows is_anchor abandon lines i.
Proof. intros Hn ((l' & Hl & _) & _). congruence. Qed.

Lemma Folder_parse_loop_records source_file year pages lines rest i hunts :
  skipn i lines = rest ->
  exists idxs new,
    Folder.parse_loop source_file year pages lines rest i hunts
    = (hunts ++ new)%list
    /\ StronglySorted lt idxs
    /\ Forall (fun a => i <= a) idxs
    /\ (forall a, i <= a ->
          (In a idxs <-> block_has_rows is_title (fun _ => false) lines a))
    /\ Forall2 (Folder_block_record pages lines) idxs new.
Proof.
  revert i hunts. induction rest as [|l rest IH]; intros i hunts Hs.
  - exists [], []. cbn [Folder.parse_loop]. rewrite app_nil_r.
    split; [reflexivity|]. split; [constructor|]. split; [constructor|].
    split; [|constructor].
    intros a Ha. split; [intros []|]. intros H. exfalso.
    apply (past_end_no_rows _ _ _ _) in H; [exact H|].
    apply nth_error_None. apply skipn_nil_nth_error, nth_error_None in Hs.
    lia.
  - destruct (skipn_cons_nth_error _ _ _ _ Hs) as [Hn Hs'].
    cbn [Folder.parse_loop].
    assert (Hcase :
      (block_has_rows is_title (fun _ => false) lines i
       /\ exists h,
            (if is_title l
             then Folder.block_body source_file year pages lines i l hunts
             else hunts) = (hunts ++ [h])%list
            /\ Folder_block_record pages lines i h)
      \/ (~ block_has_rows is_title (fun _ => false) lines i
          /\ (if is_title l
              then Folder.block_body source_file year pages lines i l hunts
              else hunts) = hunts)).
    { destruct (is_title l) eqn:Ea.
      - now apply Folder_block_body_spec.
      - right. split; [|reflexivity].
        eapply not_anchor_no_rows; eassumption. }
    destruct Hcase as [(Hi & h & -> & Hh)|(Hi & ->)].
    + destruct (IH (i + 1) (hunts ++ [h])%list Hs')
        as (idxs & new & E & S & F & Hiff & F2).
      exists (i :: idxs), (h :: new). rewrite E, <- app_assoc.
      split; [reflexivity|]. split.
      { constructor; [exact S|].
        eapply Forall_impl; [|exact F]. simpl. intros; lia. }
      split.
      { constructor; [lia|]. eapply Forall_impl; [|exact F].
        simpl. intros; lia. }
      split; [|now constructor].
      intros a Ha. destruct (Nat.eq_dec a i) as [->|Hne].
      * split; [intros _; exact Hi|intros _; now left].
      * rewrite <- Hiff by lia. split; [intros [?|?]; [lia|assumption]|].
        intros ?; now right.
    + destruct (IH (i + 1) hunts Hs') as (idxs & new & E & S & F & Hiff & F2).
      exists idxs, new. split; [exact E|]. split; [exact S|]. split.
      { eapply Forall_impl; [|exact F]. simpl. intros; lia. }
      split; [|exact F2].
      intros a Ha. destruct (Nat.eq_dec a i) as [->|Hne].
      * split; [|intros H; now destruct Hi].
        intros Hin. rewrite Forall_forall in F. specialize (F _ Hin). lia.
      * apply Hiff. lia.
Qed.

Lemma Folder_parse_lines_records source_file year all_lines :
  exists idxs,
    StronglySorted lt idxs
    /\ (forall i, In i idxs
                  <-> block_has_rows is_title (fun _ => false)
                        (map snd all_lines) i)
    /\ Forall2 (Folder_block_record (map fst all_lines) (map snd all_lines))
               idxs (Folder.parse_lines source_file year all_lines).
Proof.
  unfold Folder.parse_lines.
  destruct (Folder_parse_loop_records source_file year (map fst all_lines)
              (map snd all_lines) (map snd all_lines) 0 [] eq_refl)
    as (idxs & new & -> & S & _ & Hiff & F2).
  exists idxs. split; [exact S|]. split; [|exact F2].
  intros i. apply Hiff. lia.
Qed.

(** *** [import_ndow_urls.py] *)

Lemma ImportUrls_read_label_fields l m :
  ImportUrls.ms_season (ImportUrls.read_label l m)
  = (if Py.startswith l "Season:" then Some (label_value "Season:" l)
     else ImportUrls.ms_season m)
  /\ ImportUrls.ms_quota (ImportUrls.read_label l m)
     = (if Py.startswith l "Quota:" then quota_value l
        else ImportUrls.ms_quota m)
  /\ ImportUrls.ms_weapon (ImportUrls.read_label l m)
     = (if Py.startswith l "Weapon" then Some (label_value "Weapon" l)
        else ImportUrls.ms_weapon m).
Proof.
  unfold ImportUrls.read_label.
  destruct (Py.startswith l "Season:") eqn:ES;
    [exclude_labels ES; now repeat split|].
  destruct (Py.startswith l "Quota:") eqn:EQ;
    [exclude_labels EQ; now repeat split|].
  destruct (Py.startswith l "Weapon"); now repeat split.
Qed.

Lemma ImportUrls_read_label_other l m c p :
  c <> "S"%char -> c <> "Q"%char -> c <> "W"%char ->
  Py.startswith l (String c p) = true -> ImportUrls.read_label l m = m.
Proof.
  intros H1 H2 H3 E. unfold ImportUrls.read_label.
  rewrite (startswith_other_char l c p "S" "eason:" H1 E).
  rewrite (startswith_other_char l c p "Q" "uota:" H2 E).
  rewrite (startswith_other_char l c p "W" "eapon" H3 E).
  reflexivity.
Qed.

(** The metadata loop reads the metadata lines and stops at the line after
    them, table header or not. *)
Lemma ImportUrls_metadata_loop_spec rest j m :
  ImportUrls.metadata_loop rest j m
  = (fold_left (fun m l => ImportUrls.read_label l m)
       (lines_before (fun l => is_header l || ImportUrls_is_anchor l) rest)
       m,
     j + List.length
           (lines_before (fun l => is_header l || ImportUrls_is_anchor l)
              rest)).
Proof.
  revert j m. induction rest as [|l rest IH]; intros j m;
    cbn [ImportUrls.metadata_loop lines_before].
  - cbn [fold_left List.length]. now rewrite Nat.add_0_r.
  - fold (is_header l). fold (ImportUrls_is_anchor l).
    destruct (is_header l) eqn:E; cbn [orb].
    + cbn [fold_left List.length]. rewrite Nat.add_0_r.
      now rewrite (ImportUrls_read_label_other l m "B" "onus Points")
        by (discriminate || exact E).
    + destruct (ImportUrls_is_anchor l) eqn:Ea.
      * cbn [fold_left List.length]. rewrite Nat.add_0_r.
        now rewrite (ImportUrls_read_label_other l m "U" "nits:")
          by (discriminate || exact Ea).
      * rewrite IH. cbn [fold_left List.length]. f_equal. lia.
Qed.

Lemma ImportUrls_rows_loop_fst pages rest k end_page rl :
  fst (ImportUrls.rows_loop pages rest k end_page rl)
  = (rl ++ filter is_row_line
             (lines_before (ends_table ImportUrls_is_anchor) rest))%list.
Proof.
  revert k rl. induction rest as [|l rest IH]; intros k rl;
    rewrite filter_lines_before_app; cbn [ImportUrls.rows_loop];
    [reflexivity|].
  unfold ends_table. fold (ImportUrls_is_anchor l).
  destruct (Py.startswith l "Total"); [reflexivity|].
  destruct (ImportUrls_is_anchor l); cbn [orb fst]; [reflexivity|].
  apply IH.
Qed.

Lemma ImportUrls_block_body_spec url file res sp pages lines i line blocks :
  nth_error lines i = Some line -> ImportUrls_is_anchor line = true ->
  (block_has_rows ImportUrls_is_anchor ImportUrls_is_anchor lines i
   /\ exists b,
        ImportUrls.block_body url file res sp pages lines i line blocks
        = (blocks ++ [b])%list
        /\ ImportUrls_block_record pages lines i b)
  \/ (~ block_has_rows ImportUrls_is_anchor ImportUrls_is_anchor lines i
      /\ ImportUrls.block_body url file res sp pages lines i line blocks
         = blocks).
Proof.
  intros Hn Ha.
  unfold block_has_rows, ImportUrls_block_record, has_header,
    block_row_lines, header_index, block_region.
  unfold ImportUrls.block_body.
  rewrite ImportUrls_metadata_loop_spec.
  set (region := lines_before _ (skipn (i + 1) lines)).
  set (j := i + 1 + List.length region).
  destruct (nth_error lines j) as [lj|];
    [|right; split; [intros (_ & H & _); discriminate|reflexivity]].
  fold (is_header lj).
  destruct (is_header lj); cbn [negb];
    [|right; split; [intros (_ & H & _); discriminate|reflexivity]].
  pose proof (ImportUrls_rows_loop_fst pages (skipn (j + 1) lines) (j + 1)
                (nth j pages 0) []) as Hrl.
  destruct (ImportUrls.rows_loop _ _ _ _ _) as [rl ep]. cbn [fst app] in Hrl.
  subst rl.
  destruct (nonnil _) eqn:Er.
  - apply nonnil_true in Er. left. split.
    + split; [now exists line|]. now split.
    + eexists. split; [reflexivity|].
      cbn [ImportUrls.units ImportUrls.startPage ImportUrls.rows
           ImportUrls.season ImportUrls.quota ImportUrls.weapon].
      split; [now exists line|]. split; [reflexivity|].
      split; [reflexivity|]. split; [exact Er|].
      unfold text_field, quota_field, and_then.
      split; [|split].
      * rewrite (fold_read_label ImportUrls.ms_season ImportUrls.read_label
                   "Season:" (fun l => Some (label_value "Season:" l)))
          by (intros; apply ImportUrls_read_label_fields).
        now destruct (last_labelled _ _).
      * rewrite (fold_read_label ImportUrls.ms_quota ImportUrls.read_label
                   "Quota:" quota_value)
          by (intros; apply ImportUrls_read_label_fields).
        now destruct (last_labelled _ _).
      * rewrite (fold_read_label ImportUrls.ms_weapon ImportUrls.read_label
                   "Weapon" (fun l => Some (label_value "Weapon" l)))
          by (intros; apply ImportUrls_read_label_fields).
        now destruct (last_labelled _ _).
  - right. split; [|reflexivity].
    intros (_ & _ & H). apply nonnil_true in H. congruence.
Qed.

Lemma ImportUrls_parse_loop_records url file res sp pages lines rest i
  blocks :
  skipn i lines = rest ->
  exists idxs new,
    ImportUrls.parse_loop url file res sp pages lines rest i blocks
    = (blocks ++ new)%list
    /\ StronglySorted lt idxs
    /\ Forall (fun a => i <= a) idxs
    /\ (forall a, i <= a ->
          (In a idxs
           <-> block_has_rows ImportUrls_is_anchor ImportUrls_is_anchor
                 lines a))
    /\ Forall2 (ImportUrls_block_record pages lines) idxs new.
Proof.
  revert i blocks. induction rest as [|l rest IH]; intros i blocks Hs.
  - exists [], []. cbn [ImportUrls.parse_loop]. rewrite app_nil_r.
    split; [reflexivity|]. split; [constructor|]. split; [constructor|].
    split; [|constructor].
    intros a Ha. split; [intros []|]. intros H. exfalso.
    apply (past_end_no_rows _ _ _ _) in H; [exact H|].
    apply nth_error_None. apply skipn_nil_nth_error, nth_error_None in Hs.
    lia.
  - destruct (skipn_cons_nth_error _ _ _ _ Hs) as [Hn Hs'].
    cbn [ImportUrls.parse_loop]. fold (ImportUrls_is_anchor l).
    assert (Hcase :
      (block_has_rows ImportUrls_is_anchor ImportUrls_is_anchor lines i
       /\ exists b,
            (if ImportUrls_is_anchor l
             then ImportUrls.block_body url file res sp pages lines i l
                    blocks
             else blocks) = (blocks ++ [b])%list
            /\ ImportUrls_block_record pages lines i b)
      \/ (~ block_has_rows ImportUrls_is_anchor ImportUrls_is_anchor lines i
          /\ (if ImportUrls_is_anchor l
              then ImportUrls.block_body url file res sp pages lines i l
                     blocks
              else blocks) = blocks)).
    { destruct (ImportUrls_is_anchor l) eqn:Ea.
      - now apply ImportUrls_block_body_spec.
      - right. split; [|reflexivity].
        eapply not_anchor_no_rows; eassumption. }
    destruct Hcase as [(Hi & h & -> & Hh)|(Hi & ->)].
    + destruct (IH (i + 1) (blocks ++ [h])%list Hs')
        as (idxs & new & E & S & F & Hiff & F2).
      exists (i :: idxs), (h :: new). rewrite E, <- app_assoc.
      split; [reflexivity|]. split.
      { constructor; [exact S|].
        eapply Forall_impl; [|exact F]. simpl. intros; lia. }
      split.
      { constructor; [lia|]. eapply Forall_impl; [|exact F].
        simpl. intros; lia. }
      split; [|now constructor].
      intros a Ha. destruct (Nat.eq_dec a i) as [->|Hne].
      * split; [intros _; exact Hi|intros _; now left].
      * rewrite <- Hiff by lia. split; [intros [?|?]; [lia|assumption]|].
        intros ?; now right.
    + destruct (IH (i + 1) blocks Hs')
        as (idxs & new & E & S & F & Hiff & F2).
      exists idxs, new. split; [exact E|]. split; [exact S|]. split.
      { eapply Forall_impl; [|exact F]. simpl. intros; lia. }
      split; [|exact F2].
      intros a Ha. destruct (Nat.eq_dec a i) as [->|Hne].
      * split; [|intros H; now destruct Hi].
        intros Hin. rewrite Forall_forall in F. specialize (F _ Hin). lia.
      * apply Hiff. lia.
Qed.

Lemma ImportUrls_parse_lines_records source_file source_url url_name
  all_lines :
  exists idxs,
    StronglySorted lt idxs
    /\ (forall i, In i idxs
                  <-> block_has_rows ImportUrls_is_anchor
                        ImportUrls_is_anchor (map snd all_lines) i)
    /\ Forall2 (ImportUrls_block_record (map fst all_lines)
                  (map snd all_lines))
               idxs
               (ImportUrls.parse_lines source_file source_url url_name
                  all_lines).
Proof.
  unfold ImportUrls.parse_lines.
  destruct (ImportUrls_parse_loop_records source_url source_file
              (ImportUrls.infer_residency_from_url source_url)
              (ImportUrls.infer_species_from_name (Py.lower url_name))
              (map fst all_lines) (map snd all_lines) (map snd all_lines)
              0 [] eq_refl)
    as (idxs & new & -> & S & _ & Hiff & F2).
  exists idxs. split; [exact S|]. split; [|exact F2].
  intros i. apply Hiff. lia.
Qed.

Lemma past_end_lines is_anchor lines a :
  nth_error lines a = None -> ~ anchor_at is_anchor lines a.
Proof. intros Hn (l & Hl & _). congruence. Qed.

(** *** [parse_ndow_pdf_text.py] *)

Lemma PdfText_read_label_values l b :
  PdfText.units (PdfText.read_label l b)
  = (if Py.startswith l "Units:" then Some (label_value "Units:" l)
     else PdfText.units b)
  /\ PdfText.season (PdfText.read_label l b)
     = (if Py.startswith l "Season:" then Some (label_value "Season:" l)
        else PdfText.season b)
  /\ PdfText.quota (PdfText.read_label l b)
     = (if Py.startswith l "Quota:" then quota_value l
        else PdfText.quota b)
  /\ PdfText.weapon (PdfText.read_label l b)
     = (if Py.startswith l "Weapon" then Some (label_value "Weapon" l)
        else PdfText.weapon b).
Proof.
  unfold PdfText.read_label.
  destruct (Py.startswith l "Units:") eqn:EU;
    [exclude_labels EU; now repeat split|].
  destruct (Py.startswith l "Season:") eqn:ES;
    [exclude_labels ES; now repeat split|].
  destruct (Py.startswith l "Quota:") eqn:EQ;
    [exclude_labels EQ; now repeat split|].
  destruct (Py.startswith l "Weapon"); now repeat split.
Qed.

Lemma PdfText_read_label_other l b c p :
  c <> "U"%char -> c <> "S"%char -> c <> "Q"%char -> c <> "W"%char ->
  Py.startswith l (String c p) = true -> PdfText.read_label l b = b.
Proof.
  intros H0 H1 H2 H3 E. unfold PdfText.read_label.
  rewrite (startswith_other_char l c p "U" "nits:" H0 E).
  rewrite (startswith_other_char l c p "S" "eason:" H1 E).
  rewrite (startswith_other_char l c p "Q" "uota:" H2 E).
  rewrite (startswith_other_char l c p "W" "eapon" H3 E).
  reflexivity.
Qed.

Lemma PdfText_fold_read_label_frame region b :
  let b' := fold_left (fun b l => PdfText.read_label l b) region b in
  PdfText.title b' = PdfText.title b
  /\ PdfText.startPage b' = PdfText.startPage b
  /\ PdfText.endPage b' = PdfText.endPage b.
Proof.
  revert b. induction region as [|l region IH]; intros b;
    [now repeat split|].
  cbn [fold_left]. destruct (IH (PdfText.read_label l b)) as (H1 & H2 & H3).
  cbn zeta in *. rewrite H1, H2, H3. unfold PdfText.read_label.
  destruct (Py.startswith l "Units:"); [now repeat split|].
  destruct (Py.startswith l "Season:"); [now repeat split|].
  destruct (Py.startswith l "Quota:"); [now repeat split|].
  destruct (Py.startswith l "Weapon"); now repeat split.
Qed.

Lemma PdfText_is_anchor_eq l : PdfText_is_anchor l = true -> l = PdfText.ANCHOR.
Proof. apply String.eqb_eq. Qed.

Lemma header_not_anchor l : is_header l = true -> PdfText_is_anchor l = false.
Proof.
  intros H. destruct (PdfText_is_anchor l) eqn:E; [|reflexivity].
  apply PdfText_is_anchor_eq in E. subst l. discriminate H.
Qed.

Lemma total_not_anchor l :
  Py.startswith l "Total" = true -> PdfText_is_anchor l = false.
Proof.
  intros H. destruct (PdfText_is_anchor l) eqn:E; [|reflexivity].
  apply PdfText_is_anchor_eq in E. subst l. discriminate H.
Qed.

(** The metadata loop reads the metadata lines; it leaves the index at the
    table header, or on the line before a new anchor. *)
Lemma PdfText_metadata_loop_spec rest i b :
  let region :=
    lines_before (fun l => is_header l || PdfText_is_anchor l)
      (map snd rest) in
  PdfText.metadata_loop rest i b
  = (match nth_error (map snd rest) (List.length region) with
     | Some l => if is_header l then i + List.length region
                 else i + List.length region - 1
     | None => i + List.length region
     end,
     fold_left (fun b l => PdfText.read_label l b) region b).
Proof.
  cbn zeta. revert i b. induction rest as [|[p l] rest IH]; intros i b;
    cbn [PdfText.metadata_loop lines_before map snd].
  - cbn [fold_left List.length nth_error]. now rewrite Nat.add_0_r.
  - fold (is_header l). fold (PdfText_is_anchor l).
    destruct (is_header l) eqn:E; cbn [orb].
    + cbn [fold_left List.length nth_error]. rewrite E, Nat.add_0_r.
      now rewrite (PdfText_read_label_other l b "B" "onus Points")
        by (discriminate || exact E).
    + destruct (PdfText_is_anchor l) eqn:Ea.
      * cbn [fold_left List.length nth_error]. rewrite E, Nat.add_0_r.
        apply PdfText_is_anchor_eq in Ea. subst l.
        now rewrite (PdfText_read_label_other PdfText.ANCHOR b "N"
                       "R Elk Antlered")
          by (discriminate || reflexivity).
      * rewrite IH. cbn [fold_left List.length nth_error].
        replace (i + 1 + List.length
                   (lines_before
                      (fun l0 => is_header l0 || PdfText_is_anchor l0)
                      (map snd rest)))
          with (i + S (List.length
                   (lines_before
                      (fun l0 => is_header l0 || PdfText_is_anchor l0)
                      (map snd rest)))) by lia.
        reflexivity.
Qed.

(** The row loop collects the row-lines of the table and stores the page
    of the line that ends it, if there is one. *)
Lemma PdfText_rows_loop_spec rest k b rl :
  let r := PdfText.rows_loop rest k b rl in
  snd r
  = (rl ++ filter is_row_line
             (lines_before (ends_table PdfText_is_anchor) (map snd rest)))%list
  /\ snd (fst r)
     = match find (fun pl => ends_table PdfText_is_anchor (snd pl)) rest with
       | Some pl => PdfText.set_endPage (fst pl) b
       | None => b
       end.
Proof.
  cbn zeta. revert k rl. induction rest as [|[p l] rest IH]; intros k rl;
    rewrite filter_lines_before_app;
    cbn [PdfText.rows_loop map snd fst find]; [now split|].
  unfold ends_table at 1 3. fold (PdfText_is_anchor l).
  destruct (Py.startswith l "Total"); [now split|].
  destruct (PdfText_is_anchor l); cbn [orb fst snd]; [now split|].
  apply IH.
Qed.

Lemma PdfText_metadata_loop_no_anchor all_lines rest i b a :
  skipn i all_lines = rest -> 0 < i ->
  i <= a <= fst (PdfText.metadata_loop rest i b) ->
  ~ anchor_at PdfText_is_anchor (map snd all_lines) a.
Proof.
  revert i b. induction rest as [|[p l] rest IH]; intros i b Hs Hpos;
    cbn [PdfText.metadata_loop].
  - cbn [fst]. intros Ha. apply past_end_lines.
    apply skipn_nil_nth_error in Hs. rewrite nth_error_map.
    replace a with i by lia. now rewrite Hs.
  - destruct (skipn_cons_nth_error _ _ _ _ Hs) as [Hn Hs'].
    fold (is_header l). fold (PdfText_is_anchor l).
    assert (Hi : PdfText_is_anchor l = false ->
                 ~ anchor_at PdfText_is_anchor (map snd all_lines) i).
    { intros E (l' & Hl & Hl'). rewrite nth_error_map, Hn in Hl.
      cbn in Hl. congruence. }
    destruct (is_header l) eqn:E; cbn [fst].
    + intros Ha. replace a with i by lia.
      now apply Hi, header_not_anchor.
    + destruct (PdfText_is_anchor l) eqn:Ea; cbn [fst];
        [intros ?; exfalso; lia|].
      intros Ha. destruct (Nat.eq_dec a i) as [->|Hne]; [now apply Hi|].
      apply (IH (i + 1) (PdfText.read_label l b) Hs'); lia.
Qed.

Lemma PdfText_rows_loop_no_anchor all_lines rest k b rl a :
  skipn k all_lines = rest -> 0 < k ->
  k <= a <= fst (fst (PdfText.rows_loop rest k b rl)) ->
  ~ anchor_at PdfText_is_anchor (map snd all_lines) a.
Proof.
  revert k rl. induction rest as [|[p l] rest IH]; intros k rl Hs Hpos;
    cbn [PdfText.rows_loop].
  - cbn [fst]. intros Ha. apply past_end_lines.
    apply skipn_nil_nth_error in Hs. rewrite nth_error_map.
    replace a with k by lia. now rewrite Hs.
  - destruct (skipn_cons_nth_error _ _ _ _ Hs) as [Hn Hs'].
    fold (PdfText_is_anchor l).
    assert (Hi : PdfText_is_anchor l = false ->
                 ~ anchor_at PdfText_is_anchor (map snd all_lines) k).
    { intros E (l' & Hl & Hl'). rewrite nth_error_map, Hn in Hl.
      cbn in Hl. congruence. }
    destruct (Py.startswith l "Total") eqn:E; cbn [fst].
    + intros Ha. replace a with k by lia.
      now apply Hi, total_not_anchor.
    + destruct (PdfText_is_anchor l) eqn:Ea; cbn [fst];
        [intros ?; exfalso; lia|].
      intros Ha. destruct (Nat.eq_dec a k) as [->|Hne]; [now apply Hi|].
      eapply (IH (k + 1)); [exact Hs'|lia|].
      split; [lia|apply Ha].
Qed.

Lemma PdfText_block_body_no_anchor all_lines i pnum line hunts a :
  i < a <= fst (PdfText.block_body all_lines i pnum line hunts) ->
  ~ anchor_at PdfText_is_anchor (map snd all_lines) a.
Proof.
  unfold PdfText.block_body.
  pose proof (PdfText_metadata_loop_no_anchor all_lines
                (skipn (i + 1) all_lines) (i + 1)
                (PdfText.new_block line pnum) a eq_refl) as H1.
  destruct (PdfText.metadata_loop _ _ _) as [i2 b2]. cbn [fst] in H1.
  pose proof (PdfText_rows_loop_no_anchor all_lines
                (skipn (i2 + 1) all_lines) (i2 + 1) b2 [] a eq_refl) as H2.
  destruct (PdfText.rows_loop _ _ _ _) as [[i3 b3] rl]. cbn [fst] in *.
  intros Ha. destruct (le_lt_dec a i2); [apply H1|apply H2]; lia.
Qed.

Lemma PdfText_block_body_spec all_lines i pnum hunts :
  nth_error all_lines i = Some (pnum, PdfText.ANCHOR) ->
  (block_has_rows PdfText_is_anchor PdfText_is_anchor (map snd all_lines) i
   /\ exists h,
        snd (PdfText.block_body all_lines i pnum PdfText.ANCHOR hunts)
        = (hunts ++ [h])%list
        /\ PdfText_block_record all_lines i h)
  \/ (~ block_has_rows PdfText_is_anchor PdfText_is_anchor
          (map snd all_lines) i
      /\ snd (PdfText.block_body all_lines i pnum PdfText.ANCHOR hunts)
         = hunts).
Proof.
  intros Hn.
  unfold block_has_rows, PdfText_block_record, has_header, block_row_lines,
    header_index, block_region, table_end_page.
  cbn zeta. rewrite !skipn_map.
  unfold PdfText.block_body. rewrite PdfText_metadata_loop_spec. cbn zeta.
  set (region := lines_before _ (map snd (skipn (i + 1) all_lines))).
  set (j := i + 1 + List.length region).
  assert (Hj : nth_error (map snd (skipn (i + 1) all_lines))
                 (List.length region)
               = nth_error (map snd all_lines) j)
    by (now rewrite <- skipn_map, nth_error_skipn).
  rewrite Hj.
  assert (Hempty : forall i2 b2,
            parse_block_rows
              (snd (PdfText.rows_loop (skipn (i2 + 1) all_lines) (i2 + 1)
                      b2 [])) = [] ->
            snd (let '(i3, block, row_lines) :=
                   PdfText.rows_loop (skipn (i2 + 1) all_lines) (i2 + 1)
                     b2 [] in
                 (i3,
                  if nonnil
                       (PdfText.rows
                          (PdfText.set_rows (parse_block_rows row_lines)
                             block))
                  then (hunts ++
                        [PdfText.set_rows (parse_block_rows row_lines)
                           block])%list
                  else hunts)) = hunts).
  { intros i2 b2. destruct (PdfText.rows_loop _ _ _ _) as [[i3 b3] rl].
    cbn [snd PdfText.rows PdfText.set_rows]. now intros ->. }
  destruct (nth_error (map snd all_lines) j) as [lj|] eqn:Ej.
  - destruct (is_header lj) eqn:Eh.
    + pose proof (PdfText_rows_loop_spec (skipn (j + 1) all_lines) (j + 1)
                    (fold_left (fun b l => PdfText.read_label l b) region
                       (PdfText.new_block PdfText.ANCHOR pnum)) [])
        as [Hrl Hb].
      destruct (PdfText.rows_loop _ _ _ _) as [[i3 b3] rl].
      cbn [fst snd app] in Hrl, Hb. subst rl.
      cbn [snd PdfText.rows PdfText.set_rows].
      destruct (nonnil _) eqn:Er.
      * apply nonnil_true in Er. left. split.
        { split; [|now split]. exists PdfText.ANCHOR.
          rewrite nth_error_map, Hn. now split. }
        eexists. split; [reflexivity|].
        cbn [PdfText.title PdfText.startPage PdfText.rows PdfText.units
             PdfText.season PdfText.quota PdfText.weapon PdfText.endPage
             PdfText.set_rows].
        pose proof (PdfText_fold_read_label_frame region
                      (PdfText.new_block PdfText.ANCHOR pnum))
          as (F1 & F2 & F3).
        cbn zeta in F1, F2, F3.
        assert (Hkeep :
          PdfText.title b3 = PdfText.ANCHOR /\ PdfText.startPage b3 = pnum
          /\ PdfText.units b3
             = PdfText.units
                 (fold_left (fun b l => PdfText.read_label l b) region
                    (PdfText.new_block PdfText.ANCHOR pnum))
          /\ PdfText.season b3
             = PdfText.season
                 (fold_left (fun b l => PdfText.read_label l b) region
                    (PdfText.new_block PdfText.ANCHOR pnum))
          /\ PdfText.quota b3
             = PdfText.quota
                 (fold_left (fun b l => PdfText.read_label l b) region
                    (PdfText.new_block PdfText.ANCHOR pnum))
          /\ PdfText.weapon b3
             = PdfText.weapon
                 (fold_left (fun b l => PdfText.read_label l b) region
                    (PdfText.new_block PdfText.ANCHOR pnum))
          /\ PdfText.endPage b3
             = option_map fst
                 (find (fun pl => ends_table PdfText_is_anchor (snd pl))
                    (skipn (j + 1) all_lines))).
        { rewrite Hb. destruct (find _ _) as [pl|];
            cbn [PdfText.set_endPage PdfText.title PdfText.startPage
                 PdfText.units PdfText.season PdfText.quota PdfText.weapon
                 PdfText.endPage option_map];
            rewrite ?F1, ?F2, ?F3; now repeat split. }
        destruct Hkeep as (K1 & K2 & K3 & K4 & K5 & K6 & K7).
        rewrite K1, K2, K3, K4, K5, K6, K7.
        split; [exact Hn|]. split; [reflexivity|]. split; [exact Er|].
        unfold text_field, quota_field, and_then.
        split; [|split; [|split; [|split]]].
        { rewrite (fold_read_label PdfText.units PdfText.read_label
                     "Units:" (fun l => Some (label_value "Units:" l)))
            by (intros; apply PdfText_read_label_values).
          now destruct (last_labelled _ _). }
        { rewrite (fold_read_label PdfText.season PdfText.read_label
                     "Season:" (fun l => Some (label_value "Season:" l)))
            by (intros; apply PdfText_read_label_values).
          now destruct (last_labelled _ _). }
        { rewrite (fold_read_label PdfText.quota PdfText.read_label
                     "Quota:" quota_value)
            by (intros; apply PdfText_read_label_values).
          now destruct (last_labelled _ _). }
        { rewrite (fold_read_label PdfText.weapon PdfText.read_label
                     "Weapon" (fun l => Some (label_value "Weapon" l)))
            by (intros; apply PdfText_read_label_values).
          now destruct (last_labelled _ _). }
        reflexivity.
      * right. split; [|reflexivity].
        intros (_ & _ & H). apply nonnil_true in H. congruence.
    + right. split; [intros (_ & H & _); discriminate|].
      apply Hempty.
      replace (j - 1 + 1) with j by (unfold j; lia).
      pose proof (lines_before_spec
                    (fun l => is_header l || PdfText_is_anchor l)
                    (map snd (skipn (i + 1) all_lines))) as (_ & _ & H3).
      fold region in H3. rewrite Hj, Eh in H3. cbn [orb] in H3.
      rewrite nth_error_map in Ej.
      destruct (nth_error all_lines j) as [[pj lj']|] eqn:Ej';
        [|discriminate].
      cbn in Ej. injection Ej as ->.
      rewrite (skipn_nth_error_cons _ _ _ Ej').
      cbn [PdfText.rows_loop]. fold (PdfText_is_anchor lj).
      rewrite H3. apply PdfText_is_anchor_eq in H3. subst lj.
      reflexivity.
  - right. split; [intros (_ & H & _); discriminate|].
    apply Hempty.
    rewrite nth_error_map in Ej.
    destruct (nth_error all_lines j) eqn:Ej'; [discriminate|].
    apply nth_error_None in Ej'.
    rewrite skipn_all2 by lia. reflexivity.
Qed.

Lemma PdfText_parse_loop_records fuel all_lines i hunts r :
  PdfText.parse_loop fuel all_lines i hunts = Some r ->
  exists idxs new,
    r = (hunts ++ new)%list
    /\ StronglySorted lt idxs
    /\ Forall (fun a => i <= a) idxs
    /\ (forall a, i <= a ->
          (In a idxs
           <-> block_has_rows PdfText_is_anchor PdfText_is_anchor
                 (map snd all_lines) a))
    /\ Forall2 (PdfText_block_record all_lines) idxs new.
Proof.
  assert (Hend : forall i hunts,
            nth_error all_lines i = None ->
            exists idxs new,
              hunts = (hunts ++ new)%list
              /\ StronglySorted lt idxs
              /\ Forall (fun a => i <= a) idxs
              /\ (forall a, i <= a ->
                    (In a idxs
                     <-> block_has_rows PdfText_is_anchor PdfText_is_anchor
                           (map snd all_lines) a))
              /\ Forall2 (PdfText_block_record all_lines) idxs new).
  { intros j hs Hn. exists [], []. rewrite app_nil_r.
    split; [reflexivity|]. split; [constructor|]. split; [constructor|].
    split; [|constructor].
    intros a Ha. split; [intros []|]. intros H. exfalso.
    apply (past_end_no_rows _ _ _ _) in H; [exact H|].
    rewrite nth_error_map.
    apply nth_error_None in Hn.
    assert (Hn' : nth_error all_lines a = None)
      by (apply nth_error_None; lia).
    now rewrite Hn'. }
  revert i hunts. induction fuel as [|fuel IH]; intros i hunts;
    cbn [PdfText.parse_loop].
  - destruct (nth_error all_lines i) as [[p l]|] eqn:Hn; [discriminate|].
    intros [= <-]. now apply Hend.
  - destruct (nth_error all_lines i) as [[p l]|] eqn:Hn;
      [|intros [= <-]; now apply Hend].
    fold (PdfText_is_anchor l).
    destruct (PdfText_is_anchor l) eqn:Ea.
    + apply PdfText_is_anchor_eq in Ea. subst l.
      pose proof (PdfText_block_body_index all_lines i p PdfText.ANCHOR
                    hunts) as Hi.
      pose proof (fun a => PdfText_block_body_no_anchor all_lines i p
                             PdfText.ANCHOR hunts a) as Hskip.
      pose proof (PdfText_block_body_spec all_lines i p hunts Hn) as Hc.
      destruct (PdfText.block_body all_lines i p PdfText.ANCHOR hunts)
        as [i' hunts'].
      cbn [fst snd] in *. intros H.
      destruct (IH _ _ H) as (idxs & new & E & S & F & Hiff & F2).
      assert (Hmid : forall a, i < a ->
                (In a idxs
                 <-> block_has_rows PdfText_is_anchor PdfText_is_anchor
                       (map snd all_lines) a)).
      { intros a Ha. destruct (le_lt_dec a i') as [Hle|Hgt].
        - split.
          + intros Hin. rewrite Forall_forall in F. specialize (F _ Hin).
            lia.
          + intros (Hanchor & _). exfalso.
            apply (Hskip a); [lia|exact Hanchor].
        - apply Hiff. lia. }
      destruct Hc as [(Hb & h & -> & Hh)|(Hb & ->)].
      * exists (i :: idxs), (h :: new). rewrite E, <- app_assoc.
        split; [reflexivity|]. split.
        { constructor; [exact S|].
          eapply Forall_impl; [|exact F]. simpl. intros; lia. }
        split.
        { constructor; [lia|]. eapply Forall_impl; [|exact F].
          simpl. intros; lia. }
        split; [|now constructor].
        intros a Ha. destruct (Nat.eq_dec a i) as [->|Hne].
        { split; [intros _; exact Hb|intros _; now left]. }
        rewrite <- Hmid by lia. split; [intros [?|?]; [lia|assumption]|].
        intros ?; now right.
      * exists idxs, new. split; [exact E|]. split; [exact S|]. split.
        { eapply Forall_impl; [|exact F]. simpl. intros; lia. }
        split; [|exact F2].
        intros a Ha. destruct (Nat.eq_dec a i) as [->|Hne].
        { split; [|intros H'; now destruct Hb].
          intros Hin. rewrite Forall_forall in F. specialize (F _ Hin).
          lia. }
        apply Hmid. lia.
    + intros H.
      destruct (IH _ _ H) as (idxs & new & E & S & F & Hiff & F2).
      exists idxs, new. split; [exact E|]. split; [exact S|]. split.
      { eapply Forall_impl; [|exact F]. simpl. intros; lia. }
      split; [|exact F2].
      intros a Ha. destruct (Nat.eq_dec a i) as [->|Hne].
      * split.
        { intros Hin. rewrite Forall_forall in F. specialize (F _ Hin).
          lia. }
        intros H'. exfalso.
        eapply (not_anchor_no_rows PdfText_is_anchor); [|exact Ea|exact H'].
        rewrite nth_error_map, Hn. reflexivity.
      * apply Hiff. lia.
Qed.

Lemma PdfText_parse_lines_records all_lines :
  exists hunts idxs,
    PdfText.parse_lines all_lines = Some hunts
    /\ StronglySorted lt idxs
    /\ (forall i, In i idxs
                  <-> block_has_rows PdfText_is_anchor PdfText_is_anchor
                        (map snd all_lines) i)
    /\ Forall2 (PdfText_block_record all_lines) idxs hunts.
Proof.
  destruct (PdfText_parse_lines_total all_lines) as [hunts E].
  destruct (PdfText_parse_loop_records _ _ _ _ _ E)
    as (idxs & new & -> & S & _ & Hiff & F2).
  exists new, idxs. split; [exact E|]. split; [exact S|].
  split; [|exact F2]. intros i. apply Hiff. lia.
Qed.

(** ** Records and blocks *)




(** ** Sorting of the rows of a record *)

(** C6: the rows of a record are the reconstructed rows of its own block
    rearranged by a stable sort on the bonus points: sorted
    non-decreasing, a permutation of the rows reconstructed from the
    row-lines of the block, rows of equal bonus points all kept and in
    their original order.  This holds for [parse_block_rows], for every
    record of the three line scanners, each with the row-lines between
    the table header of its anchor and the line that ends the table, and
    for [normalize_table]. *)
Theorem C6_rows_stably_sorted :
  (forall row_lines,
     stable_sort_of (collect_rows row_lines [])
                    (parse_block_rows row_lines))
  /\ (forall all_lines,
        exists hunts idxs,
          PdfText.parse_lines all_lines = Some hunts
          /\ StronglySorted lt idxs
          /\ Forall2
               (fun i h =>
                  nth_error all_lines i
                  = Some (PdfText.startPage h, PdfText.title h)
                  /\ stable_sort_of
                       (collect_rows
                          (block_row_lines PdfText_is_anchor
                             PdfText_is_anchor (map snd all_lines) i) [])
                       (PdfText.rows h))
               idxs hunts)
  /\ (forall source_file year all_lines,
        exists idxs,
          StronglySorted lt idxs
          /\ Forall2
               (fun i h =>
                  nth_error (map snd all_lines) i = Some (Folder.title h)
                  /\ Folder.startPage h = nth i (map fst all_lines) 0
                  /\ stable_sort_of
                       (collect_rows
                          (block_row_lines is_title (fun _ => false)
                             (map snd all_lines) i) [])
                       (Folder.rows h))
               idxs (Folder.parse_lines source_file year all_lines))
  /\ (forall source_file source_url url_name all_lines,
        exists idxs,
          StronglySorted lt idxs
          /\ Forall2
               (fun i b =>
                  (exists line,
                     nth_error (map snd all_lines) i = Some line
                     /\ ImportUrls.units b = label_value "Units:" line)
                  /\ ImportUrls.startPage b = nth i (map fst all_lines) 0
                  /\ stable_sort_of
                       (collect_rows
                          (block_row_lines ImportUrls_is_anchor
                             ImportUrls_is_anchor (map snd all_lines) i) [])
                       (ImportUrls.rows b))
               idxs
               (ImportUrls.parse_lines source_file source_url url_name
                  all_lines))
  /\ (forall int_of_float t,
        match PdfTable.normalize_table int_of_float t with
        | Returned (Some rows) =>
            exists header_idx data_rows,
              PdfTable.find_header t 0 = Some header_idx
              /\ PdfTable.data_loop int_of_float
                   (skipn (header_idx + 1) t) [] = Returned data_rows
              /\ stable_sort_of data_rows rows
        | _ => True
        end)
  /\ parse_block_rows
       ["5 1 412 300 250 200 150"; "2 9 8 7 6 5"; "5 77 66 55 44 33"]
     = [mkRow 2 [0; 0; 0; 0; 0]%Z [9; 8; 7; 6; 5]%Z 35;
        mkRow 5 [1; 0; 0; 0; 0]%Z [412; 300; 250; 200; 150]%Z 1312;
        mkRow 5 [0; 0; 0; 0; 0]%Z [77; 66; 55; 44; 33]%Z 275].
Proof.
  split; [|split; [|split; [|split; [|split]]]].
  - intros. apply sort_by_bp_stable.
  - intros all_lines.
    destruct (PdfText_parse_lines_records all_lines)
      as (hunts & idxs & E & S & _ & F2).
    exists hunts, idxs. split; [exact E|]. split; [exact S|].
    eapply Forall2_impl; [|exact F2].
    intros i h (H1 & H2 & _). split; [exact H1|].
    rewrite H2. apply sort_by_bp_stable.
  - intros source_file year all_lines.
    destruct (Folder_parse_lines_records source_file year all_lines)
      as (idxs & S & _ & F2).
    exists idxs. split; [exact S|].
    eapply Forall2_impl; [|exact F2].
    intros i h (H1 & H2 & H3 & _). split; [exact H1|]. split; [exact H2|].
    rewrite H3. apply sort_by_bp_stable.
  - intros source_file source_url url_name all_lines.
    destruct (ImportUrls_parse_lines_records source_file source_url
                url_name all_lines) as (idxs & S & _ & F2).
    exists idxs. split; [exact S|].
    eapply Forall2_impl; [|exact F2].
    intros i h (H1 & H2 & H3 & _). split; [exact H1|]. split; [exact H2|].
    rewrite H3. apply sort_by_bp_stable.
  - intros f t. unfold PdfTable.normalize_table.
    destruct (PdfTable.find_header t 0) as [h|]; [|exact I].
    destruct (PdfTable.data_loop f _ _) as [|data_rows] eqn:E; [exact I|].
    exists h, data_rows.
    split; [reflexivity|]. split; [exact E|]. apply sort_by_bp_stable.
  - reflexivity.
Qed.

(** * Further properties of the code *)

(** ** Integers of a line *)

Lemma int_of_digits_from_nonneg s acc :
  (0 <= acc)%Z -> (0 <= Py.int_of_digits_from s acc)%Z.
Proof.
  revert acc. induction s as [|c s IH]; intros acc H;
    cbn [Py.int_of_digits_from]; [exact H|].
  apply IH. pose proof (Zle_0_nat (nat_of_ascii c - 48)). lia.
Qed.

Lemma ints_from_line_nonneg line :
  Forall (fun n => (0 <= n)%Z) (ints_from_line line).
Proof.
  unfold ints_from_line. apply Forall_map, Forall_forall. intros x _.
  apply int_of_digits_from_nonneg. lia.
Qed.

Lemma sum_from acc l :
  fold_left Z.add l acc = (acc + Py.sum l)%Z.
Proof.
  unfold Py.sum. revert acc. induction l as [|x l IH]; intros acc; simpl.
  - lia.
  - rewrite IH, (IH x). lia.
Qed.

Lemma sum_bounds l :
  Forall (fun n => (0 <= n)%Z) l ->
  (0 <= Py.sum l)%Z /\ Forall (fun n => (0 <= n <= Py.sum l)%Z) l.
Proof.
  induction 1 as [|x l Hx _ [IH1 IH2]].
  - split; [reflexivity|constructor].
  - assert (E : Py.sum (x :: l) = (x + Py.sum l)%Z)
      by (unfold Py.sum at 1; simpl; apply sum_from).
    rewrite E. split; [lia|]. constructor; [lia|].
    eapply Forall_impl; [|exact IH2]. simpl. intros; lia.
Qed.

Lemma Forall_firstn {A : Type} (P : A -> Prop) n (l : list A) :
  Forall P l -> Forall P (firstn n l).
Proof.
  intros H. apply Forall_forall. intros x Hx.
  rewrite Forall_forall in H. apply H.
  rewrite <- (firstn_skipn n l). apply in_or_app. now left.
Qed.

Lemma Forall_skipn {A : Type} (P : A -> Prop) n (l : list A) :
  Forall P l -> Forall P (skipn n l).
Proof.
  intros H. apply Forall_forall. intros x Hx.
  rewrite Forall_forall in H. apply H.
  rewrite <- (firstn_skipn n l). apply in_or_app. now right.
Qed.

Lemma row_of_line_counts line r :
  row_of_line line = Some r -> row_counts_ok r.
Proof.
  unfold row_of_line.
  pose proof (ints_from_line_nonneg line) as Hn.
  destruct (ints_from_line line) as [|b remaining]; [discriminate|].
  inversion Hn as [|? ? Hb Hrem]; subst.
  destruct (List.length remaining <? 5); [discriminate|].
  intros H.
  match type of H with Some ?x = _ => assert (Hr : r = x) by congruence end.
  subst r. clear H.
  unfold row_counts_ok, bp, successfulByChoice, totalByChoice,
    totalApplicants.
  split; [exact Hb|]. split.
  - apply Forall_firstn, Forall_app. split.
    + now apply Forall_firstn.
    + repeat constructor; lia.
  - apply sum_bounds. now apply Forall_firstn, Forall_skipn.
Qed.

(** X1: the integers read from a line are never negative (a minus sign is
    not part of a number), so in every reconstructed row the bonus points
    and all counts are at least 0 and no total by choice exceeds the
    applicant total. *)
Theorem rows_are_natural_counts (row_lines : list string) (r : Row) :
  In r (parse_block_rows row_lines) -> row_counts_ok r.
Proof.
  intros H. apply in_parse_block_rows in H.
  destruct H as (line & _ & Hr). eapply row_of_line_counts. exact Hr.
Qed.

Lemma rows_are_natural_counts_witness :
  row_counts_ok (mkRow 5 [1; 0; 0; 0; 0]%Z [412; 300; 250; 200; 150]%Z 1312).
Proof.
  apply (rows_are_natural_counts ["-5 1 -412 300 250 200 150"]).
  left. reflexivity.
Defined.

Lemma findall_numbers_split a c b cur :
  ends_number c = true ->
  findall_numbers (a ++ String c b) cur
  = (findall_numbers a cur ++ findall_numbers b None)%list.
Proof.
  unfold ends_number. intros Hc. apply negb_true_iff in Hc.
  revert cur. induction a as [|x a IH]; intros cur.
  - cbn [append findall_numbers]. rewrite Hc.
    apply orb_false_iff in Hc. destruct Hc as [Hd _]. rewrite Hd.
    now destruct cur.
  - cbn [append findall_numbers].
    destruct cur as [w|].
    + destruct (Py.is_digit x || (nat_of_ascii x =? 44)); [apply IH|].
      rewrite IH. reflexivity.
    + destruct (Py.is_digit x); apply IH.
Qed.

(** X2: a character that is neither a digit nor a comma separates numbers:
    the integers of a line cut at such a character are those of the part
    before it followed by those of the part after it. *)
Theorem ints_from_line_split (a b : string) (c : ascii) :
  ends_number c = true ->
  ints_from_line (a ++ String c b)
  = (ints_from_line a ++ ints_from_line b)%list.
Proof.
  intros Hc. unfold ints_from_line.
  now rewrite findall_numbers_split, map_app.
Qed.

Lemma ints_from_line_split_witness :
  ints_from_line ("3 1,176" ++ String "-" "42,x7")
  = (ints_from_line "3 1,176" ++ ints_from_line "42,x7")%list.
Proof. apply ints_from_line_split. reflexivity. Defined.

Lemma findall_numbers_some_nonnil s w : findall_numbers s (Some w) <> [].
Proof.
  revert w. induction s as [|c s IH]; intros w; simpl; [discriminate|].
  destruct (_ || _); [apply IH|discriminate].
Qed.

(** X3: a line gives no integer exactly when it has no digit; commas alone
    are not numbers. *)
Theorem ints_from_line_nil_iff (line : string) :
  ints_from_line line = [] <-> any_char Py.is_digit line = false.
Proof.
  unfold ints_from_line.
  assert (H : findall_numbers line None = []
              <-> any_char Py.is_digit line = false).
  { induction line as [|c s IH]; simpl; [tauto|].
    destruct (Py.is_digit c); simpl; [|exact IH].
    split; [|discriminate].
    intros H. now apply findall_numbers_some_nonnil in H. }
  rewrite <- H. split.
  - intros E. now apply map_eq_nil in E.
  - now intros ->.
Qed.

(** ** Number and order of the rows *)

Lemma rows_of_line_length line :
  List.length (rows_of_line line)
  = if 6 <=? List.length (ints_from_line line) then 1 else 0.
Proof.
  unfold rows_of_line.
  destruct (6 <=? List.length (ints_from_line line)) eqn:E.
  - apply Nat.leb_le in E. now rewrite row_of_line_spec.
  - apply Nat.leb_gt in E. now rewrite row_of_line_short.
Qed.

(** X4: [parse_block_rows] returns one row for each line with at least 6
    integers and nothing else: the number of rows is the number of such
    lines. *)
Theorem parse_block_rows_count (row_lines : list string) :
  List.length (parse_block_rows row_lines)
  = List.length
      (filter (fun l => 6 <=? List.length (ints_from_line l)) row_lines).
Proof.
  unfold parse_block_rows.
  rewrite <- (Permutation_length (sort_by_perm bp _)), collect_rows_flat.
  induction row_lines as [|l ls IH]; [reflexivity|].
  cbn [flat_map filter]. rewrite length_app, rows_of_line_length, IH.
  now destruct (6 <=? List.length (ints_from_line l)).
Qed.

Lemma sort_by_sorted_id {A : Type} (key : A -> Z) (l : list A) :
  StronglySorted (fun a b => (key a <= key b)%Z) l -> sort_by key l = l.
Proof.
  induction 1 as [|x l _ IH Hall]; [reflexivity|].
  cbn [sort_by]. rewrite IH.
  destruct l as [|y l]; [reflexivity|].
  inversion Hall as [|? ? Hxy _]; subst.
  cbn [insert_by]. apply Z.leb_le in Hxy. now rewrite Hxy.
Qed.

(** X5: when the rows reconstructed from the lines are already in
    non-decreasing order of bonus points, [parse_block_rows] returns them
    in the order of the lines. *)
Theorem parse_block_rows_sorted_input (row_lines : list string) :
  sorted_by_bp (collect_rows row_lines []) ->
  parse_block_rows row_lines = collect_rows row_lines [].
Proof. apply sort_by_sorted_id. Qed.

Lemma parse_block_rows_sorted_input_witness :
  parse_block_rows ["0 9 8 7 6 5"; "no number"; "0 1 2 3 4 5"; "2 1 1 1 1 1"]
  = [mkRow 0 [0; 0; 0; 0; 0]%Z [9; 8; 7; 6; 5]%Z 35;
     mkRow 0 [0; 0; 0; 0; 0]%Z [1; 2; 3; 4; 5]%Z 15;
     mkRow 2 [0; 0; 0; 0; 0]%Z [1; 1; 1; 1; 1]%Z 5].
Proof.
  apply (parse_block_rows_sorted_input
           ["0 9 8 7 6 5"; "no number"; "0 1 2 3 4 5"; "2 1 1 1 1 1"]).
  repeat constructor; vm_compute; discriminate.
Defined.

(** ** Row-lines and block boundaries *)

(** X6: a row-line is never taken for a block boundary: a line that starts
    with a digit is no title line, no "Units:" line, not the fixed anchor,
    no "Total" line and no "Bonus Points" line. *)
Theorem row_line_is_no_boundary (l : string) :
  is_row_line l = true ->
  is_title l = false
  /\ Py.startswith l "Units:" = false
  /\ String.eqb l PdfText.ANCHOR = false
  /\ Py.startswith l "Total" = false
  /\ Py.startswith l "Bonus Points" = false.
Proof.
  unfold is_row_line. intros H. apply andb_true_iff in H.
  destruct H as [H _]. destruct l as [|c l]; [discriminate|].
  cbn [Py.starts_with_class] in H.
  split; [|split; [|split; [|split]]].
  - unfold is_title. cbn [skip_prefix].
    destruct (Ascii.eqb_spec "R" c) as [E|_];
      [exfalso; subst; vm_compute in H; discriminate|].
    destruct (Ascii.eqb_spec "N" c) as [E|_];
      [exfalso; subst; vm_compute in H; discriminate|reflexivity].
  - unfold Py.startswith. cbn [String.prefix].
    destruct (ascii_dec "U" c) as [E|_];
      [exfalso; subst; vm_compute in H; discriminate|reflexivity].
  - unfold PdfText.ANCHOR. cbn [String.eqb].
    destruct (Ascii.eqb_spec c "N") as [E|_];
      [exfalso; subst; vm_compute in H; discriminate|reflexivity].
  - unfold Py.startswith. cbn [String.prefix].
    destruct (ascii_dec "T" c) as [E|_];
      [exfalso; subst; vm_compute in H; discriminate|reflexivity].
  - unfold Py.startswith. cbn [String.prefix].
    destruct (ascii_dec "B" c) as [E|_];
      [exfalso; subst; vm_compute in H; discriminate|reflexivity].
Qed.

Lemma row_line_is_no_boundary_witness :
  is_title "5 1 412 300 250 200 150" = false.
Proof.
  exact (proj1 (row_line_is_no_boundary "5 1 412 300 250 200 150"
                  eq_refl)).
Defined.

(** ** The line stream *)

Lemma rstrip_idempotent s : Py.rstrip (Py.rstrip s) = Py.rstrip s.
Proof.
  induction s as [|c s IH]; [reflexivity|].
  cbn [Py.rstrip]. destruct (Py.rstrip s) as [|d r] eqn:E.
  - destruct (Py.is_space c) eqn:Ec; [reflexivity|].
    cbn [Py.rstrip]. now rewrite Ec.
  - cbn [Py.rstrip]. cbn [Py.rstrip] in IH. now rewrite IH.
Qed.

Lemma lstrip_head s :
  Py.lstrip s = EmptyString
  \/ exists c r, Py.lstrip s = String c r /\ Py.is_space c = false.
Proof.
  induction s as [|c s IH]; [now left|].
  cbn [Py.lstrip]. destruct (Py.is_space c) eqn:E; [exact IH|].
  right. now exists c, s.
Qed.

Lemma lstrip_rstrip_head s :
  Py.lstrip (Py.rstrip (Py.lstrip s)) = Py.rstrip (Py.lstrip s).
Proof.
  destruct (lstrip_head s) as [->|(c & r & -> & Ec)]; [reflexivity|].
  cbn [Py.rstrip]. destruct (Py.rstrip r); rewrite ?Ec;
    cbn [Py.lstrip]; now rewrite Ec.
Qed.

Lemma strip_idempotent s : Py.strip (Py.strip s) = Py.strip s.
Proof.
  unfold Py.strip. now rewrite lstrip_rstrip_head, rstrip_idempotent.
Qed.

Lemma nonempty_true s : Py.nonempty s = true <-> s <> EmptyString.
Proof. destruct s; simpl; split; congruence. Qed.

Lemma page_lines_clean text l :
  In l (page_lines text) ->
  l <> EmptyString /\ Py.strip l = l /\ is_footer l = false.
Proof.
  unfold page_lines. intros H. apply filter_In in H.
  destruct H as [H Hf]. apply negb_true_iff in Hf.
  apply in_map_iff in H. destruct H as (x & <- & Hx).
  apply filter_In in Hx. destruct Hx as [_ Hx].
  split; [now apply nonempty_true|].
  split; [apply strip_idempotent|exact Hf].
Qed.

Lemma extract_pages_in texts pnum p l :
  In (p, l) (extract_pages texts pnum) <->
  exists text, pnum <= p /\ nth_error texts (p - pnum) = Some text
               /\ In l (page_lines text).
Proof.
  revert pnum. induction texts as [|t ts IH]; intros pnum.
  - simpl. split; [tauto|]. intros (text & _ & H & _).
    now destruct (p - pnum).
  - cbn [extract_pages]. rewrite in_app_iff, in_map_iff, IH. split.
    + intros [(x & [= <- <-] & Hx)|(text & Hle & Hn & Hin)].
      * exists t. rewrite Nat.sub_diag. now repeat split.
      * exists text. split; [lia|]. split; [|exact Hin].
        replace (p - pnum) with (S (p - S pnum)) by lia. exact Hn.
    + intros (text & Hle & Hn & Hin).
      destruct (Nat.eq_dec p pnum) as [->|Hne].
      * left. rewrite Nat.sub_diag in Hn. injection Hn as <-.
        now exists l.
      * right. exists text. split; [lia|]. split; [|exact Hin].
        replace (p - pnum) with (S (p - S pnum)) in Hn by lia. exact Hn.
Qed.

Lemma extract_pages_sorted texts pnum :
  StronglySorted le (map fst (extract_pages texts pnum)).
Proof.
  revert pnum. induction texts as [|t ts IH]; intros pnum; [constructor|].
  cbn [extract_pages]. rewrite map_app, map_map. cbn [fst].
  induction (page_lines t) as [|x xs IHx]; [apply IH|].
  cbn [map app]. constructor; [exact IHx|].
  apply Forall_app. split.
  - apply Forall_forall. intros q Hq. apply in_map_iff in Hq.
    destruct Hq as (? & <- & _). lia.
  - apply Forall_forall. intros q Hq. apply in_map_iff in Hq.
    destruct Hq as ([q' l'] & <- & Hq). apply extract_pages_in in Hq.
    destruct Hq as (? & Hle & _). simpl. lia.
Qed.

(** X7: every line of the line stream is non-empty, carries no leading or
    trailing white space and is no page footer. *)
Theorem extract_all_lines_clean (texts : list string) :
  Forall (fun pl => snd pl <> EmptyString
                    /\ Py.strip (snd pl) = snd pl
                    /\ is_footer (snd pl) = false)
         (extract_all_lines texts).
Proof.
  apply Forall_forall. intros [p l] H. apply extract_pages_in in H.
  destruct H as (text & _ & _ & H). now apply page_lines_clean in H.
Qed.

(** X8: the line stream keeps the order of the pages: a line is tagged
    with the number of its page, counted from 1, the tags never decrease
    along the stream, and the lines tagged [p] are exactly the lines of
    page [p]. *)
Theorem extract_all_lines_pages (texts : list string) :
  StronglySorted le (map fst (extract_all_lines texts))
  /\ Forall (fun pl => 1 <= fst pl <= List.length texts)
            (extract_all_lines texts)
  /\ forall p l,
       In (p, l) (extract_all_lines texts) <->
       exists text, 1 <= p /\ nth_error texts (p - 1) = Some text
                    /\ In l (page_lines text).
Proof.
  split; [apply extract_pages_sorted|]. split.
  - apply Forall_forall. intros [p l] H. apply extract_pages_in in H.
    destruct H as (text & Hle & Hn & _). cbn [fst].
    assert (p - 1 < List.length texts)
      by (apply nth_error_Some; congruence). lia.
  - intros p l. apply extract_pages_in.
Qed.

(** ** The records of a scan, anchor by anchor *)

Lemma incl_filter_cons {A : Type} (f : A -> bool) (x : A) (l acc out : list A) :
  incl out ((if f x then acc ++ [x] else acc) ++ filter f l) ->
  incl out (acc ++ filter f (x :: l)).
Proof.
  intros H y Hy. specialize (H y Hy). cbn [filter].
  destruct (f x); rewrite ?in_app_iff in *; simpl in *; tauto.
Qed.

Lemma Folder_rows_loop_cases pages lines rest k e0 rl :
  skipn k lines = rest -> e0 < k -> e0 < List.length lines ->
  exists e,
    snd (Folder.rows_loop pages rest k (nth e0 pages 0) rl) = nth e pages 0
    /\ e0 <= e < List.length lines
    /\ incl (fst (Folder.rows_loop pages rest k (nth e0 pages 0) rl))
            (rl ++ filter is_row_line rest).
Proof.
  revert k rl. induction rest as [|l rest IH]; intros k rl Hs Hk He.
  - exists e0. cbn [Folder.rows_loop fst snd filter].
    rewrite app_nil_r. split; [reflexivity|]. split; [lia|apply incl_refl].
  - destruct (skipn_cons_nth_error _ _ _ _ Hs) as [Hn Hs'].
    assert (Hlt : k < List.length lines)
      by (apply nth_error_Some; congruence).
    cbn [Folder.rows_loop].
    destruct (Py.startswith l "Total").
    + exists k. cbn [fst snd]. split; [reflexivity|]. split; [lia|].
      apply incl_appl, incl_refl.
    + destruct (is_title l).
      * exists (k - 1). cbn [fst snd]. split; [reflexivity|].
        split; [lia|]. apply incl_appl, incl_refl.
      * destruct (IH (k + 1)
                    (if is_row_line l then (rl ++ [l])%list else rl) Hs')
          as (e & E1 & E2 & E3); [lia|exact He|].
        exists e. split; [exact E1|]. split; [exact E2|].
        now apply incl_filter_cons.
Qed.

Lemma Folder_block_body_cases source_file year pages lines i line hunts :
  nth_error lines i = Some line -> is_title line = true ->
  Folder.block_body source_file year pages lines i line hunts = hunts
  \/ exists h,
       Folder.block_body source_file year pages lines i line hunts
       = (hunts ++ [h])%list
       /\ Folder_emitted_at source_file year pages lines i h.
Proof.
  intros Hn Ha. unfold Folder.block_body.
  destruct (Folder.infer_species_and_category line)
    as [[[res sp] cat]|] eqn:Ei; [|now left].
  unfold Folder.extract_metadata.
  assert (Hj : forall rest j m, skipn j lines = rest ->
             j <= snd (Folder.extract_metadata_loop rest j m)).
  { intros rest. induction rest as [|x rest IH]; intros j m Hs; simpl.
    - lia.
    - destruct (Py.startswith x "Bonus Points"); simpl; [lia|].
      destruct (skipn_cons_nth_error _ _ _ _ Hs) as [_ Hs'].
      specialize (IH (j + 1) (Folder.read_label x m) Hs'). lia. }
  specialize (Hj (skipn (i + 1) lines) (i + 1)
                (Folder.mkMeta None None None None) eq_refl).
  destruct (Folder.extract_metadata_loop _ _ _) as [meta j]. cbn [snd] in Hj.
  destruct (nth_error lines j) as [lj|] eqn:Ej; [|now left].
  destruct (Py.startswith lj "Bonus Points") eqn:Eh; cbn [negb];
    [|now left].
  assert (Hjl : j < List.length lines)
    by (apply nth_error_Some; congruence).
  destruct (Folder_rows_loop_cases pages lines (skipn (j + 1) lines)
              (j + 1) j [] eq_refl) as (e & E1 & E2 & E3); [lia|exact Hjl|].
  destruct (Folder.rows_loop _ _ _ _ _) as [rl ep]. cbn [fst snd] in *.
  destruct (nonnil (parse_block_rows rl)) eqn:Er; [|now left].
  right. eexists. split; [reflexivity|].
  exists line, lj, j, e, rl.
  cbn [Folder.title Folder.startPage Folder.residency Folder.species
       Folder.category Folder.sourceFile Folder.year Folder.endPage
       Folder.rows].
  apply nonnil_true in Er.
  repeat (split; [first [assumption|reflexivity|lia]|]).
  exact E3.
Qed.

Lemma Folder_parse_loop_emits source_file year pages lines rest i hunts :
  skipn i lines = rest ->
  exists idxs new,
    Folder.parse_loop source_file year pages lines rest i hunts
    = (hunts ++ new)%list
    /\ StronglySorted lt idxs
    /\ Forall (fun a => i <= a) idxs
    /\ Forall2 (Folder_emitted_at source_file year pages lines) idxs new.
Proof.
  revert i hunts. induction rest as [|l rest IH]; intros i hunts Hs.
  - exists [], []. cbn [Folder.parse_loop]. rewrite app_nil_r.
    repeat split; constructor.
  - destruct (skipn_cons_nth_error _ _ _ _ Hs) as [Hn Hs'].
    cbn [Folder.parse_loop].
    assert (Hskip : forall hs,
               exists idxs new,
                 Folder.parse_loop source_file year pages lines rest (i + 1)
                   hs = (hs ++ new)%list
                 /\ StronglySorted lt idxs
                 /\ Forall (fun a => i + 1 <= a) idxs
                 /\ Forall2 (Folder_emitted_at source_file year pages lines)
                            idxs new)
      by (intros hs; now apply IH).
    assert (Hweak : forall idxs, Forall (fun a => i + 1 <= a) idxs ->
                                 Forall (fun a => i <= a) idxs)
      by (intros idxs; apply Forall_impl; intros; lia).
    destruct (is_title l) eqn:Ea.
    + destruct (Folder_block_body_cases source_file year pages lines i l
                  hunts Hn Ea) as [->|(h & -> & Hh)].
      * destruct (Hskip hunts) as (idxs & new & E & S & F & F2).
        exists idxs, new. auto.
      * destruct (Hskip (hunts ++ [h])%list)
          as (idxs & new & E & S & F & F2).
        exists (i :: idxs), (h :: new). rewrite E, <- app_assoc.
        split; [reflexivity|]. split.
        { constructor; [exact S|].
          eapply Forall_impl; [|exact F]. simpl. intros; lia. }
        split; [constructor; [lia|auto]|]. now constructor.
    + destruct (Hskip hunts) as (idxs & new & E & S & F & F2).
      exists idxs, new. auto.
Qed.

Lemma ImportUrls_rows_loop_cases pages lines rest k e0 rl :
  skipn k lines = rest -> e0 < k -> e0 < List.length lines ->
  exists e,
    snd (ImportUrls.rows_loop pages rest k (nth e0 pages 0) rl)
    = nth e pages 0
    /\ e0 <= e < List.length lines
    /\ incl (fst (ImportUrls.rows_loop pages rest k (nth e0 pages 0) rl))
            (rl ++ filter is_row_line rest).
Proof.
  revert k rl. induction rest as [|l rest IH]; intros k rl Hs Hk He.
  - exists e0. cbn [ImportUrls.rows_loop fst snd filter].
    rewrite app_nil_r. split; [reflexivity|]. split; [lia|apply incl_refl].
  - destruct (skipn_cons_nth_error _ _ _ _ Hs) as [Hn Hs'].
    assert (Hlt : k < List.length lines)
      by (apply nth_error_Some; congruence).
    cbn [ImportUrls.rows_loop].
    destruct (Py.startswith l "Total").
    + exists k. cbn [fst snd]. split; [reflexivity|]. split; [lia|].
      apply incl_appl, incl_refl.
    + destruct (Py.startswith l "Units:").
      * exists (k - 1). cbn [fst snd]. split; [reflexivity|].
        split; [lia|]. apply incl_appl, incl_refl.
      * destruct (IH (k + 1)
                    (if is_row_line l then (rl ++ [l])%list else rl) Hs')
          as (e & E1 & E2 & E3); [lia|exact He|].
        exists e. split; [exact E1|]. split; [exact E2|].
        now apply incl_filter_cons.
Qed.

Lemma ImportUrls_metadata_loop_index lines rest j m :
  skipn j lines = rest ->
  j <= snd (ImportUrls.metadata_loop rest j m).
Proof.
  revert j m. induction rest as [|x rest IH]; intros j m Hs; simpl.
  - lia.
  - destruct (Py.startswith x "Bonus Points"); simpl; [lia|].
    destruct (Py.startswith x "Units:"); simpl; [lia|].
    destruct (skipn_cons_nth_error _ _ _ _ Hs) as [_ Hs'].
    specialize (IH (j + 1) (ImportUrls.read_label x m) Hs'). lia.
Qed.

Lemma ImportUrls_block_body_cases url file res sp pages lines i line blocks :
  nth_error lines i = Some line -> Py.startswith line "Units:" = true ->
  ImportUrls.block_body url file res sp pages lines i line blocks = blocks
  \/ exists b,
       ImportUrls.block_body url file res sp pages lines i line blocks
       = (blocks ++ [b])%list
       /\ ImportUrls_emitted_at pages lines i b.
Proof.
  intros Hn Ha. unfold ImportUrls.block_body.
  pose proof (ImportUrls_metadata_loop_index lines (skipn (i + 1) lines)
                (i + 1) (ImportUrls.mkMetaState None None None) eq_refl)
    as Hj.
  destruct (ImportUrls.metadata_loop _ _ _) as [m j]. cbn [snd] in Hj.
  destruct (nth_error lines j) as [lj|] eqn:Ej; [|now left].
  destruct (Py.startswith lj "Bonus Points") eqn:Eh; cbn [negb];
    [|now left].
  assert (Hjl : j < List.length lines)
    by (apply nth_error_Some; congruence).
  destruct (ImportUrls_rows_loop_cases pages lines (skipn (j + 1) lines)
              (j + 1) j [] eq_refl) as (e & E1 & E2 & E3); [lia|exact Hjl|].
  destruct (ImportUrls.rows_loop _ _ _ _ _) as [rl ep]. cbn [fst snd] in *.
  destruct (nonnil (parse_block_rows rl)) eqn:Er; [|now left].
  right. eexists. split; [reflexivity|].
  exists line, lj, j, e, rl.
  cbn [ImportUrls.title ImportUrls.units ImportUrls.startPage
       ImportUrls.endPage ImportUrls.rows].
  apply nonnil_true in Er.
  repeat (split; [first [assumption|reflexivity|lia]|]).
  exact E3.
Qed.

Lemma ImportUrls_parse_loop_emits url file res sp pages lines rest i blocks :
  skipn i lines = rest ->
  exists idxs new,
    ImportUrls.parse_loop url file res sp pages lines rest i blocks
    = (blocks ++ new)%list
    /\ StronglySorted lt idxs
    /\ Forall (fun a => i <= a) idxs
    /\ Forall2 (ImportUrls_emitted_at pages lines) idxs new.
Proof.
  revert i blocks. induction rest as [|l rest IH]; intros i blocks Hs.
  - exists [], []. cbn [ImportUrls.parse_loop]. rewrite app_nil_r.
    repeat split; constructor.
  - destruct (skipn_cons_nth_error _ _ _ _ Hs) as [Hn Hs'].
    cbn [ImportUrls.parse_loop].
    assert (Hskip : forall hs,
               exists idxs new,
                 ImportUrls.parse_loop url file res sp pages lines rest
                   (i + 1) hs = (hs ++ new)%list
                 /\ StronglySorted lt idxs
                 /\ Forall (fun a => i + 1 <= a) idxs
                 /\ Forall2 (ImportUrls_emitted_at pages lines) idxs new)
      by (intros hs; now apply IH).
    assert (Hweak : forall idxs, Forall (fun a => i + 1 <= a) idxs ->
                                 Forall (fun a => i <= a) idxs)
      by (intros idxs; apply Forall_impl; intros; lia).
    destruct (Py.startswith l "Units:") eqn:Ea.
    + destruct (ImportUrls_block_body_cases url file res sp pages lines i l
                  blocks Hn Ea) as [->|(h & -> & Hh)].
      * destruct (Hskip blocks) as (idxs & new & E & S & F & F2).
        exists idxs, new. auto.
      * destruct (Hskip (blocks ++ [h])%list)
          as (idxs & new & E & S & F & F2).
        exists (i :: idxs), (h :: new). rewrite E, <- app_assoc.
        split; [reflexivity|]. split.
        { constructor; [exact S|].
          eapply Forall_impl; [|exact F]. simpl. intros; lia. }
        split; [constructor; [lia|auto]|]. now constructor.
    + destruct (Hskip blocks) as (idxs & new & E & S & F & F2).
      exists idxs, new. auto.
Qed.

Lemma PdfText_read_label_fields l b :
  PdfText.title (PdfText.read_label l b) = PdfText.title b
  /\ PdfText.startPage (PdfText.read_label l b) = PdfText.startPage b
  /\ PdfText.endPage (PdfText.read_label l b) = PdfText.endPage b.
Proof.
  unfold PdfText.read_label.
  destruct (Py.startswith l "Units:"); [now repeat split|].
  destruct (Py.startswith l "Season:"); [now repeat split|].
  destruct (Py.startswith l "Quota:"); [now repeat split|].
  destruct (Py.startswith l "Weapon"); now repeat split.
Qed.

Lemma PdfText_metadata_loop_fields rest i b :
  PdfText.title (snd (PdfText.metadata_loop rest i b)) = PdfText.title b
  /\ PdfText.startPage (snd (PdfText.metadata_loop rest i b))
     = PdfText.startPage b
  /\ PdfText.endPage (snd (PdfText.metadata_loop rest i b))
     = PdfText.endPage b.
Proof.
  revert i b. induction rest as [|[p l] rest IH]; intros i b;
    cbn [PdfText.metadata_loop]; [now repeat split|].
  destruct (PdfText_read_label_fields l b) as (H1 & H2 & H3).
  destruct (Py.startswith l "Bonus Points"); [cbn [snd]; auto|].
  destruct (String.eqb l PdfText.ANCHOR); [cbn [snd]; auto|].
  destruct (IH (i + 1) (PdfText.read_label l b)) as (I1 & I2 & I3).
  rewrite I1, I2, I3. auto.
Qed.

Lemma PdfText_rows_loop_cases all_lines rest k b rl :
  skipn k all_lines = rest ->
  let r := PdfText.rows_loop rest k b rl in
  PdfText.title (snd (fst r)) = PdfText.title b
  /\ PdfText.startPage (snd (fst r)) = PdfText.startPage b
  /\ (PdfText.endPage (snd (fst r)) = PdfText.endPage b
      \/ exists e l p, k <= e /\ nth_error all_lines e = Some (p, l)
                       /\ PdfText.endPage (snd (fst r)) = Some p)
  /\ incl (snd r) (rl ++ filter is_row_line (map snd rest)).
Proof.
  revert k rl. induction rest as [|[p l] rest IH]; intros k rl Hs.
  - cbn [PdfText.rows_loop fst snd map filter]. rewrite app_nil_r.
    repeat split; auto. apply incl_refl.
  - destruct (skipn_cons_nth_error _ _ _ _ Hs) as [Hn Hs'].
    cbn [PdfText.rows_loop].
    destruct (Py.startswith l "Total").
    + cbn [fst snd]. repeat split; [|apply incl_appl, incl_refl].
      right. exists k, l, p. now repeat split.
    + destruct (String.eqb l PdfText.ANCHOR).
      * cbn [fst snd]. repeat split; [|apply incl_appl, incl_refl].
        right. exists k, l, p. now repeat split.
      * destruct (IH (k + 1)
                    (if is_row_line l then (rl ++ [l])%list else rl) Hs')
          as (E1 & E2 & E3 & E4).
        split; [exact E1|]. split; [exact E2|]. split.
        { destruct E3 as [E3|(e & l' & p' & He & E3)]; [now left|].
          right. exists e, l', p'. split; [lia|exact E3]. }
        cbn [map snd]. now apply incl_filter_cons.
Qed.

Lemma incl_skipn {A : Type} (l : list A) (a b : nat) :
  a <= b -> incl (skipn b l) (skipn a l).
Proof.
  intros H x Hx. replace b with ((b - a) + a) in Hx by lia.
  rewrite <- skipn_skipn in Hx.
  rewrite <- (firstn_skipn (b - a) (skipn a l)).
  apply in_or_app. now right.
Qed.

Lemma incl_filter_map_skipn (l : list (nat * string)) (a b : nat)
  (rl : list string) :
  a <= b ->
  incl rl (filter is_row_line (map snd (skipn b l))) ->
  incl rl (filter is_row_line (map snd (skipn a l))).
Proof.
  intros H Hrl x Hx. specialize (Hrl x Hx).
  apply filter_In in Hrl. destruct Hrl as [Hin Hf].
  apply filter_In. split; [|exact Hf].
  apply in_map_iff in Hin. destruct Hin as (y & <- & Hy).
  apply in_map. eapply incl_skipn; eassumption.
Qed.

Lemma PdfText_block_body_cases all_lines i pnum line hunts :
  nth_error all_lines i = Some (pnum, line) ->
  String.eqb line PdfText.ANCHOR = true ->
  snd (PdfText.block_body all_lines i pnum line hunts) = hunts
  \/ exists h,
       snd (PdfText.block_body all_lines i pnum line hunts)
       = (hunts ++ [h])%list
       /\ PdfText_emitted_at all_lines i h.
Proof.
  intros Hn Ha. apply String.eqb_eq in Ha. subst line.
  unfold PdfText.block_body.
  pose proof (PdfText_metadata_loop_index (skipn (i + 1) all_lines) (i + 1)
                (PdfText.new_block PdfText.ANCHOR pnum)) as Hi.
  pose proof (PdfText_metadata_loop_fields (skipn (i + 1) all_lines)
                (i + 1) (PdfText.new_block PdfText.ANCHOR pnum))
    as (F1 & F2 & F3).
  destruct (PdfText.metadata_loop _ _ _) as [i2 b2]. cbn [fst snd] in *.
  pose proof (PdfText_rows_loop_cases all_lines
                (skipn (i2 + 1) all_lines) (i2 + 1) b2 [] eq_refl)
    as (R1 & R2 & R3 & R4).
  destruct (PdfText.rows_loop _ _ _ _) as [[i3 b3] rl]. cbn [fst snd] in *.
  cbn [PdfText.rows PdfText.set_rows].
  destruct (nonnil (parse_block_rows rl)) eqn:Er; [|now left].
  right. eexists. split; [reflexivity|].
  exists pnum, rl.
  cbn [PdfText.title PdfText.startPage PdfText.endPage PdfText.rows
       PdfText.set_rows].
  apply nonnil_true in Er.
  split; [exact Hn|]. split; [now rewrite R1, F1|].
  split; [now rewrite R2, F2|]. split.
  - intros p Hp. destruct R3 as [R3|(e & l & p' & He & Hl & R3)].
    + rewrite R3, F3 in Hp. discriminate.
    + rewrite R3 in Hp. injection Hp as <-. exists e, l.
      split; [lia|exact Hl].
  - split; [reflexivity|]. split; [exact Er|].
    apply (incl_filter_map_skipn all_lines (i + 1) (i2 + 1)); [lia|].
    exact R4.
Qed.

Lemma PdfText_parse_loop_emits fuel all_lines i hunts r :
  PdfText.parse_loop fuel all_lines i hunts = Some r ->
  exists idxs new,
    r = (hunts ++ new)%list
    /\ StronglySorted lt idxs
    /\ Forall (fun a => i <= a) idxs
    /\ Forall2 (PdfText_emitted_at all_lines) idxs new.
Proof.
  revert i hunts. induction fuel as [|fuel IH]; intros i hunts;
    cbn [PdfText.parse_loop].
  - destruct (nth_error all_lines i) as [[p l]|]; [discriminate|].
    intros [= <-]. exists [], []. rewrite app_nil_r.
    repeat split; constructor.
  - destruct (nth_error all_lines i) as [[p l]|] eqn:Hn.
    2:{ intros [= <-]. exists [], []. rewrite app_nil_r.
        repeat split; constructor. }
    assert (Hweak : forall i' idxs, i <= i' ->
               Forall (fun a => i' + 1 <= a) idxs ->
               Forall (fun a => i <= a) idxs)
      by (intros i' idxs Hle; apply Forall_impl; intros; lia).
    destruct (String.eqb l PdfText.ANCHOR) eqn:Ea.
    + pose proof (PdfText_block_body_index all_lines i p l hunts) as Hi.
      pose proof (PdfText_block_body_cases all_lines i p l hunts Hn Ea)
        as Hc.
      destruct (PdfText.block_body all_lines i p l hunts) as [i' hunts'].
      cbn [fst snd] in *. intros H.
      destruct (IH _ _ H) as (idxs & new & E & S & F & F2).
      destruct Hc as [->|(h & -> & Hh)].
      * exists idxs, new. repeat split; eauto.
      * exists (i :: idxs), (h :: new). rewrite E, <- app_assoc.
        split; [reflexivity|]. split.
        { constructor; [exact S|].
          eapply Forall_impl; [|exact F]. simpl. intros; lia. }
        split; [constructor; [lia|eauto]|]. now constructor.
    + intros H. destruct (IH _ _ H) as (idxs & new & E & S & F & F2).
      exists idxs, new. repeat split; eauto.
Qed.

Lemma Forall2_exists_l {A B : Type} (R : A -> B -> Prop) l1 l2 :
  Forall2 R l1 l2 -> Forall (fun y => exists x, R x y) l2.
Proof. induction 1; constructor; eauto. Qed.

Lemma sorted_nth_le (pages : list nat) (a b : nat) :
  StronglySorted le pages -> a <= b -> b < List.length pages ->
  nth a pages 0 <= nth b pages 0.
Proof.
  intros H. revert a b. induction H as [|x l _ IH Hall]; intros a b Hab Hb.
  - simpl in Hb. lia.
  - destruct a as [|a], b as [|b]; cbn [nth]; try lia.
    + rewrite Forall_forall in Hall. apply Hall, nth_In.
      simpl in Hb. lia.
    + apply IH; simpl in Hb; lia.
Qed.

Lemma Forall2_sorted_by_index {B : Type} (R : nat -> B -> Prop)
  (page : B -> nat) (pages : list nat) idxs new :
  StronglySorted le pages ->
  (forall i h, R i h -> page h = nth i pages 0 /\ i < List.length pages) ->
  StronglySorted lt idxs -> Forall2 R idxs new ->
  StronglySorted (fun a b => page a <= page b) new.
Proof.
  intros Hp HR Hs H2. revert Hs.
  induction H2 as [|i h idxs new Hih H2 IH]; intros Hs; [constructor|].
  inversion Hs as [|? ? Hs' Hall]; subst.
  constructor; [now apply IH|].
  clear IH Hs Hs'. induction H2 as [|i' h' idxs new Hih' _ IH];
    [constructor|].
  inversion Hall as [|? ? Hlt Hall']; subst.
  constructor; [|now apply IH].
  destruct (HR _ _ Hih) as [-> _]. destruct (HR _ _ Hih') as [-> Hl].
  apply sorted_nth_le; [exact Hp|lia|exact Hl].
Qed.

Lemma Folder_parse_lines_emitted source_file year all_lines :
  exists idxs,
    StronglySorted lt idxs
    /\ Forall2 (Folder_emitted_at source_file year (map fst all_lines)
                  (map snd all_lines))
               idxs (Folder.parse_lines source_file year all_lines).
Proof.
  unfold Folder.parse_lines.
  destruct (Folder_parse_loop_emits source_file year (map fst all_lines)
              (map snd all_lines) (map snd all_lines) 0 [] eq_refl)
    as (idxs & new & -> & S & _ & F2).
  exists idxs. now split.
Qed.

Lemma ImportUrls_parse_lines_emitted source_file source_url url_name
  all_lines :
  exists idxs,
    StronglySorted lt idxs
    /\ Forall2 (ImportUrls_emitted_at (map fst all_lines)
                  (map snd all_lines))
               idxs
               (ImportUrls.parse_lines source_file source_url url_name
                  all_lines).
Proof.
  unfold ImportUrls.parse_lines.
  destruct (ImportUrls_parse_loop_emits source_url source_file
              (ImportUrls.infer_residency_from_url source_url)
              (ImportUrls.infer_species_from_name (Py.lower url_name))
              (map fst all_lines) (map snd all_lines) (map snd all_lines)
              0 [] eq_refl)
    as (idxs & new & -> & S & _ & F2).
  exists idxs. now split.
Qed.

Lemma PdfText_parse_lines_emitted all_lines :
  exists hunts idxs,
    PdfText.parse_lines all_lines = Some hunts
    /\ StronglySorted lt idxs
    /\ Forall2 (PdfText_emitted_at all_lines) idxs hunts.
Proof.
  destruct (PdfText_parse_lines_total all_lines) as [hunts E].
  destruct (PdfText_parse_loop_emits _ _ _ _ _ E)
    as (idxs & new & -> & S & _ & F2).
  exists new, idxs. now repeat split.
Qed.

(** ** Where the rows of a record come from *)

Lemma rows_from_row_lines lines rl rows :
  rows = parse_block_rows rl ->
  incl rl (filter is_row_line lines) ->
  Forall (row_from_lines lines) rows.
Proof.
  intros -> Hrl. apply Forall_forall. intros r Hr.
  apply in_parse_block_rows in Hr. destruct Hr as (line & Hin & Hr).
  apply Hrl, filter_In in Hin. destruct Hin as [Hin Hf].
  now exists line.
Qed.

Lemma incl_filter_skipn (lines : list string) (n : nat) (rl : list string) :
  incl rl (filter is_row_line (skipn n lines)) ->
  incl rl (filter is_row_line lines).
Proof.
  intros H x Hx. specialize (H x Hx). apply filter_In in H.
  destruct H as [Hin Hf]. apply filter_In. split; [|exact Hf].
  rewrite <- (firstn_skipn n lines). apply in_or_app. now right.
Qed.

(** X9: every row of every record of the three line scanners is read from
    a line of the document that starts with a run of digits; no row comes
    from a title, a metadata line or a totals line. *)
Theorem rows_come_from_row_lines (all_lines : list (nat * string)) :
  (exists hunts,
     PdfText.parse_lines all_lines = Some hunts
     /\ Forall (fun h => Forall (row_from_lines (map snd all_lines))
                                (PdfText.rows h)) hunts)
  /\ (forall source_file year,
        Forall (fun h => Forall (row_from_lines (map snd all_lines))
                                (Folder.rows h))
               (Folder.parse_lines source_file year all_lines))
  /\ (forall source_file source_url url_name,
        Forall (fun b => Forall (row_from_lines (map snd all_lines))
                                (ImportUrls.rows b))
               (ImportUrls.parse_lines source_file source_url url_name
                  all_lines)).
Proof.
  split; [|split].
  - destruct (PdfText_parse_lines_emitted all_lines)
      as (hunts & idxs & E & _ & F2).
    exists hunts. split; [exact E|].
    apply Forall2_exists_l in F2. eapply Forall_impl; [|exact F2].
    intros h (i & p & rl & _ & _ & _ & _ & Hr & _ & Hi).
    eapply rows_from_row_lines; [exact Hr|].
    rewrite <- (firstn_skipn (i + 1) all_lines), map_app, filter_app.
    now apply incl_appr.
  - intros sf year.
    destruct (Folder_parse_lines_emitted sf year all_lines)
      as (idxs & _ & F2).
    apply Forall2_exists_l in F2. eapply Forall_impl; [|exact F2].
    intros h (i & line & lj & j & e & rl & H).
    decompose [and] H.
    eapply rows_from_row_lines; [eassumption|].
    eapply incl_filter_skipn; eassumption.
  - intros sf su un.
    destruct (ImportUrls_parse_lines_emitted sf su un all_lines)
      as (idxs & _ & F2).
    apply Forall2_exists_l in F2. eapply Forall_impl; [|exact F2].
    intros h (i & line & lj & j & e & rl & H).
    decompose [and] H.
    eapply rows_from_row_lines; [eassumption|].
    eapply incl_filter_skipn; eassumption.
Qed.

(** ** Pages of a record *)

Lemma extract_all_lines_page_bounds texts a :
  a < List.length (extract_all_lines texts) ->
  1 <= nth a (map fst (extract_all_lines texts)) 0 <= List.length texts.
Proof.
  intros Ha.
  assert (Hin : In (nth a (extract_all_lines texts) (0, EmptyString))
                   (extract_all_lines texts)) by now apply nth_In.
  assert (E : nth a (map fst (extract_all_lines texts)) 0
              = fst (nth a (extract_all_lines texts) (0, EmptyString)))
    by exact (map_nth fst (extract_all_lines texts) (0, EmptyString) a).
  rewrite E. clear E.
  destruct (nth a (extract_all_lines texts) (0, EmptyString)) as [p l].
  apply extract_pages_in in Hin. destruct Hin as (text & Hle & Hn & _).
  assert (p - 1 < List.length texts) by (apply nth_error_Some; congruence).
  cbn [fst]. lia.
Qed.

Lemma nth_error_map_fst {A B : Type} (l : list (A * B)) i a b d :
  nth_error l i = Some (a, b) -> nth i (map fst l) d = a.
Proof.
  intros H. apply nth_error_nth with (d := d).
  now rewrite nth_error_map, H.
Qed.

(** X10: on the lines of a document every record of the three line
    scanners starts on a page of the document and does not end before it
    starts: 1 <= startPage <= endPage <= number of pages (for
    [parse_ndow_pdf_text.py], whenever the record has an end page). *)
Theorem record_pages_are_ordered (texts : list string) :
  (exists hunts,
     PdfText.parse_pdf texts = Some hunts
     /\ Forall (fun h =>
                  1 <= PdfText.startPage h <= List.length texts
                  /\ forall p, PdfText.endPage h = Some p ->
                               PdfText.startPage h <= p <= List.length texts)
               hunts)
  /\ (forall source_file year,
        Forall (fun h => 1 <= Folder.startPage h
                         /\ Folder.startPage h <= Folder.endPage h
                         /\ Folder.endPage h <= List.length texts)
               (Folder.parse_single_pdf source_file year texts))
  /\ (forall source_file source_url url_name,
        Forall (fun b => 1 <= ImportUrls.startPage b
                         /\ ImportUrls.startPage b <= ImportUrls.endPage b
                         /\ ImportUrls.endPage b <= List.length texts)
               (ImportUrls.parse_pdf_blocks source_file source_url url_name
                  texts)).
Proof.
  pose proof (extract_pages_sorted texts 1) as Hs.
  fold (extract_all_lines texts) in Hs.
  pose proof (extract_all_lines_page_bounds texts) as Hb.
  set (al := extract_all_lines texts) in *.
  assert (Hlen1 : List.length (map fst al) = List.length al)
    by apply length_map.
  assert (Hlen2 : List.length (map snd al) = List.length al)
    by apply length_map.
  split; [|split].
  - destruct (PdfText_parse_lines_emitted al) as (hunts & idxs & E & _ & F2).
    exists hunts. split; [exact E|].
    apply Forall2_exists_l in F2. eapply Forall_impl; [|exact F2].
    intros h (i & pnum & rl & Hn & _ & Hsp & Hep & _).
    assert (Hi : i < List.length al) by (apply nth_error_Some; congruence).
    pose proof (nth_error_map_fst _ _ _ _ 0 Hn) as Hp.
    rewrite Hsp, <- Hp. split; [apply Hb; exact Hi|].
    intros p Ep. destruct (Hep p Ep) as (e & l & Hie & Hne).
    assert (He : e < List.length al) by (apply nth_error_Some; congruence).
    rewrite <- (nth_error_map_fst _ _ _ _ 0 Hne). split.
    + apply sorted_nth_le; [exact Hs|lia|lia].
    + apply Hb. exact He.
  - intros sf year. unfold Folder.parse_single_pdf. fold al.
    destruct (Folder_parse_lines_emitted sf year al) as (idxs & _ & F2).
    apply Forall2_exists_l in F2. eapply Forall_impl; [|exact F2].
    intros h (i & line & lj & j & e & rl & H). decompose [and] H.
    repeat match goal with
           | E : Folder.startPage h = _ |- _ => rewrite E; clear E
           | E : Folder.endPage h = _ |- _ => rewrite E; clear E
           end.
    split; [apply Hb; lia|]. split; [|apply Hb; lia].
    apply sorted_nth_le; [exact Hs|lia|lia].
  - intros sf su un. unfold ImportUrls.parse_pdf_blocks. fold al.
    destruct (ImportUrls_parse_lines_emitted sf su un al)
      as (idxs & _ & F2).
    apply Forall2_exists_l in F2. eapply Forall_impl; [|exact F2].
    intros h (i & line & lj & j & e & rl & H). decompose [and] H.
    repeat match goal with
           | E : ImportUrls.startPage h = _ |- _ => rewrite E; clear E
           | E : ImportUrls.endPage h = _ |- _ => rewrite E; clear E
           end.
    split; [apply Hb; lia|]. split; [|apply Hb; lia].
    apply sorted_nth_le; [exact Hs|lia|lia].
Qed.

(** X11: the records of a document come out in document order: along the
    output list of each line scanner the start pages never decrease. *)
Theorem records_in_document_order (texts : list string) :
  (exists hunts,
     PdfText.parse_pdf texts = Some hunts
     /\ StronglySorted
          (fun a b => PdfText.startPage a <= PdfText.startPage b) hunts)
  /\ (forall source_file year,
        StronglySorted
          (fun a b => Folder.startPage a <= Folder.startPage b)
          (Folder.parse_single_pdf source_file year texts))
  /\ (forall source_file source_url url_name,
        StronglySorted
          (fun a b => ImportUrls.startPage a <= ImportUrls.startPage b)
          (ImportUrls.parse_pdf_blocks source_file source_url url_name
             texts)).
Proof.
  pose proof (extract_pages_sorted texts 1) as Hs.
  fold (extract_all_lines texts) in Hs.
  set (al := extract_all_lines texts) in *.
  assert (Hlen1 : List.length (map fst al) = List.length al)
    by apply length_map.
  assert (Hlen2 : List.length (map snd al) = List.length al)
    by apply length_map.
  split; [|split].
  - destruct (PdfText_parse_lines_emitted al) as (hunts & idxs & E & S & F2).
    exists hunts. split; [exact E|].
    eapply Forall2_sorted_by_index; [exact Hs| |exact S|exact F2].
    intros i h (pnum & rl & Hn & _ & Hsp & _).
    split; [now rewrite Hsp, (nth_error_map_fst _ _ _ _ 0 Hn)|].
    rewrite Hlen1. apply nth_error_Some. congruence.
  - intros sf year. unfold Folder.parse_single_pdf. fold al.
    destruct (Folder_parse_lines_emitted sf year al) as (idxs & S & F2).
    eapply Forall2_sorted_by_index; [exact Hs| |exact S|exact F2].
    intros i h (line & lj & j & e & rl & H). decompose [and] H.
    split; [assumption|lia].
  - intros sf su un. unfold ImportUrls.parse_pdf_blocks. fold al.
    destruct (ImportUrls_parse_lines_emitted sf su un al)
      as (idxs & S & F2).
    eapply Forall2_sorted_by_index; [exact Hs| |exact S|exact F2].
    intros i h (line & lj & j & e & rl & H). decompose [and] H.
    split; [assumption|lia].
Qed.

(** ** Anchors and records *)

Lemma filter_skipn_length {A : Type} (f : A -> bool) (l : list A) n i :
  n <= i ->
  List.length (filter f (skipn i l)) <= List.length (filter f (skipn n l)).
Proof.
  intros H. replace i with ((i - n) + n) by lia.
  rewrite <- skipn_skipn.
  rewrite <- (firstn_skipn (i - n) (skipn n l)) at 2.
  rewrite filter_app, length_app. lia.
Qed.

Lemma sorted_indices_count {A : Type} (f : A -> bool) (l : list A) idxs n :
  StronglySorted lt idxs ->
  Forall (fun i => n <= i /\ exists x, nth_error l i = Some x
                                       /\ f x = true) idxs ->
  List.length idxs <= List.length (filter f (skipn n l)).
Proof.
  intros Hs. revert n. induction Hs as [|i idxs _ IH Hall]; intros n Hf.
  - simpl. lia.
  - inversion Hf as [|? ? [Hn (x & Hx & Hfx)] Hf']; subst.
    assert (Hrest : Forall (fun k => i + 1 <= k
                                     /\ exists x, nth_error l k = Some x
                                                  /\ f x = true) idxs).
    { rewrite Forall_forall in *. intros k Hk.
      split; [specialize (Hall k Hk); lia|now apply Hf']. }
    specialize (IH (i + 1) Hrest).
    pose proof (filter_skipn_length f l n i Hn) as Hm.
    rewrite (skipn_nth_error_cons l i x Hx) in Hm.
    cbn [filter] in Hm. rewrite Hfx in Hm. cbn [List.length] in *. lia.
Qed.

Lemma Forall2_length_indices {A B : Type} (R : nat -> B -> Prop)
  (f : A -> bool) (l : list A) idxs new :
  (forall i h, R i h -> exists x, nth_error l i = Some x /\ f x = true) ->
  StronglySorted lt idxs -> Forall2 R idxs new ->
  List.length new <= List.length (filter f l).
Proof.
  intros HR Hs H2.
  rewrite <- (Forall2_length H2).
  apply (sorted_indices_count f l idxs 0 Hs).
  clear Hs. induction H2; constructor; auto.
  split; [lia|]. eapply HR. eassumption.
Qed.

(** X12: a scan emits at most one record for each anchor line of the
    document, so a document without anchor line gives no record. *)
Theorem records_at_most_anchors (all_lines : list (nat * string)) :
  (exists hunts,
     PdfText.parse_lines all_lines = Some hunts
     /\ List.length hunts
        <= List.length
             (filter (fun l => String.eqb l PdfText.ANCHOR)
                     (map snd all_lines)))
  /\ (forall source_file year,
        List.length (Folder.parse_lines source_file year all_lines)
        <= List.length (filter is_title (map snd all_lines)))
  /\ (forall source_file source_url url_name,
        List.length (ImportUrls.parse_lines source_file source_url url_name
                       all_lines)
        <= List.length (filter (fun l => Py.startswith l "Units:")
                               (map snd all_lines))).
Proof.
  split; [|split].
  - destruct (PdfText_parse_lines_emitted all_lines)
      as (hunts & idxs & E & S & F2).
    exists hunts. split; [exact E|].
    eapply Forall2_length_indices; [|exact S|exact F2].
    intros i h (pnum & rl & Hn & _). exists PdfText.ANCHOR.
    split; [now rewrite nth_error_map, Hn|reflexivity].
  - intros sf year.
    destruct (Folder_parse_lines_emitted sf year all_lines)
      as (idxs & S & F2).
    eapply Forall2_length_indices; [|exact S|exact F2].
    intros i h (line & lj & j & e & rl & Hn & Ha & _). now exists line.
  - intros sf su un.
    destruct (ImportUrls_parse_lines_emitted sf su un all_lines)
      as (idxs & S & F2).
    eapply Forall2_length_indices; [|exact S|exact F2].
    intros i h (line & lj & j & e & rl & Hn & Ha & _). now exists line.
Qed.

(** ** Classification of the records of [parse_ndow_folder.py] *)

Lemma species_map_get_id s : Folder.species_map_get s = s.
Proof.
  unfold Folder.species_map_get.
  repeat match goal with
         | |- (if String.eqb s ?k then _ else _) = _ =>
             destruct (String.eqb_spec s k) as [->|_]; [reflexivity|]
         end.
  reflexivity.
Qed.

(** X13: every record of [parse_single_pdf] has a title line as title, the
    residency "R" or "NR" that the title starts with, and a species: the
    second word of the title in lower case, which the species table never
    changes ("NR Mule Deer" gives the species "mule"). *)
Theorem folder_records_classified (source_file : string) (year : Z)
  (all_lines : list (nat * string)) :
  Forall (fun h =>
            is_title (Folder.title h) = true
            /\ (Folder.residency h = "R" \/ Folder.residency h = "NR")
            /\ exists raw rest,
                 Py.split (Folder.title h)
                 = Folder.residency h :: raw :: rest
                 /\ Folder.species h = Some (Py.lower raw)
                 /\ Folder.category h
                    = Folder.or_none (Py.strip (Py.join " " rest)))
         (Folder.parse_lines source_file year all_lines).
Proof.
  destruct (Folder_parse_lines_emitted source_file year all_lines)
    as (idxs & _ & F2).
  apply Forall2_exists_l in F2. eapply Forall_impl; [|exact F2].
  intros h (i & line & lj & j & e & rl & _ & Ha & Ht & _ & Hi & _).
  rewrite Ht. split; [exact Ha|].
  destruct (is_title_infer line Ha) as (res & sp & cat & E & Hres).
  rewrite E in Hi. injection Hi as Hr Hsp Hc.
  split; [now rewrite <- Hr|].
  unfold Folder.infer_species_and_category in E.
  destruct (Py.split line) as [|r0 [|raw rest]]; try discriminate.
  injection E as E1 E2 E3. exists raw, rest.
  rewrite <- Hr, <- Hsp, <- Hc, <- E1, <- E2, <- E3, species_map_get_id.
  auto.
Qed.

(** ** Titles of the records of [import_ndow_urls.py] *)

Lemma prev_nonempty_from_spec lines n :
  match ImportUrls.prev_nonempty_from lines n with
  | Some t =>
      exists j, j < n /\ t = Py.strip (nth j lines "") /\ t <> ""
                /\ forall k, j < k < n -> Py.strip (nth k lines "") = ""
  | None => forall k, k < n -> Py.strip (nth k lines "") = ""
  end.
Proof.
  induction n as [|n IH]; cbn [ImportUrls.prev_nonempty_from].
  - intros k Hk. lia.
  - destruct (Py.nonempty (Py.strip (nth n lines ""))) eqn:E.
    + exists n. split; [lia|]. split; [reflexivity|].
      split; [now apply nonempty_true|]. intros k Hk. lia.
    + assert (E' : Py.strip (nth n lines "") = "")
        by (destruct (Py.strip (nth n lines "")); [reflexivity|discriminate]).
      destruct (ImportUrls.prev_nonempty_from lines n) as [t|].
      * destruct IH as (j & Hj & Ht & Hne & Hk).
        exists j. split; [lia|]. split; [exact Ht|]. split; [exact Hne|].
        intros k Hjk. destruct (Nat.eq_dec k n) as [->|]; [exact E'|].
        apply Hk. lia.
      * intros k Hk. destruct (Nat.eq_dec k n) as [->|]; [exact E'|].
        apply IH. lia.
Qed.

(** X14: [prev_nonempty] returns the nearest line before the index that is
    not blank, stripped, and [None] when every line before it is blank; so
    on the lines of a document the title of a record of [parse_pdf_blocks]
    is the line just before its "Units:" line, and "Unknown Title" when
    the "Units:" line is the first line of the document. *)
Theorem import_urls_title_is_previous_line :
  (forall lines idx,
     match ImportUrls.prev_nonempty lines idx with
     | Some t =>
         exists j, j < idx /\ t = Py.strip (nth j lines "") /\ t <> ""
                   /\ forall k, j < k < idx -> Py.strip (nth k lines "") = ""
     | None => forall k, k < idx -> Py.strip (nth k lines "") = ""
     end)
  /\ forall source_file source_url url_name texts,
       Forall (fun b =>
                 exists i line,
                   nth_error (map snd (extract_all_lines texts)) i
                   = Some line
                   /\ Py.startswith line "Units:" = true
                   /\ ImportUrls.units b = label_value "Units:" line
                   /\ ((i = 0 /\ ImportUrls.title b = "Unknown Title")
                       \/ (0 < i
                           /\ nth_error (map snd (extract_all_lines texts))
                                (i - 1)
                              = Some (ImportUrls.title b))))
              (ImportUrls.parse_pdf_blocks source_file source_url url_name
                 texts).
Proof.
  split; [intros lines idx; apply prev_nonempty_from_spec|].
  intros sf su un texts. unfold ImportUrls.parse_pdf_blocks.
  destruct (ImportUrls_parse_lines_emitted sf su un (extract_all_lines texts))
    as (idxs & _ & F2).
  apply Forall2_exists_l in F2. eapply Forall_impl; [|exact F2].
  intros b (i & line & lj & j & e & rl & Hn & Ha & Ht & Hu & _).
  exists i, line. split; [exact Hn|]. split; [exact Ha|].
  split; [exact Hu|].
  destruct i as [|i]; [left; now split|].
  right. split; [lia|]. rewrite Ht.
  assert (Hi : i < List.length (map snd (extract_all_lines texts))).
  { assert (S i < List.length (map snd (extract_all_lines texts)))
      by (apply nth_error_Some; congruence). lia. }
  set (lines := map snd (extract_all_lines texts)) in *.
  assert (Hclean : nth i lines "" <> "" /\ Py.strip (nth i lines "")
                                          = nth i lines "").
  { assert (Hin : In (nth i lines "") lines) by now apply nth_In.
    apply in_map_iff in Hin. destruct Hin as ([p l] & El & Hin).
    pose proof (extract_pages_in texts 1 p l) as H.
    apply H in Hin. destruct Hin as (text & _ & _ & Hl).
    apply page_lines_clean in Hl. cbn [snd] in El. rewrite <- El.
    tauto. }
  destruct Hclean as [Hne Hs].
  cbn [ImportUrls.prev_nonempty ImportUrls.prev_nonempty_from].
  rewrite Hs. apply nonempty_true in Hne. rewrite Hne.
  replace (S i - 1) with i by lia.
  now apply nth_error_nth'.
Qed.

(** ** How a block ends *)

Lemma title_not_total l :
  is_title l = true -> Py.startswith l "Total" = false.
Proof.
  destruct l as [|c l]; [discriminate|].
  unfold is_title, Py.startswith. cbn [skip_prefix String.prefix].
  destruct (ascii_dec "T" c) as [<-|]; [|reflexivity].
  replace (Ascii.eqb "R" "T") with false by reflexivity.
  replace (Ascii.eqb "N" "T") with false by reflexivity.
  discriminate.
Qed.

(** X15: when the row loop of [parse_single_pdf] or [parse_pdf_blocks]
    meets a new anchor, the row-lines are those read before the anchor
    and the end page is the page of the line just before the anchor. *)
Theorem rows_end_before_new_anchor :
  (forall pages pre l rest k end_page row_lines,
     Forall (fun x => Py.startswith x "Total" = false
                      /\ is_title x = false) pre ->
     is_title l = true ->
     Folder.rows_loop pages (pre ++ l :: rest)%list k end_page row_lines
     = ((row_lines ++ filter is_row_line pre)%list,
        nth (k + List.length pre - 1) pages 0))
  /\ (forall pages pre l rest k end_page row_lines,
        Forall (fun x => Py.startswith x "Total" = false
                         /\ Py.startswith x "Units:" = false) pre ->
        Py.startswith l "Units:" = true ->
        ImportUrls.rows_loop pages (pre ++ l :: rest)%list k end_page
          row_lines
        = ((row_lines ++ filter is_row_line pre)%list,
           nth (k + List.length pre - 1) pages 0)).
Proof.
  split.
  - intros pages pre l rest k ep rl Hpre Hl.
    apply Folder_rows_loop_at_anchor; [exact Hpre| |exact Hl].
    now apply title_not_total.
  - intros. now apply ImportUrls_rows_loop_at_anchor.
Qed.

Lemma rows_end_before_new_anchor_witness :
  Folder.rows_loop [1; 1; 1; 1; 2; 2]
    ["5 1 412 300 250 200 150"; "page 1 ends"; "NR Elk Antlered"; "Units: 2"]
    2 1 []
  = (["5 1 412 300 250 200 150"], 1).
Proof.
  apply (proj1 rows_end_before_new_anchor [1; 1; 1; 1; 2; 2]
           ["5 1 412 300 250 200 150"; "page 1 ends"] "NR Elk Antlered"
           ["Units: 2"] 2 1 []).
  - repeat constructor.
  - reflexivity.
Defined.

Lemma Folder_rows_loop_at_total pages pre t rest k end_page row_lines :
  Forall (fun x => Py.startswith x "Total" = false
                   /\ is_title x = false) pre ->
  Py.startswith t "Total" = true ->
  Folder.rows_loop pages (pre ++ t :: rest)%list k end_page row_lines
  = ((row_lines ++ filter is_row_line pre)%list,
     nth (k + List.length pre) pages 0).
Proof.
  intros H Ht. revert k row_lines.
  induction H as [|x pre [Hx1 Hx2] _ IH]; intros k rl.
  - cbn [app Folder.rows_loop]. rewrite Ht.
    cbn [List.length filter]. rewrite Nat.add_0_r, app_nil_r. reflexivity.
  - cbn [app Folder.rows_loop]. rewrite Hx1, Hx2, IH.
    cbn [List.length filter]. f_equal.
    + destruct (is_row_line x); [|reflexivity]. now rewrite <- app_assoc.
    + f_equal. lia.
Qed.

Lemma ImportUrls_rows_loop_at_total pages pre t rest k end_page row_lines :
  Forall (fun x => Py.startswith x "Total" = false
                   /\ Py.startswith x "Units:" = false) pre ->
  Py.startswith t "Total" = true ->
  ImportUrls.rows_loop pages (pre ++ t :: rest)%list k end_page row_lines
  = ((row_lines ++ filter is_row_line pre)%list,
     nth (k + List.length pre) pages 0).
Proof.
  intros H Ht. revert k row_lines.
  induction H as [|x pre [Hx1 Hx2] _ IH]; intros k rl.
  - cbn [app ImportUrls.rows_loop]. rewrite Ht.
    cbn [List.length filter]. rewrite Nat.add_0_r, app_nil_r. reflexivity.
  - cbn [app ImportUrls.rows_loop]. rewrite Hx1, Hx2, IH.
    cbn [List.length filter]. f_equal.
    + destruct (is_row_line x); [|reflexivity]. now rewrite <- app_assoc.
    + f_equal. lia.
Qed.

Lemma PdfText_rows_loop_at_total pre p t rest i block row_lines :
  Forall (fun pl => Py.startswith (snd pl) "Total" = false
                    /\ String.eqb (snd pl) PdfText.ANCHOR = false) pre ->
  Py.startswith t "Total" = true ->
  PdfText.rows_loop (pre ++ (p, t) :: rest)%list i block row_lines
  = (i + List.length pre, PdfText.set_endPage p block,
     (row_lines ++ filter is_row_line (map snd pre))%list).
Proof.
  intros H Ht. revert i row_lines.
  induction H as [|[q x] pre [Hx1 Hx2] _ IH]; intros i rl.
  - cbn [app PdfText.rows_loop]. rewrite Ht.
    cbn [List.length map filter]. rewrite Nat.add_0_r, app_nil_r.
    reflexivity.
  - cbn [snd] in Hx1, Hx2. cbn [app PdfText.rows_loop].
    rewrite Hx1, Hx2, IH. cbn [List.length map filter snd].
    replace (i + 1 + List.length pre) with (i + S (List.length pre))
      by lia.
    destruct (is_row_line x); [|reflexivity]. now rewrite <- app_assoc.
Qed.

(** X16: a line that starts with "Total" ends the rows of a block in all
    three line scanners: the row-lines are those read before it, the end
    page is the page of the totals line, and nothing after it is read for
    this block. *)
Theorem rows_end_at_total_line :
  (forall pre p t rest i block row_lines,
     Forall (fun pl => Py.startswith (snd pl) "Total" = false
                       /\ String.eqb (snd pl) PdfText.ANCHOR = false) pre ->
     Py.startswith t "Total" = true ->
     PdfText.rows_loop (pre ++ (p, t) :: rest)%list i block row_lines
     = (i + List.length pre, PdfText.set_endPage p block,
        (row_lines ++ filter is_row_line (map snd pre))%list))
  /\ (forall pages pre t rest k end_page row_lines,
        Forall (fun x => Py.startswith x "Total" = false
                         /\ is_title x = false) pre ->
        Py.startswith t "Total" = true ->
        Folder.rows_loop pages (pre ++ t :: rest)%list k end_page row_lines
        = ((row_lines ++ filter is_row_line pre)%list,
           nth (k + List.length pre) pages 0))
  /\ (forall pages pre t rest k end_page row_lines,
        Forall (fun x => Py.startswith x "Total" = false
                         /\ Py.startswith x "Units:" = false) pre ->
        Py.startswith t "Total" = true ->
        ImportUrls.rows_loop pages (pre ++ t :: rest)%list k end_page
          row_lines
        = ((row_lines ++ filter is_row_line pre)%list,
           nth (k + List.length pre) pages 0)).
Proof.
  split; [|split].
  - intros. now apply PdfText_rows_loop_at_total.
  - intros. now apply Folder_rows_loop_at_total.
  - intros. now apply ImportUrls_rows_loop_at_total.
Qed.

Lemma rows_end_at_total_line_witness :
  Folder.rows_loop [1; 1; 1; 2; 2; 2]
    ["5 1 412 300 250 200 150"; "Total 1,312"; "7 9 9 9 9 9 9"] 2 1 []
  = (["5 1 412 300 250 200 150"], 2).
Proof.
  apply (proj1 (proj2 rows_end_at_total_line) [1; 1; 1; 2; 2; 2]
           ["5 1 412 300 250 200 150"] "Total 1,312" ["7 9 9 9 9 9 9"]
           2 1 []).
  - repeat constructor.
  - reflexivity.
Defined.

Lemma Folder_rows_loop_at_end pages pre k end_page row_lines :
  Forall (fun x => Py.startswith x "Total" = false
                   /\ is_title x = false) pre ->
  Folder.rows_loop pages pre k end_page row_lines
  = ((row_lines ++ filter is_row_line pre)%list, end_page).
Proof.
  intros H. revert k row_lines.
  induction H as [|x pre [Hx1 Hx2] _ IH]; intros k rl.
  - cbn [Folder.rows_loop filter]. now rewrite app_nil_r.
  - cbn [Folder.rows_loop]. rewrite Hx1, Hx2, IH. cbn [filter]. f_equal.
    destruct (is_row_line x); [|reflexivity]. now rewrite <- app_assoc.
Qed.

Lemma ImportUrls_rows_loop_at_end pages pre k end_page row_lines :
  Forall (fun x => Py.startswith x "Total" = false
                   /\ Py.startswith x "Units:" = false) pre ->
  ImportUrls.rows_loop pages pre k end_page row_lines
  = ((row_lines ++ filter is_row_line pre)%list, end_page).
Proof.
  intros H. revert k row_lines.
  induction H as [|x pre [Hx1 Hx2] _ IH]; intros k rl.
  - cbn [ImportUrls.rows_loop filter]. now rewrite app_nil_r.
  - cbn [ImportUrls.rows_loop]. rewrite Hx1, Hx2, IH. cbn [filter].
    f_equal.
    destruct (is_row_line x); [|reflexivity]. now rewrite <- app_assoc.
Qed.

Lemma PdfText_rows_loop_at_end pre i block row_lines :
  Forall (fun pl => Py.startswith (snd pl) "Total" = false
                    /\ String.eqb (snd pl) PdfText.ANCHOR = false) pre ->
  PdfText.rows_loop pre i block row_lines
  = (i + List.length pre, block,
     (row_lines ++ filter is_row_line (map snd pre))%list).
Proof.
  intros H. revert i row_lines.
  induction H as [|[q x] pre [Hx1 Hx2] _ IH]; intros i rl.
  - cbn [PdfText.rows_loop List.length map filter].
    now rewrite Nat.add_0_r, app_nil_r.
  - cbn [snd] in Hx1, Hx2. cbn [PdfText.rows_loop].
    rewrite Hx1, Hx2, IH. cbn [List.length map filter snd].
    replace (i + 1 + List.length pre) with (i + S (List.length pre))
      by lia.
    destruct (is_row_line x); [|reflexivity]. now rewrite <- app_assoc.
Qed.

(** X17: when the lines end before a totals line or a new anchor, the row
    loop keeps every row-line read and leaves the end page as it was: the
    page of the table header in [parse_single_pdf] and [parse_pdf_blocks],
    even when rows follow on later pages, and no end page at all in
    [parse_ndow_pdf_text.py]. *)
Theorem rows_end_at_end_of_lines :
  (forall pre i block row_lines,
     Forall (fun pl => Py.startswith (snd pl) "Total" = false
                       /\ String.eqb (snd pl) PdfText.ANCHOR = false) pre ->
     PdfText.rows_loop pre i block row_lines
     = (i + List.length pre, block,
        (row_lines ++ filter is_row_line (map snd pre))%list))
  /\ (forall pages pre k end_page row_lines,
        Forall (fun x => Py.startswith x "Total" = false
                         /\ is_title x = false) pre ->
        Folder.rows_loop pages pre k end_page row_lines
        = ((row_lines ++ filter is_row_line pre)%list, end_page))
  /\ (forall pages pre k end_page row_lines,
        Forall (fun x => Py.startswith x "Total" = false
                         /\ Py.startswith x "Units:" = false) pre ->
        ImportUrls.rows_loop pages pre k end_page row_lines
        = ((row_lines ++ filter is_row_line pre)%list, end_page)).
Proof.
  split; [|split].
  - intros. now apply PdfText_rows_loop_at_end.
  - intros. now apply Folder_rows_loop_at_end.
  - intros. now apply ImportUrls_rows_loop_at_end.
Qed.

Lemma rows_end_at_end_of_lines_witness :
  map (fun h => (Folder.startPage h, Folder.endPage h,
                 List.length (Folder.rows h)))
    (Folder.parse_lines "elk.pdf" 2025
       [(1, "R Elk Antlered"); (1, "Bonus Points");
        (1, "5 1 412 300 250 200 150"); (2, "6 2 40 30 20 10 5")])
  = [(1, 1, 2)]
  /\ Folder.rows_loop [1; 1; 1; 2]
       ["5 1 412 300 250 200 150"; "6 2 40 30 20 10 5"] 2 1 []
     = (["5 1 412 300 250 200 150"; "6 2 40 30 20 10 5"], 1).
Proof.
  split; [reflexivity|].
  apply (proj1 (proj2 rows_end_at_end_of_lines) [1; 1; 1; 2]
           ["5 1 412 300 250 200 150"; "6 2 40 30 20 10 5"] 2 1 []).
  repeat constructor.
Defined.

(** ** Blocks without table header in the guarded scanners *)

Lemma skipn_after_prefix {A : Type} (before : list A) (x : A) (rest : list A) :
  skipn (List.length before + 1) (before ++ x :: rest) = rest.
Proof.
  rewrite Nat.add_comm, <- skipn_skipn, skipn_app, skipn_all, Nat.sub_diag.
  reflexivity.
Qed.

(** X18: in [parse_pdf_blocks] a "Units:" block in which no "Bonus Points"
    line comes before the next "Units:" line or the end of the lines adds
    no record, and the scan goes on from that next "Units:" line as if the
    abandoned block had not been there. *)
Theorem import_urls_abandons_block_without_header
  (source_url source_file : string) (inferred_res : option string)
  (inferred_species : string) (pages : list nat)
  (before : list string) (line : string) (pre tail : list string)
  (blocks : list ImportUrls.Block) :
  Py.startswith line "Units:" = true ->
  Forall (fun x => Py.startswith x "Bonus Points" = false
                   /\ Py.startswith x "Units:" = false) pre ->
  (tail = [] \/ exists l rest, tail = l :: rest
                               /\ Py.startswith l "Units:" = true) ->
  let lines := (before ++ line :: pre ++ tail)%list in
  ImportUrls.parse_loop source_url source_file inferred_res
    inferred_species pages lines (line :: pre ++ tail)%list
    (List.length before) blocks
  = ImportUrls.parse_loop source_url source_file inferred_res
      inferred_species pages lines tail
      (List.length before + 1 + List.length pre) blocks.
Proof.
  intros Ha Hpre Ht lines. cbn [ImportUrls.parse_loop]. rewrite Ha.
  rewrite (ImportUrls_block_without_header source_url source_file
             inferred_res inferred_species pages lines
             (List.length before) line blocks pre tail);
    [|apply skipn_after_prefix|exact Hpre|exact Ht].
  apply ImportUrls_parse_loop_skip.
  eapply Forall_impl; [|exact Hpre]. now intros x [_ H].
Qed.

Lemma import_urls_abandons_block_without_header_witness :
  map ImportUrls.units
    (ImportUrls.parse_lines "elk.pdf" "" ""
       (stream_header_missing ["R Elk Antlered"; "Units: 061"]
                              ["NR Elk Antlered"; "Units: 062"]))
  = ["062"]
  /\ ImportUrls.parse_loop "" "elk.pdf" None "unknown" [1; 1; 1; 1; 1]
       ["Title A"; "Units: 061"; "Season: x"; "Title B"; "Units: 062"]
       ["Units: 061"; "Season: x"; "Title B"; "Units: 062"] 1 []
     = ImportUrls.parse_loop "" "elk.pdf" None "unknown" [1; 1; 1; 1; 1]
         ["Title A"; "Units: 061"; "Season: x"; "Title B"; "Units: 062"]
         ["Units: 062"] 4 [].
Proof.
  split; [reflexivity|].
  apply (import_urls_abandons_block_without_header "" "elk.pdf" None
           "unknown" [1; 1; 1; 1; 1] ["Title A"] "Units: 061"
           ["Season: x"; "Title B"] ["Units: 062"] []).
  - reflexivity.
  - repeat constructor.
  - right. exists "Units: 062", []. now split.
Defined.

Lemma PdfText_metadata_loop_at_end pre i block :
  Forall (fun pl => Py.startswith (snd pl) "Bonus Points" = false
                    /\ String.eqb (snd pl) PdfText.ANCHOR = false) pre ->
  fst (PdfText.metadata_loop pre i block) = i + List.length pre.
Proof.
  intros H. revert i block.
  induction H as [|[q l] pre [Hx1 Hx2] _ IH]; intros i block.
  - simpl. lia.
  - cbn [snd] in Hx1, Hx2. cbn [PdfText.metadata_loop].
    rewrite Hx1, Hx2, IH. cbn [List.length]. lia.
Qed.

(** X19: in [parse_ndow_pdf_text.py] a block in which no "Bonus Points"
    line comes before the next anchor adds no record and leaves the index
    on the line before that anchor, so the outer loop takes the anchor up
    as the start of the next block; a block that meets the end of the
    lines first adds no record either. *)
Theorem pdf_text_abandons_block_without_header
  (all_lines : list (nat * string)) (i pnum : nat) (line : string)
  (hunts : list PdfText.Hunt) (pre : list (nat * string)) :
  Forall (fun pl => Py.startswith (snd pl) "Bonus Points" = false
                    /\ String.eqb (snd pl) PdfText.ANCHOR = false) pre ->
  (forall p rest,
     skipn (i + 1) all_lines = (pre ++ (p, PdfText.ANCHOR) :: rest)%list ->
     PdfText.block_body all_lines i pnum line hunts
     = (i + List.length pre, hunts)
     /\ nth_error all_lines (i + List.length pre + 1)
        = Some (p, PdfText.ANCHOR))
  /\ (skipn (i + 1) all_lines = pre ->
      snd (PdfText.block_body all_lines i pnum line hunts) = hunts).
Proof.
  intros Hpre. split.
  - intros p rest Hs. split.
    + eapply PdfText_block_without_header; eassumption.
    + apply skipn_app_suffix in Hs.
      apply skipn_cons_nth_error in Hs. destruct Hs as [Hn _].
      now replace (i + List.length pre + 1) with (i + 1 + List.length pre)
        by lia.
  - intros Hs. unfold PdfText.block_body.
    pose proof (PdfText_metadata_loop_at_end pre (i + 1)
                  (PdfText.new_block line pnum) Hpre) as Hi.
    rewrite <- Hs in Hi at 1.
    destruct (PdfText.metadata_loop _ _ _) as [i2 b2]. cbn [fst] in Hi.
    subst i2.
    assert (E : skipn (i + 1 + List.length pre + 1) all_lines = []).
    { replace (i + 1 + List.length pre + 1)
        with ((List.length pre + 1) + (i + 1)) by lia.
      rewrite <- skipn_skipn, Hs. apply skipn_all2. lia. }
    rewrite E. reflexivity.
Qed.

Lemma pdf_text_abandons_block_without_header_witness :
  PdfText.block_body
    [(1, "NR Elk Antlered"); (1, "Units: 061"); (2, "NR Elk Antlered");
     (2, "Bonus Points")] 0 1 "NR Elk Antlered" []
  = (1, []).
Proof.
  apply (proj1 (pdf_text_abandons_block_without_header
                  [(1, "NR Elk Antlered"); (1, "Units: 061");
                   (2, "NR Elk Antlered"); (2, "Bonus Points")]
                  0 1 "NR Elk Antlered" [] [(1, "Units: 061")]
                  ltac:(repeat constructor))
           2 [(2, "Bonus Points")] eq_refl).
Defined.

(** ** Metadata values *)

Lemma prefix_self_app p v : String.prefix p (p ++ v) = true.
Proof.
  induction p as [|c p IH]; cbn [append String.prefix].
  - now destruct v.
  - destruct (ascii_dec c c) as [_|n]; [exact IH|now destruct n].
Qed.

Lemma remove_from_skip pat a v :
  Py.remove_from pat (a ++ v) (String.length a) = Py.remove_from pat v 0.
Proof.
  induction a as [|c a IH]; [reflexivity|].
  cbn [append String.length Py.remove_from]. exact IH.
Qed.

Lemma remove_all_label pat v :
  pat <> EmptyString -> Py.remove_all pat (pat ++ v) = Py.remove_all pat v.
Proof.
  intros Hne. unfold Py.remove_all.
  destruct pat as [|c p]; [congruence|].
  change (String c p ++ v)%string with (String c (p ++ v)).
  cbn [Py.remove_from].
  change (String c (p ++ v)) with (String c p ++ v)%string.
  rewrite prefix_self_app.
  replace (String.length (String c p) - 1) with (String.length p)
    by (cbn [String.length]; lia).
  apply remove_from_skip.
Qed.

Lemma remove_all_absent pat v :
  Py.contains pat v = false -> Py.remove_all pat v = v.
Proof.
  unfold Py.remove_all. induction v as [|c v IH]; [reflexivity|].
  cbn [Py.contains Py.remove_from]. intros H.
  apply orb_false_iff in H. destruct H as [H1 H2].
  rewrite H1, (IH H2). reflexivity.
Qed.

Lemma findall_skip_nondigits s t :
  any_char Py.is_digit s = false ->
  findall_numbers (s ++ t) None = findall_numbers t None.
Proof.
  induction s as [|c s IH]; [reflexivity|].
  cbn [any_char append findall_numbers]. intros H.
  apply orb_false_iff in H. destruct H as [H1 H2].
  rewrite H1. now apply IH.
Qed.

(** X20: the value stored for a metadata line is its text after the label,
    stripped, provided the label does not occur again in that text; the
    quota is the first integer of the line, whatever text without digits
    comes before it, and is absent when the line has no digit. *)
Theorem metadata_values :
  (forall label v,
     label <> EmptyString -> Py.contains label v = false ->
     label_value label (label ++ v) = Py.strip v)
  /\ (forall s t,
        any_char Py.is_digit s = false ->
        quota_value (s ++ t) = quota_value t)
  /\ (forall l, any_char Py.is_digit l = false -> quota_value l = None).
Proof.
  split; [|split].
  - intros label v Hne Hv. unfold label_value.
    now rewrite remove_all_label, remove_all_absent.
  - intros s t Hs. unfold quota_value, ints_from_line.
    now rewrite findall_skip_nondigits.
  - intros l Hl. unfold quota_value, ints_from_line.
    replace l with (l ++ "")%string
      by (clear Hl; induction l; cbn [append]; congruence).
    now rewrite findall_skip_nondigits.
Qed.

Lemma metadata_values_witness :
  label_value "Season:" "Season: Oct 05, 2025 - Oct 21, 2025 "
  = "Oct 05, 2025 - Oct 21, 2025"
  /\ quota_value "Quota: 12 tags" = Some 12%Z.
Proof.
  split.
  - apply (proj1 metadata_values "Season:"
             " Oct 05, 2025 - Oct 21, 2025 "); [discriminate|reflexivity].
  - apply (proj1 (proj2 metadata_values) "Quota: " "12 tags"). reflexivity.
Defined.

(** ** The URL list *)

Lemma read_urls_loop_acc ls seen urls :
  ImportUrls.read_urls_loop ls seen urls
  = (urls ++ ImportUrls.read_urls_loop ls seen [])%list.
Proof.
  revert seen urls. induction ls as [|l ls IH]; intros seen urls;
    cbn [ImportUrls.read_urls_loop]; [now rewrite app_nil_r|].
  destruct (_ || _); [apply IH|].
  destruct (existsb _ seen); [apply IH|].
  cbn [app]. rewrite (IH _ (urls ++ [_])%list), (IH _ [_]).
  now rewrite <- app_assoc.
Qed.

Lemma existsb_eqb_in u l : existsb (String.eqb u) l = true <-> In u l.
Proof.
  rewrite existsb_exists. split.
  - intros (x & Hx & E). apply String.eqb_eq in E. now subst.
  - intros H. exists u. split; [exact H|apply String.eqb_refl].
Qed.

Lemma read_urls_loop_seen_ext ls A B :
  (forall u, In u A <-> In u B) ->
  ImportUrls.read_urls_loop ls A [] = ImportUrls.read_urls_loop ls B [].
Proof.
  revert A B. induction ls as [|l ls IH]; intros A B H;
    cbn [ImportUrls.read_urls_loop]; [reflexivity|].
  destruct (_ || _); [now apply IH|].
  assert (E : existsb (String.eqb (Py.strip l)) A
              = existsb (String.eqb (Py.strip l)) B).
  { apply eq_true_iff_eq. rewrite !existsb_eqb_in. apply H. }
  rewrite E. destruct (existsb _ B); [now apply IH|].
  cbn [app].
  rewrite (read_urls_loop_acc _ _ [_]), (read_urls_loop_acc _ (_ :: B) [_]).
  f_equal. apply IH. intros u. simpl. rewrite H. tauto.
Qed.

Lemma read_urls_loop_filter ls S T :
  ImportUrls.read_urls_loop ls (S ++ T) []
  = filter (fun u => negb (existsb (String.eqb u) S))
           (ImportUrls.read_urls_loop ls T []).
Proof.
  revert T. induction ls as [|l ls IH]; intros T;
    cbn [ImportUrls.read_urls_loop]; [reflexivity|].
  destruct (_ || _); [apply IH|].
  set (u := Py.strip l).
  destruct (existsb (String.eqb u) T) eqn:ET.
  - assert (E : existsb (String.eqb u) (S ++ T) = true)
      by (rewrite existsb_app, ET; apply orb_true_r).
    rewrite E. apply IH.
  - rewrite existsb_app, ET, orb_false_r. cbn [app].
    rewrite (read_urls_loop_acc _ (u :: T) [u]). cbn [app filter].
    destruct (existsb (String.eqb u) S) eqn:ES; cbn [negb].
    + rewrite <- IH. apply read_urls_loop_seen_ext.
      intros x. rewrite !in_app_iff. simpl.
      apply existsb_eqb_in in ES. split; [tauto|].
      intros [H|[<-|H]]; tauto.
    + rewrite (read_urls_loop_acc _ _ [u]). cbn [app]. f_equal.
      rewrite <- IH. apply read_urls_loop_seen_ext.
      intros x. rewrite !in_app_iff. simpl. rewrite in_app_iff. tauto.
Qed.

Lemma read_urls_loop_in ls seen u :
  In u (ImportUrls.read_urls_loop ls seen []) <->
  (exists l, In l ls /\ u = Py.strip l) /\ names_url u /\ ~ In u seen.
Proof.
  revert seen. induction ls as [|l ls IH]; intros seen;
    cbn [ImportUrls.read_urls_loop].
  - simpl. split; [tauto|]. intros [(x & [] & _) _].
  - destruct (negb (Py.nonempty (Py.strip l))
              || Py.startswith (Py.strip l) "#") eqn:E.
    + rewrite IH. split.
      * intros [(x & Hx & ->) H]. split; [|exact H]. exists x.
        split; [now right|reflexivity].
      * intros [(x & [<-|Hx] & ->) [[Hne Hc] Hs]].
        -- exfalso. apply orb_true_iff in E. destruct E as [E|E].
           ++ apply negb_true_iff in E. apply nonempty_true in Hne.
              congruence.
           ++ congruence.
        -- split; [now exists x|]. now split.
    + apply orb_false_iff in E. destruct E as [E1 E2].
      apply negb_false_iff, nonempty_true in E1.
      destruct (existsb (String.eqb (Py.strip l)) seen) eqn:Es.
      * apply existsb_eqb_in in Es. rewrite IH. split.
        -- intros [(x & Hx & ->) H]. split; [|exact H]. exists x.
           split; [now right|reflexivity].
        -- intros [(x & [<-|Hx] & ->) [Hn Hs]]; [contradiction|].
           split; [now exists x|]. now split.
      * assert (Hns : ~ In (Py.strip l) seen).
        { intros H. apply existsb_eqb_in in H. congruence. }
        rewrite read_urls_loop_acc. cbn [app In]. rewrite IH. split.
        -- intros [<-|[(x & Hx & ->) [Hn Hs]]].
           ++ split; [exists l; split; [now left|reflexivity]|].
              split; [now split|exact Hns].
           ++ split; [exists x; split; [now right|reflexivity]|].
              split; [exact Hn|]. intros H. apply Hs. now right.
        -- intros [(x & [<-|Hx] & ->) [Hn Hs]]; [now left|].
           destruct (string_dec (Py.strip l) (Py.strip x)) as [e|ne];
             [now left|].
           right. split; [now exists x|]. split; [exact Hn|].
           intros [H|H]; [congruence|contradiction].
Qed.

Lemma read_urls_loop_nodup ls seen :
  NoDup (ImportUrls.read_urls_loop ls seen []).
Proof.
  revert seen. induction ls as [|l ls IH]; intros seen;
    cbn [ImportUrls.read_urls_loop]; [constructor|].
  destruct (_ || _); [apply IH|].
  destruct (existsb _ seen); [apply IH|].
  rewrite read_urls_loop_acc. cbn [app]. constructor; [|apply IH].
  intros H. apply read_urls_loop_in in H. destruct H as (_ & _ & H).
  apply H. now left.
Qed.

(** X21: the URL list read by [main] holds each URL once, in the order of
    its first occurrence: it has no duplicate, its members are exactly the
    stripped lines of the file that are neither blank nor comments, and
    reading a file in two parts gives the URLs of the first part followed
    by those of the second part that the first does not have. *)
Theorem read_urls_first_occurrences (file_lines more_lines : list string) :
  NoDup (ImportUrls.read_urls file_lines)
  /\ (forall u,
        In u (ImportUrls.read_urls file_lines) <->
        (exists l, In l file_lines /\ u = Py.strip l) /\ names_url u)
  /\ ImportUrls.read_urls (file_lines ++ more_lines)
     = (ImportUrls.read_urls file_lines
        ++ filter (fun u => negb (existsb (String.eqb u)
                                          (ImportUrls.read_urls file_lines)))
                  (ImportUrls.read_urls more_lines))%list.
Proof.
  unfold ImportUrls.read_urls. split; [apply read_urls_loop_nodup|]. split.
  - intros u. rewrite read_urls_loop_in. simpl. tauto.
  - assert (G : forall a seen,
               ImportUrls.read_urls_loop (a ++ more_lines) seen []
               = (ImportUrls.read_urls_loop a seen []
                  ++ ImportUrls.read_urls_loop more_lines
                       (ImportUrls.read_urls_loop a seen [] ++ seen) [])%list).
    { induction a as [|l a IH]; intros seen;
        cbn [app ImportUrls.read_urls_loop]; [reflexivity|].
      destruct (_ || _); [apply IH|].
      destruct (existsb (String.eqb (Py.strip l)) seen) eqn:Es; [apply IH|].
      cbn [app].
      rewrite (read_urls_loop_acc _ _ [_]),
        (read_urls_loop_acc a _ [_]), IH.
      cbn [app]. f_equal. f_equal.
      apply read_urls_loop_seen_ext. intros x.
      rewrite !in_app_iff. simpl. rewrite in_app_iff. simpl. tauto. }
    rewrite G, <- read_urls_loop_filter. now rewrite app_nil_r.
Qed.

(** ** Header, totals row and malformed rows of a table *)

Lemma find_header_none t i :
  PdfTable.find_header t i = None <->
  Forall (fun row => is_header_row row = false) t.
Proof.
  revert i. induction t as [|row t IH]; intros i; cbn [PdfTable.find_header].
  - split; [constructor|reflexivity].
  - fold (is_header_row row). destruct (is_header_row row) eqn:E.
    + split; [discriminate|]. intros H. inversion H; congruence.
    + rewrite IH. split; [now constructor|]. intros H. now inversion H.
Qed.

Lemma find_header_shift t i h :
  PdfTable.find_header t i = Some h ->
  i <= h /\ PdfTable.find_header t 0 = Some (h - i).
Proof.
  revert i h. induction t as [|row t IH]; intros i h;
    cbn [PdfTable.find_header]; [discriminate|].
  destruct (Py.contains _ _).
  - intros [= <-]. split; [lia|]. now rewrite Nat.sub_diag.
  - intros H. pose proof (IH _ _ H) as [Hle H0].
    split; [lia|].
    destruct (PdfTable.find_header t (0 + 1)) as [h'|] eqn:E1.
    + pose proof (IH _ _ E1) as [Hle' H1].
      rewrite H0 in H1. injection H1 as H1. f_equal. lia.
    + apply find_header_none in E1. apply (find_header_none t 0) in E1.
      congruence.
Qed.

Lemma find_header_app pre t :
  Forall (fun row => is_header_row row = false) pre ->
  PdfTable.find_header (pre ++ t)%list 0
  = option_map (fun h => List.length pre + h) (PdfTable.find_header t 0).
Proof.
  intros H. induction H as [|row pre Hrow _ IH].
  - cbn [app List.length]. now destruct (PdfTable.find_header t 0).
  - cbn [app PdfTable.find_header]. fold (is_header_row row). rewrite Hrow.
    destruct (PdfTable.find_header (pre ++ t)%list (0 + 1)) as [h|] eqn:E.
    + destruct (find_header_shift _ _ _ E) as [Hle E0].
      rewrite IH in E0.
      destruct (PdfTable.find_header t 0) as [h0|]; [|discriminate].
      cbn [option_map List.length] in *. injection E0 as E0.
      f_equal. lia.
    + apply find_header_none in E. apply (find_header_none _ 0) in E.
      rewrite IH in E.
      now destruct (PdfTable.find_header t 0).
Qed.

Lemma find_header_prefix_from a b i h :
  PdfTable.find_header a i = Some h ->
  PdfTable.find_header (a ++ b)%list i = Some h /\ h < i + List.length a.
Proof.
  revert i h.
  induction a as [|row a IH]; intros i h; cbn [app PdfTable.find_header];
    [discriminate|].
  destruct (Py.contains _ _).
  - intros [= <-]. split; [reflexivity|]. cbn [List.length]. lia.
  - intros H. destruct (IH _ _ H) as [E Hlt]. split; [exact E|].
    cbn [List.length]. lia.
Qed.

Lemma find_header_prefix a b h :
  PdfTable.find_header a 0 = Some h ->
  PdfTable.find_header (a ++ b)%list 0 = Some h /\ h < List.length a.
Proof. apply find_header_prefix_from. Qed.

(** X22: [normalize_table] returns [None] exactly when no row of the table
    contains "Bonus Points", and the rows before the first such row are
    ignored: a table with extra leading rows gives the same result. *)
Theorem normalize_table_header (int_of_float : string -> option Z)
  (t : PdfTable.table) :
  (PdfTable.normalize_table int_of_float t = Returned None <->
   Forall (fun row => is_header_row row = false) t)
  /\ forall pre,
       Forall (fun row => is_header_row row = false) pre ->
       PdfTable.normalize_table int_of_float (pre ++ t)%list
       = PdfTable.normalize_table int_of_float t.
Proof.
  split.
  - rewrite <- (find_header_none t 0). unfold PdfTable.normalize_table.
    destruct (PdfTable.find_header t 0) as [h|]; [|tauto].
    split; [|discriminate].
    now destruct (PdfTable.data_loop _ _ _).
  - intros pre Hpre. unfold PdfTable.normalize_table.
    rewrite (find_header_app pre t Hpre).
    destruct (PdfTable.find_header t 0) as [h|]; [|reflexivity].
    cbn [option_map].
    replace (List.length pre + h + 1) with ((h + 1) + List.length pre)
      by lia.
    rewrite <- skipn_skipn, skipn_app, skipn_all, Nat.sub_diag.
    reflexivity.
Qed.

Lemma total_row_cons row :
  is_total_row row = true -> exists c0 cs, row = c0 :: cs.
Proof. destruct row as [|c0 cs]; [discriminate|eauto]. Qed.

Lemma data_loop_stops_at_total f pre tot post acc :
  is_total_row tot = true ->
  PdfTable.data_loop f (pre ++ tot :: post)%list acc
  = PdfTable.data_loop f (pre ++ [tot])%list acc.
Proof.
  intros Ht. destruct (total_row_cons tot Ht) as (c0 & cs & ->).
  unfold is_total_row in Ht. cbn [hd] in Ht.
  revert acc. induction pre as [|row pre IH]; intros acc.
  - cbn [app PdfTable.data_loop]. now rewrite Ht.
  - cbn [app PdfTable.data_loop]. destruct row as [|r0 rs]; [reflexivity|].
    destruct (String.eqb (Py.lower (Py.strip (PdfTable.cell_text r0)))
                         "total"); [reflexivity|].
    destruct (_ || _); apply IH.
Qed.

(** X23: nothing after the first totals row of a table is read: with the
    header row in the part before it, the result of [normalize_table] is
    the same whatever rows follow the totals row, malformed ones
    included. *)
Theorem normalize_table_stops_at_total (int_of_float : string -> option Z)
  (a : PdfTable.table) (tot : list PdfTable.cell) (post : PdfTable.table) :
  Exists (fun row => is_header_row row = true) a ->
  is_total_row tot = true ->
  PdfTable.normalize_table int_of_float (a ++ tot :: post)%list
  = PdfTable.normalize_table int_of_float (a ++ [tot])%list.
Proof.
  intros Hh Ht. unfold PdfTable.normalize_table.
  destruct (PdfTable.find_header a 0) as [h|] eqn:E.
  - destruct (find_header_prefix a (tot :: post) h E) as [-> Hlt].
    destruct (find_header_prefix a [tot] h E) as [-> _].
    rewrite !skipn_app.
    replace (h + 1 - List.length a) with 0 by lia. cbn [skipn].
    now rewrite data_loop_stops_at_total.
  - apply find_header_none in E. apply Exists_exists in Hh.
    destruct Hh as (row & Hin & Hrow). rewrite Forall_forall in E.
    specialize (E row Hin). congruence.
Qed.

Lemma normalize_table_stops_at_total_witness :
  PdfTable.normalize_table PdfTable.int_of_float_digits
    [[Some "Bonus Points"]; [Some "5"; Some "1"]; [Some " TOTAL "];
     []; [Some "9"]]
  = Returned (Some [mkRow 5 [1; 0; 0; 0; 0]%Z [0; 0; 0; 0; 0]%Z 0]).
Proof.
  refine (eq_trans
            (normalize_table_stops_at_total PdfTable.int_of_float_digits
               [[Some "Bonus Points"]; [Some "5"; Some "1"]]
               [Some " TOTAL "] [[]; [Some "9"]] _ _) _).
  - left. reflexivity.
  - reflexivity.
  - reflexivity.
Defined.

Lemma data_loop_raised_iff f rest acc :
  PdfTable.data_loop f rest acc = Raised <->
  exists pre post,
    rest = (pre ++ [] :: post)%list
    /\ Forall (fun row => row <> [] /\ is_total_row row = false) pre.
Proof.
  revert acc. induction rest as [|row rest IH]; intros acc;
    cbn [PdfTable.data_loop].
  - split; [discriminate|]. intros (pre & post & E & _).
    now destruct pre.
  - destruct row as [|c0 cs].
    + split; [|reflexivity]. intros _. exists [], rest. now split.
    + assert (Hcons : forall X,
                 (X <-> exists pre post,
                          rest = (pre ++ [] :: post)%list
                          /\ Forall (fun row => row <> []
                                                /\ is_total_row row = false)
                                    pre) ->
                 String.eqb (Py.lower (Py.strip (PdfTable.cell_text c0)))
                            "total" = false ->
                 (X <-> exists pre post,
                          (c0 :: cs) :: rest = (pre ++ [] :: post)%list
                          /\ Forall (fun row => row <> []
                                                /\ is_total_row row = false)
                                    pre)).
      { intros X HX Hnt. rewrite HX. split.
        - intros (pre & post & -> & Hpre).
          exists ((c0 :: cs) :: pre), post. split; [reflexivity|].
          constructor; [|exact Hpre]. split; [discriminate|exact Hnt].
        - intros (pre & post & E & Hpre).
          destruct pre as [|r pre]; [discriminate|].
          injection E as <- ->. inversion Hpre; subst.
          now exists pre, post. }
      destruct (String.eqb _ "total") eqn:Et.
      * split; [discriminate|]. intros (pre & post & E & Hpre).
        destruct pre as [|r pre]; [discriminate|].
        injection E as <- _. inversion Hpre as [|? ? [_ Hr] _]; subst.
        unfold is_total_row in Hr. cbn [hd] in Hr. congruence.
      * destruct (_ || _); apply Hcons; auto.
Qed.

(** X24: [normalize_table] raises exactly when a row without any cell lies
    after the header row and before the first totals row; a table whose
    rows all have a cell never raises. *)
Theorem normalize_table_raises_iff (int_of_float : string -> option Z)
  (t : PdfTable.table) :
  (PdfTable.normalize_table int_of_float t = Raised <->
   exists h pre post,
     PdfTable.find_header t 0 = Some h
     /\ skipn (h + 1) t = (pre ++ [] :: post)%list
     /\ Forall (fun row => row <> [] /\ is_total_row row = false) pre)
  /\ (Forall (fun row => row <> []) t ->
      PdfTable.normalize_table int_of_float t <> Raised).
Proof.
  assert (H1 : PdfTable.normalize_table int_of_float t = Raised <->
               exists h pre post,
                 PdfTable.find_header t 0 = Some h
                 /\ skipn (h + 1) t = (pre ++ [] :: post)%list
                 /\ Forall (fun row => row <> []
                                       /\ is_total_row row = false) pre).
  { unfold PdfTable.normalize_table.
    destruct (PdfTable.find_header t 0) as [h|].
    - destruct (PdfTable.data_loop int_of_float (skipn (h + 1) t) [])
        eqn:E.
      + split; [intros _|reflexivity].
        apply data_loop_raised_iff in E.
        destruct E as (pre & post & E & Hpre). now exists h, pre, post.
      + split; [discriminate|].
        intros (h' & pre & post & [= <-] & Es & Hpre).
        assert (R : PdfTable.data_loop int_of_float (skipn (h + 1) t) []
                    = Raised)
          by (apply data_loop_raised_iff; now exists pre, post).
        congruence.
    - split; [discriminate|]. intros (h & _ & _ & E & _). discriminate. }
  split; [exact H1|].
  intros Hne Hr. apply H1 in Hr. destruct Hr as (h & pre & post & _ & E & _).
  rewrite Forall_forall in Hne. apply (Hne []); [|reflexivity].
  rewrite <- (firstn_skipn (h + 1) t), E. apply in_or_app. right.
  apply in_or_app. right. now left.
Qed.

(** ** Records of the table-extraction variant *)

Lemma table_parts_loop_records f pages parts text tables n hunts r :
  nth_error pages n = Some (text, tables) ->
  Forall (table_record_ok f pages) hunts ->
  PdfTable.parts_loop f parts tables n hunts = Returned r ->
  Forall (table_record_ok f pages) r.
Proof.
  intros Hn. revert hunts.
  induction parts as [|part parts IH]; intros hunts Hh;
    cbn [PdfTable.parts_loop]; [now intros [= <-]|].
  destruct (negb (Py.startswith (Py.strip part) "NR Elk Antlered"));
    [now apply IH|].
  destruct (PdfTable.choose_table tables) as [chosen|] eqn:Ec;
    [|now apply IH].
  destruct (negb (nonnil chosen)); [now apply IH|].
  destruct (PdfTable.normalize_table f chosen) as [|[rows|]] eqn:En;
    [discriminate| |now apply IH].
  destruct (nonnil rows) eqn:Er; cbn [negb]; [|now apply IH].
  apply IH. apply Forall_snoc; [exact Hh|].
  assert (n < List.length pages) by (apply nth_error_Some; congruence).
  unfold table_record_ok. cbn [PdfTable.rows PdfTable.sourcePage].
  split; [now apply nonnil_true|]. split; [lia|].
  exists text, tables, chosen.
  replace (n + 1 - 1) with n by lia. now repeat split.
Qed.

Lemma table_pages_loop_records f pages rest n hunts r :
  skipn n pages = rest ->
  Forall (table_record_ok f pages) hunts ->
  PdfTable.pages_loop f rest n hunts = Returned r ->
  Forall (table_record_ok f pages) r.
Proof.
  revert n hunts. induction rest as [|[text tables] rest IH];
    intros n hunts Hs Hh; cbn [PdfTable.pages_loop]; [now intros [= <-]|].
  destruct (skipn_cons_nth_error _ _ _ _ Hs) as [Hn Hs'].
  destruct (PdfTable.parts_loop f _ tables n hunts) as [|hunts'] eqn:Ep;
    [discriminate|].
  apply IH; [exact Hs'|].
  eapply table_parts_loop_records; eassumption.
Qed.

(** X25: in the table-extraction variant every record of [parse_pdf] has
    rows, a source page among the pages of the document, and as rows the
    normalised first matching table of its page; so all the records of
    one page carry the same rows, whatever block they were made for. *)
Theorem table_records_share_page_table (int_of_float : string -> option Z)
  (pages : list (string * list PdfTable.table))
  (hunts : list PdfTable.Hunt) :
  PdfTable.parse_pdf int_of_float pages = Returned hunts ->
  Forall (table_record_ok int_of_float pages) hunts
  /\ forall h1 h2,
       In h1 hunts -> In h2 hunts ->
       PdfTable.sourcePage h1 = PdfTable.sourcePage h2 ->
       PdfTable.rows h1 = PdfTable.rows h2.
Proof.
  intros H.
  assert (Hall : Forall (table_record_ok int_of_float pages) hunts).
  { eapply (table_pages_loop_records int_of_float pages pages 0 []);
      [reflexivity|constructor|exact H]. }
  split; [exact Hall|].
  intros h1 h2 H1 H2 Hp. rewrite Forall_forall in Hall.
  destruct (Hall h1 H1) as (_ & _ & t1 & ts1 & c1 & N1 & C1 & R1).
  destruct (Hall h2 H2) as (_ & _ & t2 & ts2 & c2 & N2 & C2 & R2).
  rewrite Hp in N1. congruence.
Qed.

Lemma table_records_share_page_table_witness :
  exists hunts,
    PdfTable.parse_pdf PdfTable.int_of_float_digits
      [(Py.join newline
          ["NR Elk Antlered"; "Units: 061"; "NR Elk Antlered"; "Units: 062"],
        [[[Some "Bonus Points"; Some "Total Applicants"];
          [Some "5"; Some "1"]]])]
    = Returned hunts
    /\ map PdfTable.units hunts = [Some "061"; Some "062"]
    /\ Forall (table_record_ok PdfTable.int_of_float_digits
                 [(Py.join newline
                     ["NR Elk Antlered"; "Units: 061"; "NR Elk Antlered";
                      "Units: 062"],
                   [[[Some "Bonus Points"; Some "Total Applicants"];
                     [Some "5"; Some "1"]]])])
              hunts.
Proof.
  eexists. split; [reflexivity|]. split; [reflexivity|].
  apply (table_records_share_page_table PdfTable.int_of_float_digits).
  reflexivity.
Defined.

(** ** Metadata of a block text *)

Lemma skip_prefix_app p s : skip_prefix p (p ++ s) = Some s.
Proof.
  induction p as [|c p IH]; cbn [append skip_prefix]; [reflexivity|].
  now rewrite Ascii.eqb_refl.
Qed.

Lemma skip_prefix_some p s r :
  skip_prefix p s = Some r -> String.prefix p s = true.
Proof.
  revert s. induction p as [|c p IH]; intros s; cbn [skip_prefix].
  - intros _. now destruct s.
  - destruct s as [|d s]; [discriminate|].
    destruct (Ascii.eqb_spec c d) as [<-|]; [|discriminate].
    intros H. cbn [String.prefix].
    destruct (ascii_dec c c) as [_|n]; [now apply IH|now destruct n].
Qed.

Lemma search_rest_eq label text :
  PdfTable.search_rest label text
  = match and_then (skip_prefix label text) PdfTable.rest_of_line with
    | Some g => Some g
    | None =>
        match text with
        | String _ t => PdfTable.search_rest label t
        | EmptyString => None
        end
    end.
Proof. now destruct text. Qed.

Lemma search_rest_absent label text :
  Py.contains label text = false -> PdfTable.search_rest label text = None.
Proof.
  induction text as [|c t IH]; rewrite search_rest_eq;
    cbn [Py.contains]; intros H.
  - destruct (skip_prefix label "") eqn:E; [|reflexivity].
    apply skip_prefix_some in E. rewrite orb_false_r in H. congruence.
  - apply orb_false_iff in H. destruct H as [H1 H2].
    destruct (skip_prefix label (String c t)) eqn:E.
    + apply skip_prefix_some in E. congruence.
    + now apply IH.
Qed.

Lemma search_quota_absent text :
  Py.contains "Quota:" text = false -> PdfTable.search_quota text = None.
Proof.
  induction text as [|c t IH]; cbn [Py.contains]; intros H.
  - reflexivity.
  - apply orb_false_iff in H. destruct H as [H1 H2].
    cbn [PdfTable.search_quota].
    destruct (skip_prefix "Quota:" (String c t)) eqn:E.
    + apply skip_prefix_some in E. congruence.
    + now apply IH.
Qed.

Lemma drop_spaces_app ws s :
  all_chars Py.is_space ws = true ->
  Py.drop_while Py.is_space (ws ++ s) = Py.drop_while Py.is_space s.
Proof.
  induction ws as [|c ws IH]; [reflexivity|].
  cbn [all_chars append Py.drop_while]. intros H.
  apply andb_true_iff in H. destruct H as [H1 H2].
  rewrite H1. now apply IH.
Qed.

Lemma take_line_app v rest :
  any_char PdfTable.is_newline v = false -> at_line_end rest ->
  PdfTable.take_while (fun c => negb (PdfTable.is_newline c)) (v ++ rest) = v.
Proof.
  intros Hv Hr. induction v as [|c v IH].
  - cbn [append]. destruct Hr as [->|(c & r & -> & Hc)]; [reflexivity|].
    cbn [PdfTable.take_while]. now rewrite Hc.
  - cbn [any_char] in Hv. apply orb_false_iff in Hv.
    destruct Hv as [H1 H2]. cbn [append PdfTable.take_while].
    rewrite H1. cbn [negb]. now rewrite IH.
Qed.

(** X26: in the table-extraction variant the value of a label is what
    follows it on its line or, when nothing follows there, the next line
    with text: the white space between label and value, line breaks
    included, is skipped and the value runs to the end of its line; a
    label that does not occur in the block text gives no value. *)
Theorem table_metadata_values (text : string) :
  (Py.contains "Units:" text = false ->
   PdfTable.m_units (PdfTable.extract_metadata text) = None)
  /\ (Py.contains "Season:" text = false ->
      PdfTable.m_season (PdfTable.extract_metadata text) = None)
  /\ (Py.contains "Quota:" text = false ->
      PdfTable.m_quota (PdfTable.extract_metadata text) = None)
  /\ (Py.contains "Weapon" text = false ->
      PdfTable.m_weapon (PdfTable.extract_metadata text) = None)
  /\ forall ws c v rest,
       all_chars Py.is_space ws = true ->
       Py.is_space c = false ->
       any_char PdfTable.is_newline (String c v) = false ->
       at_line_end rest ->
       text = ("Units:" ++ ws ++ String c v ++ rest)%string ->
       PdfTable.m_units (PdfTable.extract_metadata text)
       = Some (Py.strip (String c v)).
Proof.
  unfold PdfTable.extract_metadata.
  cbn [PdfTable.m_units PdfTable.m_season PdfTable.m_quota
       PdfTable.m_weapon].
  split; [intros H; now rewrite search_rest_absent|].
  split; [intros H; now rewrite search_rest_absent|].
  split; [apply search_quota_absent|].
  split; [intros H; now rewrite search_rest_absent|].
  intros ws c v rest Hws Hc Hv Hr ->.
  rewrite search_rest_eq, skip_prefix_app. cbn [and_then].
  unfold PdfTable.rest_of_line. rewrite (drop_spaces_app ws _ Hws).
  change (String c v ++ rest)%string with (String c (v ++ rest)).
  cbn [Py.drop_while]. rewrite Hc.
  change (String c (v ++ rest)) with (String c v ++ rest)%string.
  now rewrite (take_line_app _ _ Hv Hr).
Qed.

Lemma table_metadata_values_witness :
  PdfTable.m_units
    (PdfTable.extract_metadata
       ("Units:" ++ (" " ++ newline ++ "  ") ++ "061, 071 "
        ++ (newline ++ "Season: Oct 05")))
  = Some "061, 071".
Proof.
  apply (proj2 (proj2 (proj2 (proj2 (table_metadata_values _))))
           (" " ++ newline ++ "  ")%string "0"%char "61, 071 "
           (newline ++ "Season: Oct 05")%string).
  - reflexivity.
  - reflexivity.
  - reflexivity.
  - right. eexists _, _. split; reflexivity.
  - reflexivity.
Defined.

(** ** Splitting a text and joining it again *)

Lemma newline_char c :
  PdfTable.is_newline c = true -> String c EmptyString = newline.
Proof.
  unfold PdfTable.is_newline, newline. intros H. apply Nat.eqb_eq in H.
  now rewrite <- H, ascii_nat_embedding.
Qed.

Lemma append_assoc (a b c : string) :
  ((a ++ b) ++ c)%string = (a ++ (b ++ c))%string.
Proof. induction a as [|x a IH]; cbn [append]; congruence. Qed.

Lemma append_nil_r (a : string) : (a ++ "")%string = a.
Proof. induction a as [|x a IH]; cbn [append]; congruence. Qed.

Lemma split_lines_from_spec s cur :
  exists first rest,
    Py.split_lines_from s cur = first :: rest
    /\ Py.join newline (first :: rest) = (cur ++ s)%string.
Proof.
  revert cur. induction s as [|c s IH]; intros cur;
    cbn [Py.split_lines_from].
  - exists cur, []. split; [reflexivity|]. unfold Py.join. cbn [concat].
    now rewrite append_nil_r.
  - destruct (nat_of_ascii c =? 10) eqn:E.
    + destruct (IH EmptyString) as (f & r & -> & J).
      exists cur, (f :: r). split; [reflexivity|].
      unfold Py.join in *. cbn [concat] in *. rewrite J. cbn [append].
      change (String c s) with (String c EmptyString ++ s)%string.
      now rewrite (newline_char c E).
    + destruct (IH (cur ++ String c EmptyString)%string) as (f & r & -> & J).
      exists f, r. split; [reflexivity|].
      rewrite J, append_assoc. reflexivity.
Qed.

Lemma join_first f r :
  exists t, Py.join newline (f :: r) = (f ++ t)%string /\ at_line_end t.
Proof.
  unfold Py.join. destruct r as [|x r]; cbn [concat].
  - exists EmptyString. split; [now rewrite append_nil_r|now left].
  - eexists. split; [reflexivity|]. right. unfold newline. cbn [append].
    eexists _, _. split; reflexivity.
Qed.

Lemma skip_prefix_truncated p f t r :
  skip_prefix p (f ++ t) = Some r ->
  any_char PdfTable.is_newline p = false -> at_line_end t ->
  exists r', skip_prefix p f = Some r' /\ r = (r' ++ t)%string.
Proof.
  revert f r. induction p as [|a p IH]; intros f r; cbn [skip_prefix].
  - intros [= <-] _ _. now exists f.
  - cbn [any_char]. intros H Hp Ht. apply orb_false_iff in Hp.
    destruct Hp as [Ha Hp].
    destruct f as [|b f].
    + cbn [append] in H.
      destruct Ht as [->|(c & t' & -> & Hc)]; [discriminate|].
      destruct (Ascii.eqb_spec a c) as [<-|]; [congruence|discriminate].
    + cbn [append] in H.
      destruct (Ascii.eqb a b); [|discriminate]. now apply IH.
Qed.

Lemma block_starts_truncated f t :
  PdfTable.block_starts (f ++ t) = true -> at_line_end t ->
  PdfTable.block_starts f = true.
Proof.
  unfold PdfTable.block_starts. intros H Ht.
  destruct (skip_prefix "NR Elk Antlered" (f ++ t)) as [r|] eqn:E;
    [|discriminate].
  destruct (skip_prefix_truncated _ f t r E eq_refl Ht) as (r' & -> & ->).
  destruct r' as [|x r']; [reflexivity|exact H].
Qed.

Lemma split_blocks_spec s cur :
  exists first rest,
    PdfTable.split_blocks s cur = first :: rest
    /\ Py.join newline (first :: rest) = (cur ++ s)%string
    /\ Forall (fun part => PdfTable.block_starts part = true) rest.
Proof.
  revert cur. induction s as [|c s IH]; intros cur;
    cbn [PdfTable.split_blocks].
  - exists cur, []. split; [reflexivity|].
    split; [|constructor]. unfold Py.join. cbn [concat].
    now rewrite append_nil_r.
  - destruct (PdfTable.is_newline c && PdfTable.block_starts s) eqn:E.
    + apply andb_true_iff in E. destruct E as [E1 E2].
      destruct (IH EmptyString) as (f & r & Es & J & F).
      exists cur, (f :: r). rewrite Es. split; [reflexivity|]. split.
      * unfold Py.join in *. cbn [concat] in *. rewrite J. cbn [append].
        change (String c s) with (String c EmptyString ++ s)%string.
        now rewrite (newline_char c E1).
      * constructor; [|exact F].
        destruct (join_first f r) as (t & Jt & Ht).
        rewrite J in Jt. cbn [append] in Jt. rewrite Jt in E2.
        eapply block_starts_truncated; eassumption.
    + destruct (IH (cur ++ String c EmptyString)%string)
        as (f & r & -> & J & F).
      exists f, r. split; [reflexivity|]. split; [|exact F].
      rewrite J, append_assoc. reflexivity.
Qed.

(** X27: splitting a text loses nothing: the lines of [split("\n")] joined
    with newlines give the text back, and so do the parts into which
    [parse_pdf] of the table-extraction variant splits a page; every part
    but the first starts with the words "NR Elk Antlered". *)
Theorem split_then_join (text : string) :
  Py.join newline (Py.split_lines text) = text
  /\ Py.join newline (PdfTable.split_blocks text EmptyString) = text
  /\ Forall (fun part => PdfTable.block_starts part = true)
            (tl (PdfTable.split_blocks text EmptyString)).
Proof.
  split; [|split].
  - unfold Py.split_lines.
    destruct (split_lines_from_spec text EmptyString) as (f & r & -> & J).
    exact J.
  - destruct (split_blocks_spec text EmptyString) as (f & r & -> & J & _).
    exact J.
  - destruct (split_blocks_spec text EmptyString) as (f & r & -> & _ & F).
    exact F.
Qed.

(** ** The residency hint of a URL *)

Lemma contains_empty_string b : Py.contains b "" = String.prefix b "".
Proof. cbn [Py.contains]. apply orb_false_r. Qed.

Lemma prefix_app_contains a b s :
  String.prefix (a ++ b) s = true -> Py.contains b s = true.
Proof.
  revert s. induction a as [|x a IH]; intros s; cbn [append].
  - intros H. destruct s; cbn [Py.contains]; rewrite H; reflexivity.
  - destruct s as [|y s]; cbn [String.prefix]; [discriminate|].
    destruct (ascii_dec x y); [|discriminate].
    intros H. cbn [Py.contains]. rewrite (IH _ H). apply orb_true_r.
Qed.

Lemma contains_app_r a b s :
  Py.contains (a ++ b) s = true -> Py.contains b s = true.
Proof.
  induction s as [|y s IH].
  - rewrite contains_empty_string. apply prefix_app_contains.
  - cbn [Py.contains]. intros H. apply orb_true_iff in H.
    destruct H as [H|H].
    + exact (prefix_app_contains a b _ H).
    + fold (Py.contains b (String y s)).
      cbn [Py.contains]. rewrite (IH H). apply orb_true_r.
Qed.

Lemma lower_ascii_idempotent c :
  Py.lower_ascii (Py.lower_ascii c) = Py.lower_ascii c.
Proof.
  unfold Py.lower_ascii.
  destruct ((65 <=? nat_of_ascii c) && (nat_of_ascii c <=? 90)) eqn:E;
    [|now rewrite E].
  apply andb_true_iff in E. destruct E as [E1 E2].
  apply Nat.leb_le in E1. apply Nat.leb_le in E2.
  rewrite nat_ascii_embedding by lia.
  assert (E : (nat_of_ascii c + 32 <=? 90) = false)
    by (apply Nat.leb_gt; lia).
  now rewrite E, andb_false_r.
Qed.

Lemma lower_idempotent s : Py.lower (Py.lower s) = Py.lower s.
Proof.
  induction s as [|c s IH]; cbn [Py.lower]; [reflexivity|].
  now rewrite lower_ascii_idempotent, IH.
Qed.

(** X28: the residency hint of a URL does not depend on letter case; it is
    "NR" exactly when the URL contains "nonresident", "R" exactly when it
    contains "resident" but not "nonresident", and absent exactly when it
    does not contain "resident" at all. *)
Theorem residency_hint_of_url (url : string) :
  ImportUrls.infer_residency_from_url (Py.lower url)
  = ImportUrls.infer_residency_from_url url
  /\ (ImportUrls.infer_residency_from_url url = Some "NR" <->
      Py.contains "nonresident" (Py.lower url) = true)
  /\ (ImportUrls.infer_residency_from_url url = Some "R" <->
      Py.contains "resident" (Py.lower url) = true
      /\ Py.contains "nonresident" (Py.lower url) = false)
  /\ (ImportUrls.infer_residency_from_url url = None <->
      Py.contains "resident" (Py.lower url) = false).
Proof.
  unfold ImportUrls.infer_residency_from_url.
  rewrite lower_idempotent. split; [reflexivity|].
  pose proof (contains_app_r "non" "resident" (Py.lower url)) as Hsub.
  cbn [append] in Hsub.
  destruct (Py.contains "nonresident" (Py.lower url)).
  - rewrite (Hsub eq_refl).
    repeat split; try discriminate; try tauto.
    intros [_ H]. discriminate.
  - destruct (Py.contains "resident" (Py.lower url));
      repeat split; try discriminate; try tauto;
      intros [H _]; discriminate.
Qed.
